(** * WOLFAI monitoring scripts: model evaluation, threshold checks, cost anomalies

    A shallow embedding of

      - [ml/scripts/evaluate_models.py]          (module [EvaluateModels]),
      - [ml/scripts/check_model_performance.py]  (module [CheckModelPerformance]),
      - [monitoring/analyze_costs.py]            (module [AnalyzeCosts]),

    together with the properties their specification states about them
    and, in the second part, further properties of the same functions and
    of the functions around them.

    Numbers.  The scripts compute with IEEE-754 doubles (Python [float],
    numpy [float64]).  Module [PyFloat] keeps the special values the code
    meets ([nan], [inf], [-inf]) and the way they propagate, and takes the
    finite values to be exact reals: rounding, overflow and the sign of zero
    are left out.  Python dictionaries, whose iteration order is insertion
    order, are association lists. *)

From Stdlib Require Import Reals Lra Lia List String Ascii Bool Arith PeanoNat.
From Stdlib Require Import Sorting.Sorted Sorting.Permutation.
From Stdlib Require Import NArith.
Import ListNotations.

(* ================================================================= *)
(** ** Doubles: special values over exact reals *)

Module PyFloat.

Inductive float : Type :=
| NaN
| PInf
| NInf
| Fin (r : R).

Definition Rltb (x y : R) : bool := if Rlt_dec x y then true else false.
Definition Reqb (x y : R) : bool := if Req_dec_T x y then true else false.

Definition is_nan (x : float) : bool :=
  match x with NaN => true | _ => false end.

Definition is_finite (x : float) : bool :=
  match x with Fin _ => true | _ => false end.

Definition is_zero (x : float) : bool :=
  match x with Fin r => Reqb r 0 | _ => false end.

Definition negative (x : float) : bool :=
  match x with NInf => true | Fin r => Rltb r 0 | _ => false end.

Definition inf_of (neg : bool) : float := if neg then NInf else PInf.

Definition fneg (x : float) : float :=
  match x with
  | NaN => NaN
  | PInf => NInf
  | NInf => PInf
  | Fin r => Fin (- r)
  end.

(** Sums, products and quotients of finite values are the exact real
    results: binary64 rounds them, overflows to an infinity and underflows
    to zero, and none of that is kept here.  The statements below that
    need an exact result say so in their text; the others are stated by
    comparisons and signs, or on the values as the code computes them. *)
Definition fadd (x y : float) : float :=
  match x, y with
  | NaN, _ | _, NaN => NaN
  | PInf, NInf | NInf, PInf => NaN
  | PInf, _ | _, PInf => PInf
  | NInf, _ | _, NInf => NInf
  | Fin a, Fin b => Fin (a + b)
  end.

Definition fsub (x y : float) : float := fadd x (fneg y).

Definition fmul (x y : float) : float :=
  match x, y with
  | NaN, _ | _, NaN => NaN
  | Fin a, Fin b => Fin (a * b)
  | _, _ =>
      if is_zero x || is_zero y then NaN
      else inf_of (xorb (negative x) (negative y))
  end.

(** [x / y] as numpy divides: [0/0] and [inf/inf] are [nan], a nonzero
    number over zero is an infinity, a finite number over an infinity is
    zero.  numpy warns and goes on; it does not raise. *)
Definition fdiv (x y : float) : float :=
  match x, y with
  | NaN, _ | _, NaN => NaN
  | Fin a, Fin b =>
      if Reqb b 0 then (if Reqb a 0 then NaN else inf_of (Rltb a 0))
      else Fin (a / b)
  | Fin _, _ => Fin 0
  | _, Fin b => inf_of (xorb (negative x) (Rltb b 0))
  | _, _ => NaN
  end.

Definition fsqrt (x : float) : float :=
  match x with
  | NaN | NInf => NaN
  | PInf => PInf
  | Fin a => if Rltb a 0 then NaN else Fin (sqrt a)
  end.

Definition fabs (x : float) : float :=
  match x with
  | NaN => NaN
  | PInf | NInf => PInf
  | Fin a => Fin (Rabs a)
  end.

(** Comparisons: every comparison with [nan] is false. *)
Definition fltb (x y : float) : bool :=
  match x, y with
  | NaN, _ | _, NaN => false
  | PInf, _ => false
  | _, NInf => false
  | NInf, _ => true
  | Fin _, PInf => true
  | Fin a, Fin b => Rltb a b
  end.

Definition fgtb (x y : float) : bool := fltb y x.

Definition fleb (x y : float) : bool :=
  negb (is_nan x) && negb (is_nan y) && negb (fltb y x).

Definition fgeb (x y : float) : bool := fleb y x.

(** The order the comparisons decide, as a relation. *)
Inductive Flt : float -> float -> Prop :=
| Flt_fin a b : (a < b)%R -> Flt (Fin a) (Fin b)
| Flt_fin_pinf a : Flt (Fin a) PInf
| Flt_ninf_fin b : Flt NInf (Fin b)
| Flt_ninf_pinf : Flt NInf PInf.

Definition Fgt (x y : float) : Prop := Flt y x.

(** Being the same value (unlike [==], true of [nan] and [nan]). *)
Definition same (x y : float) : bool :=
  match x, y with
  | NaN, NaN | PInf, PInf | NInf, NInf => true
  | Fin a, Fin b => Reqb a b
  | _, _ => false
  end.

Definition of_nat (n : nat) : float := Fin (INR n).

Fixpoint fsum (l : list float) : float :=
  match l with
  | [] => Fin 0
  | x :: l' => fadd x (fsum l')
  end.

End PyFloat.

Import PyFloat.

(* ================================================================= *)
(** ** Python values the scripts pass around *)

Module Py.

(** A [dict] in iteration (insertion) order. *)
Definition dict (V : Type) : Type := list (string * V).

Fixpoint get {V : Type} (k : string) (d : dict V) : option V :=
  match d with
  | [] => None
  | (k', v) :: d' => if String.eqb k k' then Some v else get k d'
  end.

Definition contains {V : Type} (k : string) (d : dict V) : bool :=
  match get k d with Some _ => true | None => false end.

(** [d[k] = v]: an existing key keeps its place, a new key goes last. *)
Fixpoint set {V : Type} (k : string) (v : V) (d : dict V) : dict V :=
  match d with
  | [] => [(k, v)]
  | (k', v') :: d' =>
      if String.eqb k k' then (k, v) :: d' else (k', v') :: set k v d'
  end.

(** [s.replace(old, new)] for one-character [old] and [new]. *)
Fixpoint replace (old new : ascii) (s : string) : string :=
  match s with
  | EmptyString => EmptyString
  | String c s' =>
      String (if Ascii.eqb c old then new else c) (replace old new s')
  end.

(** [sep.join(l)]. *)
Definition join (sep : string) (l : list string) : string :=
  String.concat sep l.

Definition newline : string := String (ascii_of_nat 10) EmptyString.
Definition dquote : string := String (ascii_of_nat 34) EmptyString.

(** What the scripts raise and do not catch. *)
Inductive exn : Type := TypeError | ValueError | KeyError.

Inductive outcome (A : Type) : Type :=
| Return (a : A)
| Raise (e : exn).
Arguments Return {A} a.
Arguments Raise {A} e.

Definition bind {A B : Type} (m : outcome A) (k : A -> outcome B) : outcome B :=
  match m with
  | Return a => k a
  | Raise e => Raise e
  end.

(** A JSON-serialisable entry of a metrics dict: a number, or a string
    (the [evaluated_at] stamp). *)
Inductive value : Type :=
| VNum (x : float)
| VStr (s : string).

(** One line of the text exposition: [name{label="value",...} value]. *)
Record exposition_line : Type := {
  line_name : string;
  line_labels : list (string * string);
  line_value : float
}.

End Py.

Import Py.

(* ================================================================= *)
(** ** numpy on one-dimensional arrays *)

Module Np.

Fixpoint map2 {A B C : Type} (f : A -> B -> C) (x : list A) (y : list B) : list C :=
  match x, y with
  | a :: x', b :: y' => f a b :: map2 f x' y'
  | _, _ => []
  end.

Definition sum (x : list float) : float := fsum x.

(** [np.mean]: the sum over the length; [nan] on an empty array. *)
Definition mean (x : list float) : float :=
  fdiv (sum x) (of_nat (List.length x)).

(** [np.mean] of a boolean array: the fraction of [True]. *)
Definition mean_bool (x : list bool) : float :=
  fdiv (of_nat (List.length (filter (fun b => b) x))) (of_nat (List.length x)).

(** [np.diff]: [x[i+1] - x[i]]. *)
Fixpoint diff (x : list float) : list float :=
  match x with
  | a :: (b :: _) as x' => fsub b a :: diff x'
  | _ => []
  end.

Definition square (a : float) : float := fmul a a.

(** [np.clip(a, lo, hi)]; [nan] stays [nan]. *)
Definition clip (lo hi a : float) : float :=
  if is_nan a then NaN
  else if fltb a lo then lo
  else if fltb hi a then hi
  else a.

(** The off-diagonal entry of [np.cov([x, y])]: the products of the
    deviations, times [1 / (n - 1)], where a non-positive [n - 1] counts
    as zero. *)
Definition cov (x y : list float) : float :=
  let mx := mean x in
  let my := mean y in
  fmul (sum (map2 (fun a b => fmul (fsub a mx) (fsub b my)) x y))
       (fdiv (Fin 1) (of_nat (List.length x - 1))).

(** [np.corrcoef(x, y)[0,1]]: the covariance divided by both standard
    deviations, then clipped to [[-1, 1]]. *)
Definition corrcoef (x y : list float) : float :=
  let c := cov x y in
  let sx := fsqrt (cov x x) in
  let sy := fsqrt (cov y y) in
  clip (Fin (-1)) (Fin 1) (fdiv (fdiv c sx) sy).

End Np.

(* ================================================================= *)
(** ** ml/scripts/evaluate_models.py *)

Module EvaluateModels.

(** What [get_predictions] keeps of one answer of the prediction service. *)
Record prediction : Type := {
  predicted_high : float;
  predicted_low : float;
  confidence : float
}.

(** A row of the evaluation dataset: the [actual_price] column and the
    remaining columns, which are only sent to the service. *)
Record row : Type := {
  actual_price : float;
  features : list (string * float)
}.

Definition metrics : Type := dict value.

(** The fields [__init__] reads from the environment and the ones the run
    fills in. *)
Record ModelEvaluator : Type := {
  alert_threshold : float;
  slack_webhook_url : option string;
  results : dict metrics;
  alerts_sent : list (string * metrics);
  model_metrics_txt : option string
}.

Section Run.

(** The prediction service: [request model_id i row] is what the body of
    the [try] in [get_predictions] gives for the [i]-th row, [None] when
    anything in it raised (the POST, [raise_for_status], the JSON decoding,
    a missing key). *)
Variable request : string -> nat -> row -> option prediction.

(** [datetime.now().isoformat()] at the time the given model is evaluated. *)
Variable now : string -> string.

(** [f'{value}'] for a number. *)
Variable fmt : float -> string.

(** The loop of [get_predictions], from row [i] on. *)
Fixpoint collect (model_id : string) (i : nat) (data : list row)
    (predictions : list (option prediction)) (errors : nat)
    : list (option prediction) * nat :=
  match data with
  | [] => (predictions, errors)
  | r :: data' =>
      match request model_id i r with
      | Some p => collect model_id (S i) data' (predictions ++ [Some p]) errors
      | None => collect model_id (S i) data' (predictions ++ [None]) (S errors)
      end
  end.

(** [errors > len(data) * 0.1] compares an integer with a tenth of an
    integer, which is [10 * errors > len(data)]. *)
Definition get_predictions (model_id : string) (data : list row)
    : option (list (option prediction)) :=
  let '(predictions, errors) := collect model_id 0 data [] 0 in
  if List.length data <? 10 * errors then None else Some predictions.

(** What the service answers for the rows of [data], the first of which is
    row [i]. *)
Fixpoint responses (model_id : string) (i : nat) (data : list row)
    : list (option prediction) :=
  match data with
  | [] => []
  | r :: data' => request model_id i r :: responses model_id (S i) data'
  end.

(** How many of these calls failed. *)
Fixpoint failed_calls (model_id : string) (i : nat) (data : list row) : nat :=
  match data with
  | [] => 0
  | r :: data' =>
      (match request model_id i r with None => 1 | Some _ => 0 end)
      + failed_calls model_id (S i) data'
  end.

(** sklearn's input check in [mean_squared_error]: both arrays of one
    length, not empty, every entry finite; [ValueError] otherwise. *)
Definition check_reg_targets (y_true y_pred : list float) : bool :=
  (List.length y_true =? List.length y_pred)
  && negb (List.length y_true =? 0)
  && forallb is_finite y_true && forallb is_finite y_pred.

Definition mean_squared_error (y_true y_pred : list float) : float :=
  Np.mean (Np.map2 (fun a b => Np.square (fsub a b)) y_true y_pred).

Definition mean_absolute_error (y_true y_pred : list float) : float :=
  Np.mean (Np.map2 (fun a b => fabs (fsub a b)) y_true y_pred).

Definition evaluate_regression_model (y_true y_pred confidence : list float)
    : outcome metrics :=
  if check_reg_targets y_true y_pred then
    Return
      [ ("mse", VNum (mean_squared_error y_true y_pred));
        ("rmse", VNum (fsqrt (mean_squared_error y_true y_pred)));
        ("mae", VNum (mean_absolute_error y_true y_pred));
        ("r2", VNum
           (fsub (Fin 1)
              (fdiv
                 (Np.sum (Np.map2 (fun a b => Np.square (fsub a b)) y_true y_pred))
                 (Np.sum (map (fun a => Np.square (fsub a (Np.mean y_true))) y_true)))));
        ("avg_confidence", VNum (Np.mean confidence));
        ("confidence_error_correlation", VNum
           (Np.corrcoef confidence
              (Np.map2 (fun a b => fabs (fsub a b)) y_true y_pred))) ]%string
  else Raise ValueError.

(** [[p[key] for p in predictions]]: subscripting a [None] placeholder
    raises [TypeError]. *)
Fixpoint subscript_all (predictions : list (option prediction))
    : outcome (list prediction) :=
  match predictions with
  | [] => Return []
  | None :: _ => Raise TypeError
  | Some p :: rest => bind (subscript_all rest) (fun ps => Return (p :: ps))
  end.

(** [evaluate_model]: [Return None] is the [return None] after a failed
    collection. *)
Definition evaluate_model (model_id : string) (evaluation_data : list row)
    : outcome (option metrics) :=
  match get_predictions model_id evaluation_data with
  | None => Return None
  | Some predictions =>
      let y_true := map actual_price evaluation_data in
      bind (subscript_all predictions) (fun ps =>
      let y_pred := map predicted_high ps in
      let confidence := map confidence ps in
      bind (evaluate_regression_model y_true y_pred confidence) (fun m =>
      let direction_true := map (fun d => fgtb d (Fin 0)) (Np.diff y_true) in
      let direction_pred := map (fun d => fgtb d (Fin 0)) (Np.diff y_pred) in
      let directional_accuracy :=
        Np.mean_bool (Np.map2 Bool.eqb direction_true direction_pred) in
      let in_interval :=
        Np.map2 andb
          (Np.map2 fgeb y_true (map predicted_low ps))
          (Np.map2 fleb y_true (map predicted_high ps)) in
      let returns := Np.map2 fdiv (Np.diff y_true) (removelast y_true) in
      let pred_returns := Np.map2 fdiv (Np.diff y_pred) (removelast y_pred) in
      Return (Some
        (m ++ [ ("directional_accuracy", VNum directional_accuracy);
                ("interval_accuracy", VNum (Np.mean_bool in_interval));
                ("profit_correlation", VNum (Np.corrcoef returns pred_returns));
                ("evaluated_at", VStr (now model_id)) ]%string)%list)))
  end.

(** [send_alert] posts one message when a webhook is configured; a failed
    post is logged and swallowed.  The log keeps what was handed over. *)
Definition send_alert (self : ModelEvaluator) (model_id : string) (m : metrics)
    : ModelEvaluator :=
  match slack_webhook_url self with
  | None | Some EmptyString => self
  | Some _ =>
      {| alert_threshold := alert_threshold self;
         slack_webhook_url := slack_webhook_url self;
         results := results self;
         alerts_sent := (alerts_sent self ++ [(model_id, m)])%list;
         model_metrics_txt := model_metrics_txt self |}
  end.

Definition store_result (self : ModelEvaluator) (model_id : string) (m : metrics)
    : ModelEvaluator :=
  {| alert_threshold := alert_threshold self;
     slack_webhook_url := slack_webhook_url self;
     results := Py.set model_id m (results self);
     alerts_sent := alerts_sent self;
     model_metrics_txt := model_metrics_txt self |}.

(** The [for model in models] loop of [evaluate_all_models].  Nothing in
    it catches: what [evaluate_model] raises ends the run. *)
Fixpoint evaluate_each (self : ModelEvaluator) (evaluation_data : list row)
    (models : list string) : outcome ModelEvaluator :=
  match models with
  | [] => Return self
  | model_id :: models' =>
      bind (evaluate_model model_id evaluation_data) (fun r =>
      match r with
      | None => evaluate_each self evaluation_data models'
      | Some m =>
          let self1 := store_result self model_id m in
          match Py.get "directional_accuracy"%string m with
          | Some (VNum da) =>
              if fltb da (alert_threshold self1)
              then evaluate_each (send_alert self1 model_id m) evaluation_data models'
              else evaluate_each self1 evaluation_data models'
          | Some (VStr _) => Raise TypeError
          | None => Raise KeyError
          end
      end)
  end.

(** The lines [export_metrics] writes: one per entry that is an [int] or a
    [float], whatever its value. *)
Definition export_lines (res : dict metrics) : list exposition_line :=
  flat_map (fun '(model_id, result) =>
    flat_map (fun '(metric, v) =>
      match v with
      | VNum x =>
          [ {| line_name := Py.replace "-" "_" ("model_" ++ metric)%string;
               line_labels := [("model_id"%string, model_id)];
               line_value := x |} ]
      | VStr _ => []
      end) result) res.

(** The line of a metric of a model, as the specification describes a
    written line: the name with its prefix and its hyphens replaced, the
    model id as the one label. *)
Definition model_line (model_id metric : string) (x : float) : exposition_line :=
  {| line_name := ("model_" ++ Py.replace "-" "_" metric)%string;
     line_labels := [("model_id"%string, model_id)];
     line_value := x |}.

(** [f'{metric_name}{{model_id="{model_id}"}} {value}']. *)
Definition render (l : exposition_line) : string :=
  (line_name l ++ "{"
   ++ Py.join "," (map (fun '(k, v) => k ++ "=" ++ dquote ++ v ++ dquote) (line_labels l))
   ++ "} " ++ fmt (line_value l))%string.

Definition export_metrics (res : dict metrics) : string :=
  Py.join newline (map render (export_lines res)).

Definition save_results (self : ModelEvaluator) : ModelEvaluator :=
  {| alert_threshold := alert_threshold self;
     slack_webhook_url := slack_webhook_url self;
     results := results self;
     alerts_sent := alerts_sent self;
     model_metrics_txt := Some (export_metrics (results self)) |}.

(** [evaluate_all_models]: [evaluation_data] is [None] when [load_data]
    failed and [models] is [None] when the model list could not be fetched;
    both make the run return [False] before any model is looked at. *)
Definition evaluate_all_models (self : ModelEvaluator)
    (evaluation_data : option (list row)) (models : option (list string))
    : outcome (bool * ModelEvaluator) :=
  match evaluation_data, models with
  | Some data, Some ms =>
      bind (evaluate_each self data ms) (fun self' =>
      Return (true, save_results self'))
  | _, _ => Return (false, self)
  end.

End Run.

End EvaluateModels.

(* ================================================================= *)
(** ** pandas on one column *)

Module Pd.

Definition dropna (x : list float) : list float :=
  filter (fun a => negb (is_nan a)) x.

(** [Series.mean()] and [Series.min()] skip [nan]; over nothing they are
    [nan]. *)
Definition mean (x : list float) : float := Np.mean (dropna x).

Definition fmin (a b : float) : float := if fltb b a then b else a.

Definition min (x : list float) : float :=
  match dropna x with
  | [] => NaN
  | a :: rest => fold_left fmin rest a
  end.

(** [Series.std()]: the sample standard deviation ([ddof=1], the divisor
    is [n - 1]), over the entries that are not [nan]. *)
Definition std (x : list float) : float :=
  let xs := dropna x in
  let m := Np.mean xs in
  fsqrt (fdiv (Np.sum (map (fun a => Np.square (fsub a m)) xs))
              (of_nat (List.length xs - 1))).

Section NLargest.

Context {A : Type}.
Variable key : A -> float.

(** Where a row goes among the ranked rows that came after it: behind
    those of a greater key, in front of the first whose key is not
    greater. *)
Fixpoint insert_desc (r : A) (ranked : list A) : list A :=
  match ranked with
  | [] => [r]
  | r' :: rest =>
      if fltb (key r) (key r') then r' :: insert_desc r rest
      else r :: ranked
  end.

Definition sort_desc (rows : list A) : list A :=
  fold_right insert_desc [] rows.

(** Row [a] is not below row [b]: its key is not smaller.  A ranking
    never puts a row before one it is below. *)
Definition not_below (a b : A) : Prop := ~ Flt (key a) (key b).

(** All the rows, ranked: by descending key, rows of one key in their order
    of appearance, rows whose key is [nan] last. *)
Definition ranked (rows : list A) : list A :=
  sort_desc (filter (fun r => negb (is_nan (key r))) rows)
  ++ filter (fun r => is_nan (key r)) rows.

(** [DataFrame.nlargest(n, column)] with the default [keep='first'], as
    current pandas documents it: the first [n] rows of the ranking. *)
Definition nlargest (n : nat) (rows : list A) : list A :=
  firstn n (ranked rows).

End NLargest.

(** [Series.sum()] and [Series.max()] skip [nan]; the sum over nothing is
    0 and the maximum over nothing is [nan]. *)
Definition sum (x : list float) : float := Np.sum (dropna x).

Definition fmax (a b : float) : float := if fltb a b then b else a.

Definition max (x : list float) : float :=
  match dropna x with
  | [] => NaN
  | a :: rest => fold_left fmax rest a
  end.

(** [Series.pct_change()]: each entry is divided by the one before it and
    1 is taken off; the first entry is [nan].  Nothing is filled in first
    (pandas 3; earlier versions padded a [nan] with the last value before
    it, which makes no difference on a series without [nan]). *)
Fixpoint changes (prev : float) (x : list float) : list float :=
  match x with
  | [] => []
  | a :: x' => fsub (fdiv a prev) (Fin 1) :: changes a x'
  end.

Definition pct_change (x : list float) : list float :=
  match x with
  | [] => []
  | a :: x' => NaN :: changes a x'
  end.

End Pd.

(* ================================================================= *)
(** ** ml/scripts/check_model_performance.py *)

Module CheckModelPerformance.

Local Open Scope string_scope.

(** One model's entry of [evaluation_results.json]: its numbers by name and
    the [evaluated_at] stamp, which is the one entry that is not a number
    and is kept apart here. *)
Record sample : Type := {
  metrics : dict float;
  evaluated_at : option string
}.

Record ModelPerformanceChecker : Type := {
  alert_threshold : float;
  slack_webhook_url : option string;
  thresholds : dict float
}.

(** [__init__]: the two values read from the environment, and the
    threshold table in the order it is written. *)
Definition init (env_alert_threshold : float) (env_webhook : option string)
    : ModelPerformanceChecker :=
  {| alert_threshold := env_alert_threshold;
     slack_webhook_url := env_webhook;
     thresholds :=
       [ ("directional_accuracy", Fin 0.80);
         ("interval_accuracy", Fin 0.75);
         ("rmse", Fin 0.02);
         ("profit_correlation", Fin 0.60);
         ("r2", Fin 0.70);
         ("avg_confidence", Fin 0.70) ]%string |}.

Inductive status : Type := high | low.

Record issue : Type := {
  issue_metric : string;
  issue_value : float;
  issue_threshold : float;
  issue_status : status
}.

Record alert : Type := {
  alert_model_id : string;
  alert_alerts : list issue;
  evaluation_time : option string
}.

Record summary_row : Type := {
  model_id : string;
  directional_accuracy : float;
  interval_accuracy : float;
  rmse : float;
  profit_correlation : float;
  alerts : nat
}.

(** The body of [for metric, threshold in self.thresholds.items()]. *)
Definition check_metric (m : dict float) (model_alerts : list issue)
    (rule : string * float) : list issue :=
  let '(metric, threshold) := rule in
  match Py.get metric m with
  | None => model_alerts
  | Some v =>
      if String.eqb metric "rmse" then
        if fgtb v threshold then
          (model_alerts ++ [ {| issue_metric := metric; issue_value := v;
                                issue_threshold := threshold; issue_status := high |} ])%list
        else model_alerts
      else
        if fltb v threshold then
          (model_alerts ++ [ {| issue_metric := metric; issue_value := v;
                                issue_threshold := threshold; issue_status := low |} ])%list
        else model_alerts
  end.

Definition model_alerts_of (self : ModelPerformanceChecker) (m : dict float)
    : list issue :=
  fold_left (check_metric m) (thresholds self) [].

Definition get_default (k : string) (m : dict float) (default : float) : float :=
  match Py.get k m with Some v => v | None => default end.

Definition summary_of (mid : string) (s : sample) (model_alerts : list issue)
    : summary_row :=
  {| model_id := mid;
     directional_accuracy := get_default "directional_accuracy" (metrics s) (Fin 0);
     interval_accuracy := get_default "interval_accuracy" (metrics s) (Fin 0);
     rmse := get_default "rmse" (metrics s) PInf;
     profit_correlation := get_default "profit_correlation" (metrics s) (Fin 0);
     alerts := List.length model_alerts |}.

(** The body of [for model_id, metrics in results['results'].items()]. *)
Definition check_model (self : ModelPerformanceChecker)
    (acc : list alert * list summary_row) (entry : string * sample)
    : list alert * list summary_row :=
  let '(alerts_acc, summary) := acc in
  let '(mid, s) := entry in
  let model_alerts := model_alerts_of self (metrics s) in
  let alerts_acc' :=
    match model_alerts with
    | [] => alerts_acc
    | _ :: _ =>
        (alerts_acc ++ [ {| alert_model_id := mid; alert_alerts := model_alerts;
                            evaluation_time := evaluated_at s |} ])%list
    end in
  (alerts_acc', (summary ++ [ summary_of mid s model_alerts ])%list).

Definition check_performance (self : ModelPerformanceChecker)
    (results : dict sample) : list alert * list summary_row :=
  fold_left (check_model self) results ([], []).

(** *** The rules as the specification words them *)

Inductive direction : Type := HigherIsBetter | LowerIsBetter.

(** The direction of the rule on a metric: [check_performance] tests
    [rmse] against its threshold from above and every other metric from
    below. *)
Definition direction_of (metric : string) : direction :=
  if String.eqb metric "rmse" then LowerIsBetter else HigherIsBetter.

(** A rule is violated by a sample that has its metric, on the wrong side
    of the threshold. *)
Definition violated (m : dict float) (rule : string * float) : bool :=
  match Py.get (fst rule) m with
  | None => false
  | Some v =>
      match direction_of (fst rule) with
      | LowerIsBetter => fgtb v (snd rule)
      | HigherIsBetter => fltb v (snd rule)
      end
  end.

Definition violation_of (m : dict float) (rule : string * float) : issue :=
  {| issue_metric := fst rule;
     issue_value := get_default (fst rule) m NaN;
     issue_threshold := snd rule;
     issue_status := match direction_of (fst rule) with
                     | LowerIsBetter => high
                     | HigherIsBetter => low
                     end |}.

(** Every violation, in the order the rules are declared. *)
Definition expected_violations (rules : dict float) (m : dict float) : list issue :=
  map (violation_of m) (filter (violated m) rules).

(** [None] for a model without violation, otherwise its one alert. *)
Definition expected_alert (rules : dict float) (mid : string) (s : sample)
    : option alert :=
  match expected_violations rules (metrics s) with
  | [] => None
  | vs => Some {| alert_model_id := mid; alert_alerts := vs;
                  evaluation_time := evaluated_at s |}
  end.

Definition expected_alerts (rules : dict float) (results : dict sample) : list alert :=
  flat_map (fun '(mid, s) =>
              match expected_alert rules mid s with
              | None => []
              | Some a => [a]
              end) results.

(** The results and the alerts without their time stamps. *)
Definition untimed (results : dict sample) : list (string * dict float) :=
  map (fun '(mid, s) => (mid, metrics s)) results.

Definition untimed_alert (a : alert) : string * list issue :=
  (alert_model_id a, alert_alerts a).

(** What the specification asks of a ranking on ties: of two rows with
    the same directional accuracy, the one with the smaller id comes
    first. *)
Definition ties_by_id (ranking : list summary_row) : Prop :=
  forall before a between b after,
    ranking = (before ++ a :: between ++ b :: after)%list ->
    directional_accuracy a = directional_accuracy b ->
    String.ltb (model_id a) (model_id b) = true.

(** A block of the notification message. *)
Record block : Type := {
  block_type : string;
  text_type : string;
  text : string
}.

Definition bytes (codes : list nat) : string :=
  string_of_list_ascii (map ascii_of_nat codes).

(** The marks in front of the texts, byte for byte as the file has them. *)
Definition mark_report : string := bytes [195; 176; 197; 184; 226; 128; 157].
Definition mark_cross : string := bytes [195; 162; 197; 146].
Definition mark_bullet : string := bytes [195; 162; 226; 130; 172; 194; 162].

Section Messages.

(** [f'{x:.2%}'], [f'{x:.4f}'], [f'{x:.2f}'] and [f'{x}'] for a float,
    and [f'{n}'] for an integer. *)
Variable pct2 f4 f2 str_float : float -> string.
Variable str_int : nat -> string.

Definition issue_line (i : issue) : string :=
  let st := match issue_status i with
            | high => mark_cross ++ " Too high"
            | low => mark_cross ++ " Too low"
            end in
  mark_bullet ++ " " ++ issue_metric i ++ ": " ++ pct2 (issue_value i)
  ++ " (" ++ st ++ ", threshold: " ++ pct2 (issue_threshold i) ++ ")" ++ newline.

Definition alert_lines (a : alert) : string :=
  newline ++ "*Model " ++ alert_model_id a ++ "*" ++ newline
  ++ String.concat EmptyString (map issue_line (alert_alerts a)).

Definition top_models (summary : list summary_row) : list summary_row :=
  Pd.nlargest directional_accuracy 3 summary.

Definition model_lines (r : summary_row) : string :=
  newline ++ "*Model " ++ model_id r ++ "*" ++ newline
  ++ mark_bullet ++ " Directional Accuracy: " ++ pct2 (directional_accuracy r) ++ newline
  ++ mark_bullet ++ " Interval Accuracy: " ++ pct2 (interval_accuracy r) ++ newline
  ++ mark_bullet ++ " RMSE: " ++ f4 (rmse r) ++ newline
  ++ mark_bullet ++ " Profit Correlation: " ++ f2 (profit_correlation r) ++ newline.

Definition section (t : string) : block :=
  {| block_type := "section"; text_type := "mrkdwn"; text := t |}.

(** [format_alert_message]; an empty summary makes a frame without columns,
    and selecting [directional_accuracy] from it raises [KeyError]. *)
Definition format_alert_message (alerts_in : list alert)
    (summary : list summary_row) : outcome (list block) :=
  let header :=
    {| block_type := "header"; text_type := "plain_text";
       text := mark_report ++ " Model Performance Report" |} in
  let alert_blocks :=
    match alerts_in with
    | [] => []
    | _ :: _ =>
        [ section ("*Performance Alerts:*" ++ newline
                   ++ String.concat EmptyString (map alert_lines alerts_in)) ]
    end in
  match summary with
  | [] => Raise KeyError
  | _ :: _ =>
      let summary_text :=
        "*Top Performing Models:*" ++ newline
        ++ String.concat EmptyString (map model_lines (top_models summary)) in
      let stats_text :=
        "*Overall Statistics:*" ++ newline
        ++ mark_bullet ++ " Average Directional Accuracy: "
           ++ pct2 (Pd.mean (map directional_accuracy summary)) ++ newline
        ++ mark_bullet ++ " Best RMSE: "
           ++ pct2 (Pd.min (map rmse summary)) ++ newline
        ++ mark_bullet ++ " Models with Alerts: "
           ++ str_int (list_sum (map alerts summary)) ++ newline
        ++ mark_bullet ++ " Total Models: "
           ++ str_int (List.length summary) ++ newline in
      Return ([header] ++ alert_blocks ++ [section summary_text; section stats_text])%list
  end.

(** [send_alert]: nothing is built or sent without a webhook; otherwise the
    message is the one [format_alert_message] gives. *)
Definition send_alert (self : ModelPerformanceChecker) (alerts_in : list alert)
    (summary : list summary_row) : outcome (option (list block)) :=
  match slack_webhook_url self with
  | None | Some EmptyString => Return None
  | Some _ => bind (format_alert_message alerts_in summary)
                   (fun m => Return (Some m))
  end.

Definition row_lines (r : summary_row) : list string :=
  let base := "model_performance{model_id=" ++ dquote ++ model_id r ++ dquote ++ "}" in
  [ base ++ "_directional_accuracy " ++ str_float (directional_accuracy r);
    base ++ "_interval_accuracy " ++ str_float (interval_accuracy r);
    base ++ "_rmse " ++ str_float (rmse r);
    base ++ "_profit_correlation " ++ str_float (profit_correlation r);
    base ++ "_alerts " ++ str_int (alerts r) ].

(** [export_metrics]: the text written to [model_performance_metrics.txt]. *)
Definition export_metrics (summary : list summary_row) : outcome string :=
  match summary with
  | [] => Raise KeyError
  | _ :: _ =>
      Return (Py.join newline
        (List.app
           [ "model_performance_directional_accuracy_avg "
               ++ str_float (Pd.mean (map directional_accuracy summary));
             "model_performance_rmse_min " ++ str_float (Pd.min (map rmse summary));
             "model_performance_alerts_total "
               ++ str_int (list_sum (map alerts summary)) ]
           (flat_map row_lines summary)))
  end.

End Messages.

Section Main.

Variable pct2 f4 f2 str_float : float -> string.
Variable str_int : nat -> string.

(** What a run of [main] leaves: the message posted, if any, and the text
    of [model_performance_metrics.txt]. *)
Record report : Type := {
  sent : option (list block);
  model_performance_metrics_txt : string
}.

(** [main]: [file] is the [results] entry of the loaded file, [None] when
    the file cannot be loaded; [Return None] is the run that logs its
    failure. *)
Definition main (self : ModelPerformanceChecker) (file : option (dict sample))
    : outcome (option report) :=
  match file with
  | None => Return None
  | Some results =>
      let '(found, summary) := check_performance self results in
      bind (send_alert pct2 f4 f2 str_int self found summary) (fun posted =>
      bind (export_metrics str_float str_int summary) (fun txt =>
      Return (Some {| sent := posted; model_performance_metrics_txt := txt |})))
  end.

End Main.

End CheckModelPerformance.

(* ================================================================= *)
(** ** monitoring/analyze_costs.py *)

Module AnalyzeCosts.

Local Open Scope string_scope.

(** A row of the frame [load_cost_data] builds. *)
Record cost_row : Type := {
  date : string;
  service : string;
  cost : float;
  unit : string
}.

(** A row of [daily_costs], with the [zscore] column once it is added. *)
Record daily_row : Type := {
  day : string;
  day_cost : float;
  zscore : float
}.

(** A row of the frame [analyze_service_costs] returns. *)
Record service_row : Type := {
  service_name : string;
  total_cost : float;
  avg_cost : float;
  std_cost : float;
  cost_percentage : float
}.

(** One more cost for date [d] in the groups so far, which are kept in
    ascending order of date.  The group sum skips [nan]. *)
Fixpoint add_cost (d : string) (c : float) (groups : list (string * float))
    : list (string * float) :=
  let c' := if is_nan c then Fin 0 else c in
  match groups with
  | [] => [(d, c')]
  | (d', s) :: rest =>
      match String.compare d d' with
      | Eq => (d', fadd s c') :: rest
      | Lt => (d, c') :: groups
      | Gt => (d', s) :: add_cost d c rest
      end
  end.

(** [df.groupby('date')['cost'].sum().reset_index()], on a frame that has
    its columns; the callers raise [KeyError] on a frame without rows before
    they get here. *)
Definition daily_costs (df : list cost_row) : list (string * float) :=
  fold_left (fun groups r => add_cost (date r) (cost r) groups) df [].

(** What these functions raise: the exceptions of [Py.exn], and
    [AttributeError]. *)
Inductive error : Type :=
| Builtin (e : exn)
| AttributeError.

Inductive result (A : Type) : Type :=
| Done (a : A)
| Failed (e : error).
Arguments Done {A} a.
Arguments Failed {A} e.

Definition and_then {A B : Type} (m : result A) (k : A -> result B) : result B :=
  match m with
  | Done a => k a
  | Failed e => Failed e
  end.

(** [analyze_anomalies]: the days whose z-score is beyond 2 in absolute
    value, or [None] when there is none.  A frame without rows has no
    columns, and the [groupby] raises [KeyError]. *)
Definition analyze_anomalies (df : list cost_row)
    : result (option (list daily_row)) :=
  match df with
  | [] => Failed (Builtin KeyError)
  | _ :: _ =>
      let daily := daily_costs df in
      let costs := map snd daily in
      let mean := Pd.mean costs in
      let std := Pd.std costs in
      let scored :=
        map (fun '(d, c) =>
               {| day := d; day_cost := c; zscore := fdiv (fsub c mean) std |})
            daily in
      let anomalies := filter (fun r => fgtb (fabs (zscore r)) (Fin 2)) scored in
      match anomalies with
      | [] => Done None
      | _ :: _ => Done (Some anomalies)
      end
  end.

(** The lines [export_metrics] writes, field by field. *)
Definition export_lines (daily_stats : dict float) (service_costs : list service_row)
    : list exposition_line :=
  List.app
    (map (fun '(metric, v) =>
            {| line_name := "aws_cost_" ++ metric; line_labels := [];
               line_value := v |}) daily_stats)
    (flat_map (fun r =>
       let name := Py.replace ":" "_" (Py.replace "-" "_" (service_name r)) in
       [ {| line_name := "aws_cost_service_total";
            line_labels := [("service", name)];
            line_value := total_cost r |};
         {| line_name := "aws_cost_service_percentage";
            line_labels := [("service", name)];
            line_value := cost_percentage r |} ]) service_costs).

(** Daily costs that are all finite. *)
Definition finite_days (daily : list (string * R)) : list (string * float) :=
  map (fun '(d, r) => (d, Fin r)) daily.

Section CostExport.

(** [f'{value}'] for a number. *)
Variable fmt : float -> string.

Definition render (l : exposition_line) : string :=
  match line_labels l with
  | [] => line_name l ++ " " ++ fmt (line_value l)
  | _ :: _ =>
      line_name l ++ "{"
      ++ Py.join "," (map (fun '(k, v) => k ++ "=" ++ dquote ++ v ++ dquote) (line_labels l))
      ++ "} " ++ fmt (line_value l)
  end.

(** [export_metrics]: the text written to [cost_metrics.txt]. *)
Definition export_metrics (daily_stats : dict float) (service_costs : list service_row)
    : string :=
  Py.join newline (map render (export_lines daily_stats service_costs)).

End CostExport.

(** *** The rest of [CostAnalyzer] *)

Record CostAnalyzer : Type := {
  cost_threshold : float;
  slack_webhook_url : option string;
  alert_threshold_percent : float
}.

(** [__init__]: the threshold and the webhook come from the environment,
    the warning ratio is fixed. *)
Definition init (env_cost_threshold : float) (env_webhook : option string)
    : CostAnalyzer :=
  {| cost_threshold := env_cost_threshold;
     slack_webhook_url := env_webhook;
     alert_threshold_percent := Fin 0.8 |}.

(** The Cost Explorer output as [load_cost_data] reads it: per time period
    its [Start] and its groups, per group its [Keys], its blended cost
    [Amount] and [Unit].  [amount] is what [float(...)] makes of the
    amount, [None] when it raises. *)
Record cost_group : Type := {
  keys : list string;
  amount : option float;
  amount_unit : string
}.

Record time_result : Type := {
  start : string;
  groups : list cost_group
}.

(** The inner loop of [load_cost_data]; [None] is the exception that ends
    the whole [try]: [Keys[0]] of an empty list, an amount that is no
    number. *)
Fixpoint read_groups (d : string) (gs : list cost_group) (cost_data : list cost_row)
    : option (list cost_row) :=
  match gs with
  | [] => Some cost_data
  | g :: gs' =>
      match keys g, amount g with
      | k :: _, Some a =>
          read_groups d gs'
            (cost_data ++ [ {| date := d; service := k; cost := a;
                               unit := amount_unit g |} ])%list
      | _, _ => None
      end
  end.

Fixpoint read_results (rs : list time_result) (cost_data : list cost_row)
    : option (list cost_row) :=
  match rs with
  | [] => Some cost_data
  | r :: rs' =>
      match read_groups (start r) (groups r) cost_data with
      | Some cost_data' => read_results rs' cost_data'
      | None => None
      end
  end.

(** [load_cost_data]: [file] is [None] when the file cannot be opened or
    is not JSON. *)
Definition load_cost_data (file : option (list time_result)) : option (list cost_row) :=
  match file with
  | None => None
  | Some rs => read_results rs []
  end.

(** One more cost for service [s] in the groups so far, which are kept in
    ascending order of service. *)
Fixpoint add_service_cost (s : string) (c : float) (acc : list (string * list float))
    : list (string * list float) :=
  match acc with
  | [] => [(s, [c])]
  | (s', cs) :: rest =>
      match String.compare s s' with
      | Eq => (s', (cs ++ [c])%list) :: rest
      | Lt => (s, [c]) :: acc
      | Gt => (s', cs) :: add_service_cost s c rest
      end
  end.

(** [df.groupby('service')]: the costs of each service, in row order. *)
Definition service_groups (df : list cost_row) : list (string * list float) :=
  fold_left (fun acc r => add_service_cost (service r) (cost r) acc) df [].

(** [analyze_service_costs]; a frame without rows has no columns, and the
    [groupby] raises [KeyError]. *)
Definition analyze_service_costs (df : list cost_row) : result (list service_row) :=
  match df with
  | [] => Failed (Builtin KeyError)
  | _ :: _ =>
      let aggregated :=
        map (fun '(s, cs) => (s, (Pd.sum cs, Pd.mean cs, Pd.std cs)))
            (service_groups df) in
      let grand_total := Pd.sum (map (fun g => fst (fst (snd g))) aggregated) in
      Done (map (fun '(s, (t, m, sd)) =>
                   {| service_name := s; total_cost := t; avg_cost := m;
                      std_cost := sd;
                      cost_percentage := fmul (fdiv t grand_total) (Fin 100) |})
                aggregated)
  end.

Inductive level : Type := CRITICAL | WARNING.

Record cost_alert : Type := {
  alert_level : level;
  alert_message : string
}.

(** The marks of the cost messages, byte for byte. *)
Definition mark_warning : string :=
  CheckModelPerformance.bytes [226; 154; 160; 239; 184; 143].
Definition mark_dot : string := CheckModelPerformance.bytes [226; 128; 162].

Section Pipeline.

(** [pd.to_datetime] on the dates: whether it parses them all (it raises
    when it cannot). *)
Variable to_datetime : list string -> bool.

(** [f'{x:.2f}'], [f'{x:.1f}'] and [f'{x}']. *)
Variable f2 f1 fmt : float -> string.

(** [analyze_daily_costs]; a frame without rows has no columns, and the
    [groupby] raises [KeyError]. *)
Definition analyze_daily_costs (df : list cost_row) : result (dict float) :=
  match df with
  | [] => Failed (Builtin KeyError)
  | _ :: _ =>
      let daily := daily_costs df in
      if to_datetime (map fst daily) then
        let costs := map snd daily in
        Done [ ("total_cost", Pd.sum costs);
               ("avg_daily_cost", Pd.mean costs);
               ("max_daily_cost", Pd.max costs);
               ("cost_trend", Pd.mean (Pd.pct_change costs));
               ("projected_monthly_cost", fmul (Pd.mean costs) (Fin 30)) ]
      else Failed (Builtin ValueError)
  end.

Definition check_thresholds (self : CostAnalyzer) (daily_stats : dict float)
    : result (list cost_alert) :=
  match Py.get "projected_monthly_cost" daily_stats with
  | None => Failed (Builtin KeyError)
  | Some projected_cost =>
      if fgeb projected_cost (cost_threshold self) then
        Done [ {| alert_level := CRITICAL;
                  alert_message :=
                    "Projected monthly cost ($" ++ f2 projected_cost
                    ++ ") exceeds threshold ($" ++ f2 (cost_threshold self)
                    ++ ")" |} ]
      else if fgeb projected_cost
                (fmul (cost_threshold self) (alert_threshold_percent self)) then
        Done [ {| alert_level := WARNING;
                  alert_message :=
                    "Projected monthly cost ($" ++ f2 projected_cost
                    ++ ") approaching threshold ($" ++ f2 (cost_threshold self)
                    ++ ")" |} ]
      else Done []
  end.

Definition service_line (r : service_row) : string :=
  mark_dot ++ " " ++ service_name r ++ ": $" ++ f2 (total_cost r)
  ++ " (" ++ f1 (cost_percentage r) ++ "%)".

(** [send_alert]: [Done None] when there is no alert, otherwise the
    message handed to [requests.post], whose failure is logged and
    swallowed.  The dates of the anomalies are the strings of the file, and
    a string has no [strftime]: building the anomaly lines raises
    [AttributeError], outside the [try]. *)
Definition send_alert (self : CostAnalyzer) (alerts : list cost_alert)
    (daily_stats : dict float) (service_costs : list service_row)
    (anomalies : option (list daily_row))
    : result (option (list CheckModelPerformance.block)) :=
  match alerts with
  | [] => Done None
  | first :: _ =>
      match Py.get "avg_daily_cost" daily_stats,
            Py.get "max_daily_cost" daily_stats,
            Py.get "cost_trend" daily_stats with
      | Some avg, Some mx, Some trend =>
          let blocks :=
            [ {| CheckModelPerformance.block_type := "header";
                 CheckModelPerformance.text_type := "plain_text";
                 CheckModelPerformance.text := mark_warning ++ " Cost Alert" |};
              CheckModelPerformance.section (alert_message first);
              CheckModelPerformance.section
                ("*Daily Cost Summary*" ++ newline
                 ++ mark_dot ++ " Average: $" ++ f2 avg ++ newline
                 ++ mark_dot ++ " Maximum: $" ++ f2 mx ++ newline
                 ++ mark_dot ++ " Trend: " ++ f1 (fmul trend (Fin 100)) ++ "%");
              CheckModelPerformance.section
                ("*Top Services by Cost*" ++ newline
                 ++ Py.join newline
                      (map service_line (Pd.nlargest total_cost 3 service_costs))) ] in
          match anomalies with
          | Some (_ :: _) => Failed AttributeError
          | _ => Done (Some blocks)
          end
      | _, _, _ => Failed (Builtin KeyError)
      end
  end.

(** What a run of [main] leaves: the message handed over for posting, if
    any, and the text of [cost_metrics.txt]. *)
Record run : Type := {
  message : option (list CheckModelPerformance.block);
  cost_metrics_txt : string
}.

(** [main]; [Done None] is the silent return when the cost data cannot be
    loaded. *)
Definition main (self : CostAnalyzer) (file : option (list time_result))
    : result (option run) :=
  match load_cost_data file with
  | None => Done None
  | Some df =>
      and_then (analyze_daily_costs df) (fun daily_stats =>
      and_then (analyze_service_costs df) (fun service_costs =>
      and_then (analyze_anomalies df) (fun anomalies =>
      and_then (check_thresholds self daily_stats) (fun alerts =>
      and_then (match alerts with
                | [] => Done None
                | _ :: _ =>
                    send_alert self alerts daily_stats service_costs anomalies
                end) (fun posted =>
      Done (Some {| message := posted;
                    cost_metrics_txt :=
                      export_metrics fmt daily_stats service_costs |}))))))
  end.

End Pipeline.

(** A group [load_cost_data] can read, and the row it makes of it. *)
Definition readable (g : cost_group) : bool :=
  match keys g, amount g with
  | _ :: _, Some _ => true
  | _, _ => false
  end.

Definition row_of_group (d : string) (g : cost_group) : cost_row :=
  {| date := d;
     service := hd EmptyString (keys g);
     cost := match amount g with Some a => a | None => NaN end;
     unit := amount_unit g |}.

Definition rows_of_results (rs : list time_result) : list cost_row :=
  flat_map (fun r => map (row_of_group (start r)) (groups r)) rs.

(** Row [a] of the daily costs is of an earlier date than row [b]. *)
Definition date_before (a b : string * float) : Prop :=
  String.compare (fst a) (fst b) = Lt.

End AnalyzeCosts.

(* ================================================================= *)
(** ** The statistics, on finite values *)

Module Stats.

Local Open Scope R_scope.

(** The sum of finitely many reals, as [Np.sum] adds them. *)
Fixpoint Rsum (l : list R) : R :=
  match l with
  | [] => 0
  | a :: l' => a + Rsum l'
  end.

Definition mean_of (rs : list R) : R := Rsum rs / INR (List.length rs).

(** The sum of the squared deviations from the mean: the denominator of
    [r2], and the numerator of a variance. *)
Definition total_squares (rs : list R) : R :=
  Rsum (map (fun a => (a - Rsum rs / INR (List.length rs))
                      * (a - Rsum rs / INR (List.length rs))) rs).

(** The variance with divisor [n - 1] (sample) and with divisor [n]
    (population). *)
Definition sample_variance (rs : list R) : R :=
  total_squares rs / INR (List.length rs - 1).


(** The z-score of [r] in [rs] that [analyze_anomalies] computes. *)
Definition zscore_of (rs : list R) (r : R) : R :=
  (r - mean_of rs) / sqrt (sample_variance rs).

End Stats.

Import Stats.



(** The keys of the metrics of [evaluate_model], in the order it adds
    them: the six of [evaluate_regression_model], then the four of its
    own. *)
Definition metric_keys : list string :=
  [ "mse"; "rmse"; "mae"; "r2"; "avg_confidence";
    "confidence_error_correlation"; "directional_accuracy";
    "interval_accuracy"; "profit_correlation"; "evaluated_at" ]%string.

(** [lo <= x <= hi], which is false of [nan]. *)
Definition within (lo hi x : float) : bool := fleb lo x && fleb x hi.

(* ================================================================= *)
(** ** Sample inputs *)

Module Samples.

Local Open Scope string_scope.

Definition checker : CheckModelPerformance.ModelPerformanceChecker :=
  CheckModelPerformance.init (Fin 0.80) None.

(** A model whose only number is its directional accuracy. *)
Definition scored (da : R) : CheckModelPerformance.sample :=
  {| CheckModelPerformance.metrics := [("directional_accuracy", Fin da)];
     CheckModelPerformance.evaluated_at := None |}.

(** The three entities of the ranking example, in two file orders. *)
Definition results_ABC : dict CheckModelPerformance.sample :=
  [("A", scored 0.91); ("B", scored 0.91); ("C", scored 0.85)].

Definition results_BAC : dict CheckModelPerformance.sample :=
  [("B", scored 0.91); ("A", scored 0.91); ("C", scored 0.85)].

(** A service that always answers, with the actual price as both bounds. *)
Definition perfect_service : string -> nat -> EvaluateModels.row
                             -> option EvaluateModels.prediction :=
  fun _ _ r =>
    Some {| EvaluateModels.predicted_high := EvaluateModels.actual_price r;
            EvaluateModels.predicted_low := EvaluateModels.actual_price r;
            EvaluateModels.confidence := Fin 0.9 |}.

Definition priced (p : R) : EvaluateModels.row :=
  {| EvaluateModels.actual_price := Fin p; EvaluateModels.features := [] |}.

Definition clock : string -> string := fun _ => "2024-01-01T00:00:00".

(** Two days at one price, and two days at two prices. *)
Definition flat_prices : list EvaluateModels.row := [priced 5; priced 5].
Definition rising_prices : list EvaluateModels.row := [priced 1; priced 2].

Definition cost_on (d : string) (c : R) : AnalyzeCosts.cost_row :=
  {| AnalyzeCosts.date := d; AnalyzeCosts.service := "Amazon EC2";
     AnalyzeCosts.cost := Fin c; AnalyzeCosts.unit := "USD" |}.


Definition spike_costs : list AnalyzeCosts.cost_row :=
  [ cost_on "2024-01-01" 1; cost_on "2024-01-02" 1; cost_on "2024-01-03" 1;
    cost_on "2024-01-04" 1; cost_on "2024-01-05" 10 ].

(** Nine days at 1 followed by one at 10. *)
Definition outlier_costs : list AnalyzeCosts.cost_row :=
  [ cost_on "2024-01-01" 1; cost_on "2024-01-02" 1; cost_on "2024-01-03" 1;
    cost_on "2024-01-04" 1; cost_on "2024-01-05" 1; cost_on "2024-01-06" 1;
    cost_on "2024-01-07" 1; cost_on "2024-01-08" 1; cost_on "2024-01-09" 1;
    cost_on "2024-01-10" 10 ].

Definition outlier_days : list (string * R) :=
  [ ("2024-01-01", 1%R); ("2024-01-02", 1%R); ("2024-01-03", 1%R);
    ("2024-01-04", 1%R); ("2024-01-05", 1%R); ("2024-01-06", 1%R);
    ("2024-01-07", 1%R); ("2024-01-08", 1%R); ("2024-01-09", 1%R);
    ("2024-01-10", 10%R) ].




Definition spike_days : list (string * R) :=
  [ ("2024-01-01", 1%R); ("2024-01-02", 1%R); ("2024-01-03", 1%R);
    ("2024-01-04", 1%R); ("2024-01-05", 10%R) ].

(** An evaluator as [__init__] leaves it, without a webhook. *)
Definition evaluator : EvaluateModels.ModelEvaluator :=
  {| EvaluateModels.alert_threshold := Fin 0.8;
     EvaluateModels.slack_webhook_url := None;
     EvaluateModels.results := [];
     EvaluateModels.alerts_sent := [];
     EvaluateModels.model_metrics_txt := None |}.

(** A stand-in for the text of a number. *)
Definition some_text : float -> string := fun _ => "<value>".

Definition ec2 : AnalyzeCosts.service_row :=
  {| AnalyzeCosts.service_name := "Amazon-EC2:Compute";
     AnalyzeCosts.total_cost := Fin 12;
     AnalyzeCosts.avg_cost := Fin 4;
     AnalyzeCosts.std_cost := Fin 1;
     AnalyzeCosts.cost_percentage := Fin 100 |}.

(** A service whose first [k] calls for a model fail. *)
Definition flaky_service (k : nat) : string -> nat -> EvaluateModels.row
                                     -> option EvaluateModels.prediction :=
  fun model_id i r => if Nat.ltb i k then None else perfect_service model_id i r.

Definition hundred_rows : list EvaluateModels.row := repeat (priced 1) 100.

(** A second checker, started in another environment. *)
Definition other_checker : CheckModelPerformance.ModelPerformanceChecker :=
  CheckModelPerformance.init (Fin 0.5) (Some "https://hooks.example/T000").

(** One model below the floor on directional accuracy, stamped at two
    different times. *)
Definition weak_at (stamp : string) : dict CheckModelPerformance.sample :=
  [ ("A", {| CheckModelPerformance.metrics :=
               [("directional_accuracy", Fin 0.79); ("rmse", Fin 0.02)];
             CheckModelPerformance.evaluated_at := Some stamp |}) ].

Definition some_count : nat -> string := fun _ => "<count>".

(** The Cost Explorer file of [outlier_costs], one group a day, and a file
    whose periods have no group. *)
Definition day_result (d : string) (c : R) : AnalyzeCosts.time_result :=
  {| AnalyzeCosts.start := d;
     AnalyzeCosts.groups :=
       [ {| AnalyzeCosts.keys := ["Amazon EC2"];
            AnalyzeCosts.amount := Some (Fin c);
            AnalyzeCosts.amount_unit := "USD" |} ] |}.

Definition outlier_file : list AnalyzeCosts.time_result :=
  map (fun '(d, c) => day_result d c) outlier_days.

Definition spike_file : list AnalyzeCosts.time_result :=
  map (fun '(d, c) => day_result d c) spike_days.

Definition idle_file : list AnalyzeCosts.time_result :=
  [ {| AnalyzeCosts.start := "2024-01-01"; AnalyzeCosts.groups := [] |};
    {| AnalyzeCosts.start := "2024-01-02"; AnalyzeCosts.groups := [] |} ].

Definition any_date : list string -> bool := fun _ => true.

(** Two models, the first breaking two rules and the second none. *)
Definition mixed_results : dict CheckModelPerformance.sample :=
  [ ("A", {| CheckModelPerformance.metrics :=
               [("directional_accuracy", Fin 0.5); ("rmse", Fin 0.5)];
             CheckModelPerformance.evaluated_at := None |});
    ("B", scored 0.9) ].

End Samples.

(* ================================================================= *)
(** * Properties *)

(** ** The comparisons of [PyFloat] *)

Lemma Rltb_true_iff (x y : R) : Rltb x y = true <-> (x < y)%R.
Proof.
  unfold Rltb. destruct (Rlt_dec x y) as [H | H].
  - split; auto.
  - split; [discriminate | contradiction].
Qed.

Lemma Rltb_false_iff (x y : R) : Rltb x y = false <-> (y <= x)%R.
Proof.
  unfold Rltb. destruct (Rlt_dec x y) as [H | H].
  - split; [discriminate | lra].
  - split; [lra | reflexivity].
Qed.

Lemma Reqb_true_iff (x y : R) : Reqb x y = true <-> x = y.
Proof.
  unfold Reqb. destruct (Req_dec_T x y) as [H | H].
  - split; auto.
  - split; [discriminate | contradiction].
Qed.

Lemma Reqb_false_iff (x y : R) : Reqb x y = false <-> x <> y.
Proof.
  unfold Reqb. destruct (Req_dec_T x y) as [H | H].
  - split; [discriminate | contradiction].
  - split; auto.
Qed.

Lemma Reqb_refl (x : R) : Reqb x x = true.
Proof. apply Reqb_true_iff. reflexivity. Qed.

Lemma Rltb_irrefl (x : R) : Rltb x x = false.
Proof. apply Rltb_false_iff. lra. Qed.

Lemma fltb_spec (x y : float) : fltb x y = true <-> Flt x y.
Proof.
  split.
  - destruct x, y; simpl; try discriminate; intros H; try constructor.
    now apply Rltb_true_iff.
  - intros H. destruct H; simpl; try reflexivity.
    now apply Rltb_true_iff.
Qed.

Lemma fltb_irrefl (x : float) : fltb x x = false.
Proof. destruct x; simpl; auto using Rltb_irrefl. Qed.

Lemma Flt_irrefl (x : float) : ~ Flt x x.
Proof.
  intros H. apply fltb_spec in H. rewrite fltb_irrefl in H. discriminate.
Qed.

Lemma fltb_nan_l (y : float) : fltb NaN y = false.
Proof. reflexivity. Qed.

Lemma fltb_nan_r (x : float) : fltb x NaN = false.
Proof. destruct x; reflexivity. Qed.

(** ** Dictionaries *)

Lemma get_set_other {V : Type} (k k' : string) (v : V) (d : dict V) :
  k <> k' -> Py.get k (Py.set k' v d) = Py.get k d.
Proof.
  intros Hk. induction d as [| [k0 v0] d IH]; simpl.
  - destruct (String.eqb_spec k k'); [contradiction | reflexivity].
  - destruct (String.eqb_spec k' k0) as [-> | Hk0]; simpl.
    + destruct (String.eqb_spec k k0); [contradiction | reflexivity].
    + destruct (String.eqb_spec k k0); [reflexivity | exact IH].
Qed.

Lemma get_set_same {V : Type} (k : string) (v : V) (d : dict V) :
  Py.get k (Py.set k v d) = Some v.
Proof.
  induction d as [| [k0 v0] d IH]; simpl.
  - now rewrite String.eqb_refl.
  - destruct (String.eqb_spec k k0) as [-> | Hk0]; simpl.
    + now rewrite String.eqb_refl.
    + destruct (String.eqb_spec k k0); [contradiction | exact IH].
Qed.

(* ================================================================= *)
(** ** Collecting predictions: the error budget *)

Section Collection.

Import EvaluateModels.

Variable request : string -> nat -> row -> option prediction.
Variable now : string -> string.

Local Abbreviation responses := (EvaluateModels.responses request).
Local Abbreviation failed_calls := (EvaluateModels.failed_calls request).

Lemma collect_spec (model_id : string) (data : list row) :
  forall i predictions errors,
    collect request model_id i data predictions errors
    = (predictions ++ responses model_id i data,
       errors + failed_calls model_id i data).
Proof.
  induction data as [| r data IH]; intros i predictions errors; simpl.
  - now rewrite app_nil_r, Nat.add_0_r.
  - destruct (request model_id i r) as [p |]; rewrite IH, <- app_assoc; simpl.
    + reflexivity.
    + f_equal. lia.
Qed.

Lemma get_predictions_spec (model_id : string) (data : list row) :
  get_predictions request model_id data
  = if List.length data <? 10 * failed_calls model_id 0 data
    then None else Some (responses model_id 0 data).
Proof.
  unfold get_predictions. rewrite collect_spec. reflexivity.
Qed.

Lemma responses_length (model_id : string) (data : list row) :
  forall i, List.length (responses model_id i data) = List.length data.
Proof.
  induction data as [| r data IH]; intros i; simpl; [reflexivity | now rewrite IH].
Qed.

Lemma responses_nth (model_id : string) (data : list row) :
  forall i k r,
    nth_error data k = Some r ->
    nth_error (responses model_id i data) k = Some (request model_id (i + k) r).
Proof.
  induction data as [| r0 data IH]; intros i k r Hk.
  - destruct k; discriminate.
  - destruct k as [| k]; simpl in *.
    + inversion Hk; subst. now rewrite Nat.add_0_r.
    + rewrite (IH (S i) k r Hk). do 2 f_equal. lia.
Qed.

Lemma failed_calls_In (model_id : string) (data : list row) :
  forall i, 0 < failed_calls model_id i data -> In None (responses model_id i data).
Proof.
  induction data as [| r data IH]; intros i H; simpl in *.
  - lia.
  - destruct (request model_id i r) as [p |].
    + right. apply IH. exact H.
    + now left.
Qed.

Lemma subscript_all_None (predictions : list (option prediction)) :
  In None predictions -> subscript_all predictions = Raise TypeError.
Proof.
  induction predictions as [| [p |] rest IH]; intros H; simpl.
  - destruct H.
  - destruct H as [H | H]; [discriminate |]. now rewrite IH.
  - reflexivity.
Qed.

Lemma evaluate_model_aborted (model_id : string) (data : list row) :
  List.length data < 10 * failed_calls model_id 0 data ->
  evaluate_model request now model_id data = Return None.
Proof.
  intros H. unfold evaluate_model. rewrite get_predictions_spec.
  apply Nat.ltb_lt in H. now rewrite H.
Qed.

Lemma evaluate_each_skips (model_id : string) (data : list row) :
  List.length data < 10 * failed_calls model_id 0 data ->
  forall before self after,
    evaluate_each request now self data (before ++ model_id :: after)
    = evaluate_each request now self data (before ++ after).
Proof.
  intros H before. induction before as [| m before IH]; intros self after; simpl.
  - now rewrite (evaluate_model_aborted _ _ H).
  - destruct (evaluate_model request now m data) as [[mt |] | e]; simpl; auto.
    destruct (Py.get "directional_accuracy" mt) as [[da | s] |]; auto.
    destruct (fltb da _); auto.
Qed.

Lemma evaluate_each_keeps (model_id : string) (data : list row) :
  List.length data < 10 * failed_calls model_id 0 data ->
  forall models self self',
    evaluate_each request now self data models = Return self' ->
    Py.get model_id (results self') = Py.get model_id (results self).
Proof.
  intros H models. induction models as [| m models IH]; intros self self' Hrun;
    simpl in Hrun.
  - now inversion Hrun.
  - destruct (evaluate_model request now m data) as [[mt |] | e] eqn:Hm;
      simpl in Hrun; try discriminate; [| now apply IH].
    assert (Hne : model_id <> m).
    { intros ->. rewrite (evaluate_model_aborted _ _ H) in Hm. discriminate. }
    destruct (Py.get "directional_accuracy" mt) as [[da | s] |];
      try discriminate.
    destruct (fltb da _); apply IH in Hrun; rewrite Hrun; simpl.
    + unfold send_alert.
      destruct (slack_webhook_url (store_result self m mt)) as [[| c u] |];
        simpl; now apply get_set_other.
    + now apply get_set_other.
Qed.

(** C1.  When more than a tenth of the calls made for a model fail,
    [get_predictions] and with it [evaluate_model] return [None], whatever
    the calls that succeeded gave; the loop of [evaluate_all_models] then
    goes on to the next model exactly as if the model had not been in the
    list, and no run stores a result under that model. *)
Theorem error_budget_abandons_entity (self : ModelEvaluator)
    (model_id : string) (data : list row) :
  List.length data < 10 * failed_calls model_id 0 data ->
  get_predictions request model_id data = None
  /\ evaluate_model request now model_id data = Return None
  /\ (forall before after self0,
        evaluate_each request now self0 data (before ++ model_id :: after)
        = evaluate_each request now self0 data (before ++ after))
  /\ (forall models self',
        evaluate_each request now self data models = Return self' ->
        Py.get model_id (results self') = Py.get model_id (results self)).
Proof.
  intros H. repeat split.
  - rewrite get_predictions_spec. apply Nat.ltb_lt in H. now rewrite H.
  - now apply evaluate_model_aborted.
  - intros before after self0. now apply evaluate_each_skips.
  - intros models self'. now apply evaluate_each_keeps.
Qed.

(** C7.  When some call fails but no more than a tenth of them do,
    [get_predictions] returns one entry per row, [None] at every row whose
    call failed, and [evaluate_model] raises [TypeError] where it
    subscripts the entries: no metrics come out of the rows that
    succeeded. *)
Theorem failures_within_budget_raise (model_id : string) (data : list row) :
  0 < failed_calls model_id 0 data ->
  10 * failed_calls model_id 0 data <= List.length data ->
  (exists predictions,
      get_predictions request model_id data = Some predictions
      /\ List.length predictions = List.length data
      /\ In None predictions
      /\ forall k r, nth_error data k = Some r ->
           nth_error predictions k = Some (request model_id k r))
  /\ evaluate_model request now model_id data = Raise TypeError.
Proof.
  intros Hsome Hfew.
  assert (Hget : get_predictions request model_id data
                 = Some (responses model_id 0 data)).
  { rewrite get_predictions_spec.
    destruct (Nat.ltb_spec (List.length data) (10 * failed_calls model_id 0 data));
      [lia | reflexivity]. }
  split.
  - exists (responses model_id 0 data). repeat split.
    + exact Hget.
    + apply responses_length.
    + now apply failed_calls_In.
    + intros k r Hk. now rewrite (responses_nth _ _ 0 k r Hk).
  - unfold evaluate_model. rewrite Hget.
    rewrite subscript_all_None; [reflexivity | now apply failed_calls_In].
Qed.

End Collection.

(* ================================================================= *)
(** ** Threshold evaluation *)

Section Thresholds.

Import CheckModelPerformance.

(** What one rule adds to the alerts of a model. *)
Lemma check_metric_spec (m : dict float) (acc : list issue) (rule : string * float) :
  check_metric m acc rule
  = acc ++ (if violated m rule then [violation_of m rule] else []).
Proof.
  destruct rule as [metric threshold].
  unfold check_metric, violated, violation_of, direction_of, get_default; simpl.
  destruct (Py.get metric m) as [v |]; [| now rewrite app_nil_r].
  destruct (String.eqb metric "rmse");
    [destruct (fgtb v threshold) | destruct (fltb v threshold)];
    now rewrite ?app_nil_r.
Qed.

Lemma fold_check_metric (m : dict float) (rules : dict float) :
  forall acc,
    fold_left (check_metric m) rules acc = acc ++ expected_violations rules m.
Proof.
  unfold expected_violations.
  induction rules as [| rule rules IH]; intros acc; simpl.
  - now rewrite app_nil_r.
  - rewrite IH, check_metric_spec, <- app_assoc.
    now destruct (violated m rule).
Qed.

Lemma model_alerts_of_spec (self : ModelPerformanceChecker) (m : dict float) :
  model_alerts_of self m = expected_violations (thresholds self) m.
Proof. unfold model_alerts_of. now rewrite fold_check_metric. Qed.

Lemma In_model_alerts (self : ModelPerformanceChecker) (m : dict float) (i : issue) :
  In i (model_alerts_of self m)
  <-> exists rule, In rule (thresholds self) /\ violated m rule = true
                   /\ i = violation_of m rule.
Proof.
  rewrite model_alerts_of_spec. unfold expected_violations.
  rewrite in_map_iff. split.
  - intros [rule [Hi Hin]]. apply filter_In in Hin. destruct Hin as [Hin Hv].
    exists rule. auto.
  - intros [rule [Hin [Hv Hi]]]. exists rule. split; [auto |].
    apply filter_In. auto.
Qed.

(** C2.  For a rule of the table and a sample that has the rule's metric:
    the alerts of the model hold a [high] entry for the rule exactly when
    the rule is on [rmse] (lower is better) and the value is above the
    threshold, a [low] entry exactly when the rule is on another metric
    (higher is better) and the value is below the threshold, and no entry
    at all when the value equals the threshold. *)
Theorem threshold_rule_boundary (self : ModelPerformanceChecker)
    (m : dict float) (metric : string) (threshold v : float) :
  In (metric, threshold) (thresholds self) ->
  Py.get metric m = Some v ->
  (In {| issue_metric := metric; issue_value := v;
         issue_threshold := threshold; issue_status := high |}
      (model_alerts_of self m)
   <-> direction_of metric = LowerIsBetter /\ Fgt v threshold)
  /\ (In {| issue_metric := metric; issue_value := v;
            issue_threshold := threshold; issue_status := low |}
         (model_alerts_of self m)
      <-> direction_of metric = HigherIsBetter /\ Flt v threshold)
  /\ (v = threshold ->
      forall st, ~ In {| issue_metric := metric; issue_value := v;
                         issue_threshold := threshold; issue_status := st |}
                      (model_alerts_of self m)).
Proof.
  intros Hrule Hget.
  assert (Hof : violation_of m (metric, threshold)
                = {| issue_metric := metric; issue_value := v;
                     issue_threshold := threshold;
                     issue_status := match direction_of metric with
                                     | LowerIsBetter => high
                                     | HigherIsBetter => low
                                     end |}).
  { unfold violation_of, get_default; simpl. now rewrite Hget. }
  assert (Hback : forall st,
             In {| issue_metric := metric; issue_value := v;
                   issue_threshold := threshold; issue_status := st |}
                (model_alerts_of self m) ->
             violated m (metric, threshold) = true
             /\ st = match direction_of metric with
                     | LowerIsBetter => high
                     | HigherIsBetter => low
                     end).
  { intros st Hin. apply In_model_alerts in Hin.
    destruct Hin as [[metric' threshold'] [_ [Hv Heq]]].
    unfold violation_of in Heq; simpl in Heq.
    injection Heq as Hm _ Ht Hst. subst metric' threshold'. auto. }
  assert (Hviol : violated m (metric, threshold)
                  = match direction_of metric with
                    | LowerIsBetter => fgtb v threshold
                    | HigherIsBetter => fltb v threshold
                    end).
  { unfold violated; simpl. now rewrite Hget. }
  repeat split.
  - apply Hback in H. destruct H as [_ Hst].
    destruct (direction_of metric); [discriminate | reflexivity].
  - apply Hback in H. destruct H as [Hv Hst]. rewrite Hviol in Hv.
    destruct (direction_of metric); [discriminate |].
    now apply fltb_spec in Hv.
  - intros [Hdir Hgt]. apply In_model_alerts. exists (metric, threshold).
    rewrite Hof, Hviol, Hdir. repeat split; auto. now apply fltb_spec.
  - apply Hback in H. destruct H as [_ Hst].
    destruct (direction_of metric); [reflexivity | discriminate].
  - apply Hback in H. destruct H as [Hv Hst]. rewrite Hviol in Hv.
    destruct (direction_of metric); [| discriminate].
    now apply fltb_spec in Hv.
  - intros [Hdir Hlt]. apply In_model_alerts. exists (metric, threshold).
    rewrite Hof, Hviol, Hdir. repeat split; auto. now apply fltb_spec.
  - intros Heq st Hin. subst threshold. apply Hback in Hin.
    destruct Hin as [Hv _]. rewrite Hviol in Hv.
    unfold fgtb in Hv. rewrite fltb_irrefl in Hv.
    destruct (direction_of metric); discriminate.
Qed.

Lemma NoDup_keys_unique {V : Type} (d : dict V) (k : string) (v v' : V) :
  NoDup (map fst d) -> In (k, v) d -> In (k, v') d -> v = v'.
Proof.
  induction d as [| [k0 v0] d IH]; simpl; intros Hnd H1 H2; [contradiction |].
  inversion Hnd as [| ? ? Hnotin Hnd']; subst.
  destruct H1 as [H1 | H1], H2 as [H2 | H2].
  - congruence.
  - inversion H1; subst. exfalso. apply Hnotin.
    change k with (fst (k, v')). now apply in_map.
  - inversion H2; subst. exfalso. apply Hnotin.
    change k with (fst (k, v)). now apply in_map.
  - now apply IH.
Qed.

Lemma expected_violations_nil (rules m : dict float) :
  expected_violations rules m = []
  <-> forall rule, In rule rules -> violated m rule = false.
Proof.
  unfold expected_violations. split.
  - intros H rule Hin. destruct (violated m rule) eqn:Hv; [| reflexivity].
    assert (Hf : In rule (filter (violated m) rules)) by (apply filter_In; auto).
    apply (in_map (violation_of m)) in Hf. rewrite H in Hf. destruct Hf.
  - intros H. induction rules as [| rule rules IH]; simpl; [reflexivity |].
    rewrite (H rule (or_introl eq_refl)). apply IH.
    intros r Hr. apply H. now right.
Qed.

Lemma fold_check_model (self : ModelPerformanceChecker) (results : dict sample) :
  forall alerts_acc summary,
    fold_left (check_model self) results (alerts_acc, summary)
    = (alerts_acc ++ expected_alerts (thresholds self) results,
       summary ++ map (fun '(mid, s) =>
                         summary_of mid s
                           (expected_violations (thresholds self) (metrics s)))
                      results).
Proof.
  induction results as [| [mid s] results IH]; intros alerts_acc summary; simpl.
  - now rewrite !app_nil_r.
  - rewrite model_alerts_of_spec. unfold expected_alert.
    destruct (expected_violations (thresholds self) (metrics s)) as [| i vs];
      rewrite IH, <- !app_assoc; reflexivity.
Qed.

Lemma check_performance_spec (self : ModelPerformanceChecker) (results : dict sample) :
  check_performance self results
  = (expected_alerts (thresholds self) results,
     map (fun '(mid, s) =>
            summary_of mid s (expected_violations (thresholds self) (metrics s)))
         results).
Proof. unfold check_performance. now rewrite fold_check_model. Qed.

Lemma In_expected_alerts (rules : dict float) (results : dict sample) (a : alert) :
  In a (expected_alerts rules results)
  <-> exists mid s, In (mid, s) results /\ expected_alert rules mid s = Some a.
Proof.
  unfold expected_alerts. rewrite in_flat_map. split.
  - intros [[mid s] [Hin Ha]]. exists mid, s. split; [exact Hin |].
    destruct (expected_alert rules mid s) as [a' |]; simpl in Ha.
    + destruct Ha as [-> | []]. reflexivity.
    + destruct Ha.
  - intros [mid [s [Hin Ha]]]. exists (mid, s). split; [exact Hin |].
    rewrite Ha. now left.
Qed.

Lemma expected_alert_id (rules : dict float) (mid : string) (s : sample) (a : alert) :
  expected_alert rules mid s = Some a ->
  a = {| alert_model_id := mid;
         alert_alerts := expected_violations rules (metrics s);
         evaluation_time := evaluated_at s |}
  /\ expected_violations rules (metrics s) <> [].
Proof.
  unfold expected_alert.
  destruct (expected_violations rules (metrics s)) as [| i vs]; [discriminate |].
  intros H. inversion H. split; [reflexivity | discriminate].
Qed.

(** C9.  The alerts of a run are, model by model in the order of the
    results, one alert for each model with a violated rule and none for a
    model without; the alert of a model lists the violations of all its
    violated rules in the order the rules are declared, and a recorded
    violation is always about a metric the sample has. *)
Theorem alert_iff_violation (self : ModelPerformanceChecker)
    (results : dict sample) (mid : string) (s : sample) :
  NoDup (map fst results) ->
  In (mid, s) results ->
  let found := fst (check_performance self results) in
  let the_alert :=
    {| alert_model_id := mid;
       alert_alerts :=
         map (violation_of (metrics s))
             (filter (violated (metrics s)) (thresholds self));
       evaluation_time := evaluated_at s |} in
  found = expected_alerts (thresholds self) results
  /\ ((forall a, In a found -> alert_model_id a <> mid)
      <-> (forall rule, In rule (thresholds self) ->
             violated (metrics s) rule = false))
  /\ ((exists rule, In rule (thresholds self)
                    /\ violated (metrics s) rule = true) ->
      In the_alert found
      /\ forall a, In a found -> alert_model_id a = mid -> a = the_alert)
  /\ (forall i, In i (model_alerts_of self (metrics s)) ->
        Py.get (issue_metric i) (metrics s) = Some (issue_value i)).
Proof.
  intros Hnd Hin found the_alert.
  assert (Hfound : found = expected_alerts (thresholds self) results).
  { unfold found. now rewrite check_performance_spec. }
  assert (Hmine : forall a, In a found -> alert_model_id a = mid ->
            a = the_alert
            /\ expected_violations (thresholds self) (metrics s) <> []).
  { intros a Ha Hid. rewrite Hfound in Ha. apply In_expected_alerts in Ha.
    destruct Ha as [mid' [s' [Hin' Hexp]]].
    apply expected_alert_id in Hexp. destruct Hexp as [-> Hne].
    simpl in Hid. subst mid'.
    rewrite (NoDup_keys_unique results mid s' s Hnd Hin' Hin) in *.
    split; [reflexivity | exact Hne]. }
  assert (Hthere : expected_violations (thresholds self) (metrics s) <> [] ->
            In the_alert found).
  { intros Hne. rewrite Hfound. apply In_expected_alerts. exists mid, s.
    split; [exact Hin |]. unfold expected_alert.
    destruct (expected_violations (thresholds self) (metrics s)) as [| i vs] eqn:E;
      [contradiction |].
    unfold the_alert. fold (expected_violations (thresholds self) (metrics s)).
    now rewrite E. }
  split; [exact Hfound |]. split; [| split].
  - split.
    + intros Hnone. apply expected_violations_nil.
      destruct (expected_violations (thresholds self) (metrics s)) as [| i vs] eqn:E;
        [reflexivity |].
      exfalso. apply (Hnone the_alert); [| reflexivity].
      apply Hthere. discriminate.
    + intros Hall a Ha Hid. destruct (Hmine a Ha Hid) as [_ Hne].
      apply Hne. now apply expected_violations_nil.
  - intros [rule [Hrule Hv]]. split.
    + apply Hthere. intros E.
      rewrite (proj1 (expected_violations_nil _ _) E rule Hrule) in Hv.
      discriminate.
    + intros a Ha Hid. now destruct (Hmine a Ha Hid).
  - intros i Hi. apply In_model_alerts in Hi.
    destruct Hi as [rule [_ [Hv ->]]].
    unfold violated in Hv. unfold violation_of, get_default; simpl.
    destruct (Py.get (fst rule) (metrics s)); [reflexivity | discriminate].
Qed.

End Thresholds.

(* ================================================================= *)
(** ** Two runs over the same results *)

Section Determinism.

Import CheckModelPerformance.

Variable pct2 f4 f2 str_float : float -> string.
Variable str_int : nat -> string.

Lemma expected_alerts_untimed (rules : dict float) (results : dict sample) :
  map untimed_alert (expected_alerts rules results)
  = flat_map (fun '(mid, m) =>
                match expected_violations rules m with
                | [] => []
                | vs => [(mid, vs)]
                end) (untimed results).
Proof.
  induction results as [| [mid s] results IH]; simpl; [reflexivity |].
  rewrite map_app, IH. f_equal. unfold expected_alert.
  now destruct (expected_violations rules (metrics s)).
Qed.

Lemma summary_untimed (rules : dict float) (results : dict sample) :
  map (fun '(mid, s) =>
         summary_of mid s (expected_violations rules (metrics s))) results
  = map (fun '(mid, m) =>
           summary_of mid {| metrics := m; evaluated_at := None |}
             (expected_violations rules m)) (untimed results).
Proof.
  unfold untimed. rewrite map_map. apply map_ext. now intros [mid s].
Qed.

Lemma alert_lines_untimed (a b : alert) :
  untimed_alert a = untimed_alert b ->
  alert_lines pct2 a = alert_lines pct2 b.
Proof.
  unfold untimed_alert, alert_lines. intros H. inversion H as [[Hid Hal]].
  now rewrite Hid, Hal.
Qed.

Lemma map_alert_lines_untimed (al1 : list alert) :
  forall al2,
    map untimed_alert al1 = map untimed_alert al2 ->
    map (alert_lines pct2) al1 = map (alert_lines pct2) al2.
Proof.
  induction al1 as [| a al1 IH]; intros [| b al2] H; simpl in *;
    try discriminate; [reflexivity |].
  injection H as Hid Hal Hrest.
  rewrite (alert_lines_untimed a b), (IH al2 Hrest);
    [reflexivity | unfold untimed_alert; congruence].
Qed.

Lemma format_alert_message_untimed (al1 al2 : list alert) (summary : list summary_row) :
  map untimed_alert al1 = map untimed_alert al2 ->
  format_alert_message pct2 f4 f2 str_int al1 summary
  = format_alert_message pct2 f4 f2 str_int al2 summary.
Proof.
  intros H. unfold format_alert_message.
  rewrite (map_alert_lines_untimed al1 al2 H).
  destruct al1, al2; simpl in H; try discriminate; reflexivity.
Qed.

(** C10.  Two checkers with the same threshold table, whatever each read
    from its environment, run over results that agree on every model and
    number and differ at most in their time stamps: they build the same
    summary, alerts that agree in everything but [evaluation_time] (and in
    that too when the results are the same), the same message blocks and
    the same exposition text. *)
Theorem runs_agree (self1 self2 : ModelPerformanceChecker)
    (results1 results2 : dict sample) :
  thresholds self1 = thresholds self2 ->
  untimed results1 = untimed results2 ->
  let run1 := check_performance self1 results1 in
  let run2 := check_performance self2 results2 in
  snd run1 = snd run2
  /\ map untimed_alert (fst run1) = map untimed_alert (fst run2)
  /\ (results1 = results2 -> fst run1 = fst run2)
  /\ format_alert_message pct2 f4 f2 str_int (fst run1) (snd run1)
     = format_alert_message pct2 f4 f2 str_int (fst run2) (snd run2)
  /\ export_metrics str_float str_int (snd run1)
     = export_metrics str_float str_int (snd run2).
Proof.
  intros Hrules Hres run1 run2. unfold run1, run2.
  rewrite !check_performance_spec; simpl.
  assert (Hsum :
    map (fun '(mid, s) =>
           summary_of mid s (expected_violations (thresholds self1) (metrics s)))
        results1
    = map (fun '(mid, s) =>
             summary_of mid s (expected_violations (thresholds self2) (metrics s)))
          results2).
  { now rewrite !summary_untimed, Hrules, Hres. }
  assert (Hal :
    map untimed_alert (expected_alerts (thresholds self1) results1)
    = map untimed_alert (expected_alerts (thresholds self2) results2)).
  { now rewrite !expected_alerts_untimed, Hrules, Hres. }
  split; [exact Hsum |]. split; [exact Hal |]. split; [| split].
  - intros ->. now rewrite Hrules.
  - rewrite Hsum. now apply format_alert_message_untimed.
  - now rewrite Hsum.
Qed.

End Determinism.

(* ================================================================= *)
(** ** Ranking: [nlargest] *)

Arguments Rltb : simpl never.
Arguments Reqb : simpl never.

(** Settles the comparisons of numerals that a computation left behind. *)
Ltac Rdecide :=
  repeat match goal with
  | |- context [Rltb ?a ?b] =>
      first [ rewrite (proj2 (Rltb_true_iff a b)) by lra
            | rewrite (proj2 (Rltb_false_iff a b)) by lra ]
  | |- context [Reqb ?a ?b] =>
      first [ rewrite (proj2 (Reqb_true_iff a b)) by lra
            | rewrite (proj2 (Reqb_false_iff a b)) by lra ]
  end.

Ltac Rcompute := repeat (progress (simpl; Rdecide)).

Lemma same_true_iff (x y : float) : same x y = true <-> x = y.
Proof.
  destruct x, y; simpl; split; intros H; try discriminate; try reflexivity.
  - apply Reqb_true_iff in H. now subst.
  - inversion H. apply Reqb_refl.
Qed.

Lemma fltb_asym (x y : float) : fltb x y = true -> fltb y x = false.
Proof.
  destruct x, y; simpl; try discriminate; try reflexivity.
  intros H. apply Rltb_true_iff in H. apply Rltb_false_iff. lra.
Qed.

Lemma not_below_trans (x y z : float) :
  is_nan y = false ->
  fltb x y = false -> fltb y z = false -> fltb x z = false.
Proof.
  destruct x, y, z; simpl; try discriminate; try reflexivity.
  intros _ H1 H2. apply Rltb_false_iff in H1, H2. apply Rltb_false_iff. lra.
Qed.

Section Ranking.

Context {A : Type}.
Variable key : A -> float.

Local Abbreviation not_below := (Pd.not_below key).
Local Abbreviation ranked := (Pd.ranked key).

Lemma not_below_iff (a b : A) : not_below a b <-> fltb (key a) (key b) = false.
Proof.
  unfold not_below. rewrite <- fltb_spec.
  destruct (fltb (key a) (key b)); split; congruence.
Qed.

Lemma insert_desc_perm (r : A) (ranked : list A) :
  Permutation (Pd.insert_desc key r ranked) (r :: ranked).
Proof.
  induction ranked as [| r' rest IH]; simpl.
  - apply Permutation_refl.
  - destruct (fltb (key r) (key r')).
    + rewrite IH. apply perm_swap.
    + apply Permutation_refl.
Qed.

Lemma sort_desc_perm (rows : list A) : Permutation (Pd.sort_desc key rows) rows.
Proof.
  induction rows as [| r rows IH]; simpl.
  - apply Permutation_refl.
  - rewrite insert_desc_perm. now apply perm_skip.
Qed.

Lemma insert_desc_sorted (r : A) (ranked : list A) :
  Forall (fun x => is_nan (key x) = false) ranked ->
  StronglySorted not_below ranked ->
  StronglySorted not_below (Pd.insert_desc key r ranked).
Proof.
  induction ranked as [| r' rest IH]; simpl; intros Hnn Hs.
  - repeat constructor.
  - inversion Hnn as [| ? ? Hr' Hrest]; subst.
    inversion Hs as [| ? ? Hs' Hall]; subst.
    destruct (fltb (key r) (key r')) eqn:E.
    + constructor; [now apply IH |].
      apply (Permutation_Forall (Permutation_sym (insert_desc_perm r rest))).
      constructor; [| exact Hall].
      apply not_below_iff. now apply fltb_asym.
    + constructor; [exact Hs |]. constructor; [now apply not_below_iff |].
      eapply Forall_impl; [| exact Hall]. intros x Hx.
      apply not_below_iff. apply not_below_iff in Hx.
      now apply (not_below_trans _ (key r')).
Qed.

Lemma sort_desc_sorted (rows : list A) :
  Forall (fun x => is_nan (key x) = false) rows ->
  StronglySorted not_below (Pd.sort_desc key rows).
Proof.
  induction rows as [| r rows IH]; simpl; intros Hnn.
  - constructor.
  - inversion Hnn; subst. apply insert_desc_sorted; [| now apply IH].
    now apply (Permutation_Forall (Permutation_sym (sort_desc_perm rows))).
Qed.

(** Rows of one key keep their order of appearance. *)
Lemma insert_desc_stable (k : float) (r : A) (ranked : list A) :
  filter (fun x => same (key x) k) (Pd.insert_desc key r ranked)
  = filter (fun x => same (key x) k) (r :: ranked).
Proof.
  induction ranked as [| r' rest IH]; [reflexivity |].
  simpl. destruct (fltb (key r) (key r')) eqn:E; [| reflexivity].
  simpl. rewrite IH. simpl.
  destruct (same (key r) k) eqn:Er; [| reflexivity].
  destruct (same (key r') k) eqn:Er'; [| reflexivity].
  apply same_true_iff in Er, Er'. rewrite Er, Er', fltb_irrefl in E.
  discriminate.
Qed.

Lemma sort_desc_stable (k : float) (rows : list A) :
  filter (fun x => same (key x) k) (Pd.sort_desc key rows)
  = filter (fun x => same (key x) k) rows.
Proof.
  induction rows as [| r rows IH]; [reflexivity |].
  simpl. rewrite insert_desc_stable. simpl. now rewrite IH.
Qed.

Lemma filter_split_perm (p : A -> bool) (rows : list A) :
  Permutation (filter (fun r => negb (p r)) rows ++ filter p rows) rows.
Proof.
  induction rows as [| r rows IH]; simpl; [constructor |].
  destruct (p r); simpl.
  - apply Permutation_sym, Permutation_cons_app. now apply Permutation_sym.
  - now constructor.
Qed.

Lemma ranked_perm (rows : list A) : Permutation (ranked rows) rows.
Proof.
  unfold ranked. rewrite sort_desc_perm. apply filter_split_perm.
Qed.

Lemma StronglySorted_app (R : A -> A -> Prop) (l1 l2 : list A) :
  StronglySorted R l1 -> StronglySorted R l2 ->
  (forall a b, In a l1 -> In b l2 -> R a b) ->
  StronglySorted R (l1 ++ l2).
Proof.
  induction l1 as [| a l1 IH]; simpl; intros H1 H2 H; [exact H2 |].
  inversion H1 as [| ? ? H1' Ha]; subst. constructor.
  - apply IH; auto.
  - apply Forall_app. split; [exact Ha |].
    apply Forall_forall. intros b Hb. apply H; auto.
Qed.

Lemma StronglySorted_app_inv (R : A -> A -> Prop) (l1 l2 : list A) :
  StronglySorted R (l1 ++ l2) ->
  StronglySorted R l1 /\ forall a b, In a l1 -> In b l2 -> R a b.
Proof.
  induction l1 as [| a l1 IH]; simpl; intros H.
  - split; [constructor | intros a b []].
  - inversion H as [| ? ? H' Ha]; subst. destruct (IH H') as [Hs Hc].
    apply Forall_app in Ha. destruct Ha as [Ha1 Ha2]. split.
    + now constructor.
    + intros x b [-> | Hx] Hb; [| now apply Hc].
      rewrite Forall_forall in Ha2. now apply Ha2.
Qed.

Lemma nan_rows_sorted (rows : list A) :
  Forall (fun x => is_nan (key x) = true) rows ->
  StronglySorted not_below rows.
Proof.
  induction rows as [| r rows IH]; intros H; [constructor |].
  inversion H as [| ? ? Hr Hrows]; subst. constructor; [now apply IH |].
  eapply Forall_impl; [| exact Hrows]. intros x Hx. apply not_below_iff.
  cbv beta in Hx. revert Hx. destruct (key x); simpl; intros Hx; try discriminate.
  apply fltb_nan_r.
Qed.

Lemma ranked_sorted (rows : list A) : StronglySorted not_below (ranked rows).
Proof.
  unfold ranked. apply StronglySorted_app.
  - apply sort_desc_sorted. apply Forall_forall. intros x Hx.
    apply filter_In in Hx. destruct Hx as [_ Hx].
    now destruct (is_nan (key x)).
  - apply nan_rows_sorted. apply Forall_forall. intros x Hx.
    apply filter_In in Hx. now destruct Hx.
  - intros a b _ Hb. apply filter_In in Hb. destruct Hb as [_ Hb].
    apply not_below_iff. cbv beta in Hb. revert Hb.
    destruct (key b); simpl; intros Hb; try discriminate. apply fltb_nan_r.
Qed.

Lemma filter_filter_and (p q : A -> bool) (rows : list A) :
  filter p (filter q rows) = filter (fun x => q x && p x) rows.
Proof.
  induction rows as [| r rows IH]; simpl; [reflexivity |].
  destruct (q r); simpl; [destruct (p r) |]; now rewrite IH.
Qed.

Lemma filter_none (rows : list A) : filter (fun _ : A => false) rows = [].
Proof. induction rows; simpl; auto. Qed.

Lemma ranked_stable (k : float) (rows : list A) :
  filter (fun x => same (key x) k) (ranked rows)
  = filter (fun x => same (key x) k) rows.
Proof.
  unfold ranked. rewrite filter_app, sort_desc_stable, !filter_filter_and.
  destruct (is_nan k) eqn:Ek.
  - rewrite (filter_ext _ (fun _ => false)), filter_none; simpl.
    + apply filter_ext. intros x. destruct (key x), k; try discriminate; reflexivity.
    + intros x. destruct (key x), k; try discriminate; reflexivity.
  - rewrite (filter_ext (fun x => is_nan (key x) && same (key x) k) (fun _ => false)),
      filter_none, app_nil_r.
    + apply filter_ext. intros x. destruct (key x), k; try discriminate; reflexivity.
    + intros x. destruct (key x), k; try discriminate; reflexivity.
Qed.

Lemma nlargest_ranked (n : nat) (rows : list A) :
  Pd.nlargest key n rows = firstn n (ranked rows).
Proof. reflexivity. Qed.

(** What [nlargest] returns, for any column and any [n]. *)
Lemma nlargest_spec (n : nat) (rows : list A) :
  List.length (Pd.nlargest key n rows) = Nat.min n (List.length rows)
  /\ StronglySorted not_below (Pd.nlargest key n rows)
  /\ (exists rest,
        Permutation (Pd.nlargest key n rows ++ rest) rows
        /\ forall r r', In r (Pd.nlargest key n rows) -> In r' rest ->
             not_below r r')
  /\ (forall k, exists rest,
        filter (fun x => same (key x) k) rows
        = filter (fun x => same (key x) k) (Pd.nlargest key n rows) ++ rest).
Proof.
  rewrite nlargest_ranked.
  pose proof (ranked_sorted rows) as Hs.
  rewrite <- (firstn_skipn n (ranked rows)) in Hs.
  apply StronglySorted_app_inv in Hs. destruct Hs as [Hs Hc].
  repeat split.
  - rewrite length_firstn. now rewrite (Permutation_length (ranked_perm rows)).
  - exact Hs.
  - exists (skipn n (ranked rows)). split; [| exact Hc].
    rewrite firstn_skipn. apply ranked_perm.
  - intros k. exists (filter (fun x => same (key x) k) (skipn n (ranked rows))).
    now rewrite <- filter_app, firstn_skipn, ranked_stable.
Qed.

End Ranking.

Section TopModels.

Import CheckModelPerformance Samples.

Lemma summary_scored (mid : string) (da : R) :
  (0.80 <= da)%R ->
  summary_of mid (scored da)
    (expected_violations (thresholds checker) (metrics (scored da)))
  = {| model_id := mid; directional_accuracy := Fin da;
       interval_accuracy := Fin 0; rmse := PInf;
       profit_correlation := Fin 0; alerts := 0 |}.
Proof.
  intros Hda. unfold expected_violations, summary_of, violated; simpl.
  rewrite (proj2 (Rltb_false_iff da 0.80)) by lra. reflexivity.
Qed.

Lemma top_models_ABC :
  map model_id (top_models (snd (check_performance checker results_ABC)))
  = ["A"; "B"; "C"]%string.
Proof.
  rewrite check_performance_spec. unfold results_ABC; simpl.
  rewrite !summary_scored by lra.
  unfold top_models, Pd.nlargest, Pd.ranked. Rcompute. reflexivity.
Qed.

Lemma top_models_BAC :
  map model_id (top_models (snd (check_performance checker results_BAC)))
  = ["B"; "A"; "C"]%string.
Proof.
  rewrite check_performance_spec. unfold results_BAC; simpl.
  rewrite !summary_scored by lra.
  unfold top_models, Pd.nlargest, Pd.ranked. Rcompute. reflexivity.
Qed.

(** C6, as the code has it.  The top section holds the first three rows of
    the summary ranked by directional accuracy, descending: three rows or
    all of them if there are fewer, none of them below a later one, none
    of the rows left out above a row taken, and rows of one directional
    accuracy in the order the results list them.  With the results in the
    order A, B, C the section lists A, B, C. *)
Theorem top_models_ranking (summary : list summary_row) :
  List.length (top_models summary) = Nat.min 3 (List.length summary)
  /\ StronglySorted (Pd.not_below directional_accuracy) (top_models summary)
  /\ (exists rest,
        Permutation (top_models summary ++ rest) summary
        /\ forall r r', In r (top_models summary) -> In r' rest ->
             Pd.not_below directional_accuracy r r')
  /\ (forall k, exists rest,
        filter (fun x => same (directional_accuracy x) k) summary
        = filter (fun x => same (directional_accuracy x) k) (top_models summary)
          ++ rest)
  /\ map model_id (top_models (snd (check_performance checker results_ABC)))
     = ["A"; "B"; "C"]%string.
Proof.
  destruct (nlargest_spec directional_accuracy 3 summary) as [Hlen [Hs [Hp Hst]]].
  unfold top_models. repeat split; auto.
  apply top_models_ABC.
Qed.

(** C6 as stated fails: with the results in the order B, A, C the two rows
    of directional accuracy 0.91 come out B first, A second. *)
Lemma ranking_ties_not_by_id :
  ~ ties_by_id (top_models (snd (check_performance checker results_BAC))).
Proof.
  intros H.
  pose proof top_models_BAC as Hids.
  destruct (top_models (snd (check_performance checker results_BAC)))
    as [| b [| a [| c [| ? ?]]]] eqn:E; try discriminate.
  injection Hids as Hb Ha Hc.
  assert (Hda : directional_accuracy b = directional_accuracy a).
  { revert E. rewrite check_performance_spec. unfold results_BAC; simpl.
    rewrite !summary_scored by lra.
    unfold top_models, Pd.nlargest, Pd.ranked. Rcompute.
    intros E. now inversion E. }
  specialize (H [] b [] a [c] eq_refl Hda).
  rewrite Hb, Ha in H. discriminate.
Qed.

End TopModels.

(* ================================================================= *)
(** ** Metrics of a perfect prediction *)

Section FiniteArrays.

Local Open Scope R_scope.

Lemma sum_Fin (l : list R) : Np.sum (map Fin l) = Fin (Rsum l).
Proof.
  unfold Np.sum. induction l as [| a l IH]; simpl; [reflexivity |].
  now rewrite IH.
Qed.

Lemma Rsum_zeros {A : Type} (l : list A) : Rsum (map (fun _ => 0) l) = 0.
Proof. induction l as [| a l IH]; simpl; [reflexivity | rewrite IH; lra]. Qed.

Lemma map2_diag {A B : Type} (f : A -> A -> B) (l : list A) :
  Np.map2 f l l = map (fun a => f a a) l.
Proof. induction l as [| a l IH]; simpl; [reflexivity | now rewrite IH]. Qed.

Lemma INR_pos_neq (n : nat) : (0 < n)%nat -> INR n <> 0.
Proof. intros H. apply not_0_INR. lia. Qed.

Lemma fdiv_Fin (a b : R) : b <> 0 -> fdiv (Fin a) (Fin b) = Fin (a / b).
Proof.
  intros Hb. simpl. now rewrite (proj2 (Reqb_false_iff b 0) Hb).
Qed.

Lemma fdiv_zero_zero : fdiv (Fin 0) (Fin 0) = NaN.
Proof. simpl. now rewrite !Reqb_refl. Qed.

Lemma fsqrt_zero : fsqrt (Fin 0) = Fin 0.
Proof. simpl. now rewrite Rltb_irrefl, sqrt_0. Qed.

Lemma mean_Fin (l : list R) :
  l <> [] -> Np.mean (map Fin l) = Fin (Rsum l / INR (List.length l)).
Proof.
  intros Hl. unfold Np.mean, of_nat. rewrite sum_Fin, length_map.
  apply fdiv_Fin. apply INR_pos_neq. destruct l; [contradiction | simpl; lia].
Qed.

Lemma mean_zeros {A : Type} (l : list A) :
  l <> [] -> Np.mean (map (fun _ => Fin 0) l) = Fin 0.
Proof.
  intros Hl.
  replace (map (fun _ : A => Fin 0) l) with (map Fin (map (fun _ => 0) l))
    by now rewrite map_map.
  rewrite mean_Fin; [| now destruct l].
  rewrite Rsum_zeros. f_equal. unfold Rdiv. ring.
Qed.

Lemma mean_bool_all_true {A : Type} (l : list A) :
  l <> [] -> Np.mean_bool (map (fun _ => true) l) = Fin 1.
Proof.
  intros Hl. unfold Np.mean_bool, of_nat.
  assert (Hf : filter (fun b : bool => b) (map (fun _ : A => true) l)
               = map (fun _ => true) l).
  { clear Hl. induction l as [| a l IH]; simpl; [reflexivity | now rewrite IH]. }
  rewrite Hf, length_map.
  assert (Hn : INR (List.length l) <> 0).
  { apply INR_pos_neq. destruct l; [contradiction | simpl; lia]. }
  rewrite fdiv_Fin by exact Hn. f_equal. now field.
Qed.

(** The squared deviations from the mean add up to zero exactly when the
    values are all the same. *)
Lemma Rsum_squares_nonneg (c : R) (l : list R) :
  0 <= Rsum (map (fun a => (a - c) * (a - c)) l).
Proof.
  induction l as [| x l IH]; simpl; [lra |].
  pose proof (Rle_0_sqr (x - c)) as Hs. unfold Rsqr in Hs. lra.
Qed.

Lemma Rsum_squares_zero (c : R) (l : list R) :
  Rsum (map (fun a => (a - c) * (a - c)) l) = 0 -> forall a, In a l -> a = c.
Proof.
  induction l as [| b l IH]; simpl; intros H a Ha; [contradiction |].
  pose proof (Rsum_squares_nonneg c l) as Hnn.
  pose proof (Rle_0_sqr (b - c)) as Hs. unfold Rsqr in Hs.
  destruct Ha as [<- | Ha].
  - assert (Hb : Rsqr (b - c) = 0) by (unfold Rsqr; lra).
    apply Rsqr_0_uniq in Hb. lra.
  - apply IH; [lra | exact Ha].
Qed.

Lemma Rsum_const (c : R) (l : list R) :
  (forall a, In a l -> a = c) -> Rsum l = INR (List.length l) * c.
Proof.
  induction l as [| b l IH]; intros H.
  - simpl. ring.
  - change (Rsum (b :: l)) with (b + Rsum l).
    change (List.length (b :: l)) with (S (List.length l)).
    rewrite S_INR, IH, (H b (or_introl eq_refl)); [ring |].
    intros a Ha. apply H. now right.
Qed.

Lemma squares_of_constant (l : list R) :
  (forall a b, In a l -> In b l -> a = b) ->
  Rsum (map (fun a => (a - Rsum l / INR (List.length l))
                      * (a - Rsum l / INR (List.length l))) l) = 0.
Proof.
  intros H. destruct l as [| c l']; [reflexivity |].
  set (l := c :: l') in *.
  assert (Hc : forall a, In a l -> a = c).
  { intros a Ha. apply H; [exact Ha | now left]. }
  assert (Hn : INR (List.length l) <> 0) by (apply INR_pos_neq; simpl; lia).
  rewrite (Rsum_const c l Hc).
  replace (INR (List.length l) * c / INR (List.length l)) with c by now field.
  rewrite (map_ext_in _ (fun _ => 0)); [apply Rsum_zeros |].
  intros a Ha. rewrite (Hc a Ha). ring.
Qed.

End FiniteArrays.

Section PerfectPrediction.

Import EvaluateModels.

Local Open Scope R_scope.

Variable request : string -> nat -> row -> option prediction.
Variable now : string -> string.

Lemma all_succeeded (model_id : string) (data : list row) :
  forall i ps,
    responses request model_id i data = map Some ps ->
    failed_calls request model_id i data = 0%nat.
Proof.
  induction data as [| r data IH]; intros i ps H; simpl in *; [reflexivity |].
  destruct ps as [| p ps]; [discriminate |]. simpl in H.
  injection H as Hr Hrest. rewrite Hr. simpl. now apply (IH (S i) ps).
Qed.

Lemma subscript_all_Some (ps : list prediction) :
  subscript_all (map Some ps) = Return ps.
Proof. induction ps as [| p ps IH]; simpl; [reflexivity | now rewrite IH]. Qed.

Lemma mse_same (rs : list R) :
  rs <> [] -> mean_squared_error (map Fin rs) (map Fin rs) = Fin 0.
Proof.
  intros Hrs. unfold mean_squared_error.
  rewrite map2_diag, map_map, (map_ext _ (fun _ => Fin 0)).
  - now apply mean_zeros.
  - intros r. unfold Np.square; simpl. f_equal. ring.
Qed.

Lemma mae_same (rs : list R) :
  rs <> [] -> mean_absolute_error (map Fin rs) (map Fin rs) = Fin 0.
Proof.
  intros Hrs. unfold mean_absolute_error.
  rewrite map2_diag, map_map, (map_ext _ (fun _ => Fin 0)).
  - now apply mean_zeros.
  - intros r. simpl. f_equal. replace (r + - r) with 0 by ring. apply Rabs_R0.
Qed.

Lemma residuals_same (rs : list R) :
  Np.sum (Np.map2 (fun a b => Np.square (fsub a b)) (map Fin rs) (map Fin rs))
  = Fin 0.
Proof.
  rewrite map2_diag, map_map, (map_ext _ (fun r => Fin ((fun _ => 0) r))).
  - rewrite <- (map_map (fun _ => 0) Fin), sum_Fin. now rewrite Rsum_zeros.
  - intros r. unfold Np.square; simpl. f_equal. ring.
Qed.

Lemma total_squares_Fin (rs : list R) :
  rs <> [] ->
  Np.sum (map (fun a => Np.square (fsub a (Np.mean (map Fin rs)))) (map Fin rs))
  = Fin (total_squares rs).
Proof.
  intros Hrs. rewrite (mean_Fin rs Hrs), map_map. unfold total_squares.
  rewrite <- sum_Fin, map_map. reflexivity.
Qed.

Lemma direction_same (ys : list float) :
  (2 <= List.length ys)%nat ->
  Np.mean_bool
    (Np.map2 Bool.eqb (map (fun d => fgtb d (Fin 0)) (Np.diff ys))
                      (map (fun d => fgtb d (Fin 0)) (Np.diff ys)))
  = Fin 1.
Proof.
  intros Hlen. rewrite map2_diag, map_map, (map_ext _ (fun _ => true)).
  - apply mean_bool_all_true.
    destruct ys as [| a [| b ys]]; simpl in *; try lia. discriminate.
  - intros d. apply Bool.eqb_reflx.
Qed.

Lemma interval_same (rs : list R) :
  rs <> [] ->
  Np.mean_bool
    (Np.map2 andb (Np.map2 fgeb (map Fin rs) (map Fin rs))
                  (Np.map2 fleb (map Fin rs) (map Fin rs)))
  = Fin 1.
Proof.
  intros Hrs. rewrite !map2_diag, !map_map, (map_ext _ (fun _ => true)).
  - now apply mean_bool_all_true.
  - intros r. unfold fgeb, fleb; simpl. now rewrite Rltb_irrefl.
Qed.

Lemma get_here {V : Type} (k : string) (v : V) (d : dict V) :
  Py.get k ((k, v) :: d) = Some v.
Proof. simpl. now rewrite String.eqb_refl. Qed.

Lemma get_next {V : Type} (k k' : string) (v : V) (d : dict V) :
  String.eqb k k' = false -> Py.get k ((k', v) :: d) = Py.get k d.
Proof. intros H. simpl. now rewrite H. Qed.

Ltac lookup :=
  repeat (rewrite get_next by reflexivity); rewrite get_here.

(** The metrics of a predicted high that is the truth. *)
Lemma perfect_prediction_metrics (model_id : string) (data : list row)
    (ps : list prediction) (rs : list R) :
  (2 <= List.length data)%nat ->
  map actual_price data = map Fin rs ->
  responses request model_id 0 data = map Some ps ->
  map predicted_high ps = map actual_price data ->
  exists m,
    evaluate_model request now model_id data = Return (Some m)
    /\ Py.get "mse" m = Some (VNum (Fin 0))
    /\ Py.get "rmse" m = Some (VNum (Fin 0))
    /\ Py.get "mae" m = Some (VNum (Fin 0))
    /\ Py.get "r2" m
       = Some (VNum (fsub (Fin 1) (fdiv (Fin 0) (Fin (total_squares rs)))))
    /\ Py.get "directional_accuracy" m = Some (VNum (Fin 1))
    /\ (map predicted_low ps = map actual_price data ->
        Py.get "interval_accuracy" m = Some (VNum (Fin 1))).
Proof.
  intros Hlen Hdata Hresp Hhigh.
  assert (Hrs : rs <> []).
  { intros ->. destruct data; simpl in *; [lia | discriminate]. }
  assert (Hlen' : (2 <= List.length (map Fin rs))%nat).
  { rewrite <- Hdata, length_map. exact Hlen. }
  unfold evaluate_model.
  rewrite get_predictions_spec, (all_succeeded _ _ _ _ Hresp), Hresp.
  replace (List.length data <? 10 * 0)%nat with false
    by (symmetry; apply Nat.ltb_ge; lia).
  rewrite subscript_all_Some. cbn [bind].
  rewrite Hhigh, Hdata.
  unfold evaluate_regression_model.
  replace (check_reg_targets (map Fin rs) (map Fin rs)) with true.
  2:{ unfold check_reg_targets. rewrite Nat.eqb_refl.
      replace (List.length (map Fin rs) =? 0)%nat with false
        by (symmetry; apply Nat.eqb_neq; lia).
      assert (Hfin : forallb is_finite (map Fin rs) = true).
      { clear. induction rs; simpl; auto. }
      now rewrite Hfin. }
  cbn [bind app]. eexists. split; [reflexivity |].
  rewrite (mse_same rs Hrs), (mae_same rs Hrs), residuals_same,
    (total_squares_Fin rs Hrs), fsqrt_zero, (direction_same _ Hlen').
  repeat split; try (lookup; reflexivity).
  intros Hlow. rewrite Hlow, (interval_same rs Hrs). lookup. reflexivity.
Qed.

(** The sum of the squared deviations from the mean that the denominator
    of [r2] is, as [evaluate_regression_model] computes it. *)
Lemma r2_of_exact (t : R) :
  fsub (Fin 1) (fdiv (Fin 0) (Fin t))
  = if is_zero (Fin t) || is_nan (Fin t) then NaN else Fin 1.
Proof.
  cbn [is_zero is_nan]. rewrite Bool.orb_false_r.
  destruct (Req_dec_T t 0) as [-> | Ht].
  - now rewrite fdiv_zero_zero, Reqb_refl.
  - rewrite (fdiv_Fin 0 t Ht), (proj2 (Reqb_false_iff t 0) Ht).
    cbn [fsub fneg fadd]. f_equal. unfold Rdiv. ring.
Qed.

(** C8, as the code has it.  When every call succeeds and the predicted
    high equals the actual price, on a series of at least two finite
    prices: mse, rmse and mae are 0 and directional accuracy is 1;
    interval accuracy is 1 when the predicted low equals the actual price
    as well; r2 is 1 when the sum of the squared deviations from the mean,
    as the code computes it, is a number other than zero, and [nan]
    otherwise; that sum is zero when all prices are one value and the
    computed mean is that value. *)
Theorem perfect_prediction (model_id : string) (data : list row)
    (ps : list prediction) (rs : list R) :
  (2 <= List.length data)%nat ->
  map actual_price data = map Fin rs ->
  responses request model_id 0 data = map Some ps ->
  map predicted_high ps = map actual_price data ->
  let y_true := map actual_price data in
  let ss_tot :=
    Np.sum (map (fun a => Np.square (fsub a (Np.mean y_true))) y_true) in
  exists m,
    evaluate_model request now model_id data = Return (Some m)
    /\ Py.get "mse" m = Some (VNum (Fin 0))
    /\ Py.get "rmse" m = Some (VNum (Fin 0))
    /\ Py.get "mae" m = Some (VNum (Fin 0))
    /\ Py.get "directional_accuracy" m = Some (VNum (Fin 1))
    /\ (map predicted_low ps = map actual_price data ->
        Py.get "interval_accuracy" m = Some (VNum (Fin 1)))
    /\ Py.get "r2" m
       = Some (VNum (if is_zero ss_tot || is_nan ss_tot then NaN else Fin 1))
    /\ (forall c, (forall a, In a y_true -> a = Fin c) ->
                  Np.mean y_true = Fin c ->
                  Py.get "r2" m = Some (VNum NaN)).
Proof.
  intros Hlen Hdata Hresp Hhigh y_true ss_tot.
  destruct (perfect_prediction_metrics model_id data ps rs
              Hlen Hdata Hresp Hhigh)
    as [m [Hm [Hmse [Hrmse [Hmae [Hr2 [Hda Hia]]]]]]].
  assert (Hrs : rs <> []).
  { intros ->. destruct data; simpl in *; [lia | discriminate]. }
  assert (Htot : ss_tot = Fin (total_squares rs)).
  { unfold ss_tot, y_true. rewrite Hdata. now apply total_squares_Fin. }
  exists m. repeat split; auto.
  - rewrite Hr2, Htot. now rewrite r2_of_exact.
  - intros c Hall Hmean. rewrite Hr2, r2_of_exact.
    assert (Hzero : ss_tot = Fin 0).
    { unfold ss_tot. rewrite Hmean.
      assert (Hgen : forall l, (forall a, In a l -> a = Fin c) ->
                Np.sum (map (fun a => Np.square (fsub a (Fin c))) l) = Fin 0).
      { induction l as [| a l IH]; intros Hl; [reflexivity |].
        cbn [map Np.sum fsum]. unfold Np.sum in IH.
        rewrite IH by (intros b Hb; apply Hl; now right).
        rewrite (Hl a (or_introl eq_refl)). unfold Np.square. simpl.
        f_equal. ring. }
      now apply Hgen. }
    rewrite Htot in Hzero. injection Hzero as ->.
    cbn [is_zero]. now rewrite Reqb_refl.
Qed.

End PerfectPrediction.

(** C8 as stated fails on r2: two days at the same price, predicted
    exactly, give r2 = [nan]. *)
Lemma perfect_prediction_flat_r2 :
  exists m,
    EvaluateModels.evaluate_model Samples.perfect_service Samples.clock
      "BTC-USD" Samples.flat_prices = Return (Some m)
    /\ Py.get "r2" m = Some (VNum NaN)
    /\ Py.get "r2" m <> Some (VNum (Fin 1)).
Proof.
  destruct (perfect_prediction_metrics Samples.perfect_service Samples.clock
              "BTC-USD" Samples.flat_prices
              (map (fun r => {| EvaluateModels.predicted_high := EvaluateModels.actual_price r;
                                EvaluateModels.predicted_low := EvaluateModels.actual_price r;
                                EvaluateModels.confidence := Fin 0.9 |})
                   Samples.flat_prices)
              [5%R; 5%R])
    as [m [Hm [_ [_ [_ [Hr2 _]]]]]];
    [simpl; lia | reflexivity | reflexivity | reflexivity |].
  exists m. split; [exact Hm |].
  assert (Hnan : Py.get "r2" m = Some (VNum NaN)).
  { rewrite Hr2. unfold total_squares.
    rewrite squares_of_constant, fdiv_zero_zero; [reflexivity |].
    intros a b [<- | [<- | []]] [<- | [<- | []]]; reflexivity. }
  split; [exact Hnan |]. rewrite Hnan. discriminate.
Qed.

(** The theorem at two days at the prices 1 and 2. *)
Lemma perfect_prediction_rising :
  exists m,
    EvaluateModels.evaluate_model Samples.perfect_service Samples.clock
      "BTC-USD" Samples.rising_prices = Return (Some m)
    /\ Py.get "rmse" m = Some (VNum (Fin 0))
    /\ Py.get "interval_accuracy" m = Some (VNum (Fin 1))
    /\ Py.get "r2" m = Some (VNum (Fin 1)).
Proof.
  destruct (perfect_prediction Samples.perfect_service Samples.clock
              "BTC-USD" Samples.rising_prices
              (map (fun r => {| EvaluateModels.predicted_high := EvaluateModels.actual_price r;
                                EvaluateModels.predicted_low := EvaluateModels.actual_price r;
                                EvaluateModels.confidence := Fin 0.9 |})
                   Samples.rising_prices)
              [1%R; 2%R])
    as [m [Hm [_ [Hrmse [_ [_ [Hia [Hr2 _]]]]]]]];
    [simpl; lia | reflexivity | reflexivity | reflexivity |].
  exists m. split; [exact Hm |]. split; [exact Hrmse |].
  split; [now apply Hia |].
  rewrite Hr2.
  change (map EvaluateModels.actual_price Samples.rising_prices)
    with (map Fin [1%R; 2%R]).
  rewrite (total_squares_Fin [1%R; 2%R]) by discriminate.
  cbn [is_zero is_nan].
  rewrite (proj2 (Reqb_false_iff (total_squares [1%R; 2%R]) 0));
    [reflexivity |].
  unfold total_squares. simpl. lra.
Defined.

(* ================================================================= *)
(** ** Cost anomalies *)

Section Anomalies.

Import AnalyzeCosts.

Local Open Scope R_scope.

Lemma abs_z_gt_2 (d v : R) :
  0 < v -> (2 < Rabs (d / sqrt v) <-> 4 * v < d * d).
Proof.
  intros Hv.
  assert (Hs : 0 < sqrt v) by now apply sqrt_lt_R0.
  assert (Hss : sqrt v * sqrt v = v) by (apply sqrt_sqrt; lra).
  set (s := sqrt v) in *. set (z := d / s).
  assert (Hd : d = z * s) by (unfold z; field; lra).
  assert (Hdd : d * d = z * z * v) by (rewrite Hd, <- Hss; ring).
  rewrite Hdd. unfold Rabs. destruct (Rcase_abs z) as [Hz | Hz]; split; intros H.
  - assert (4 < z * z) by nra. nra.
  - destruct (Rlt_dec 2 (- z)) as [| Hn]; [assumption |].
    assert (z * z <= 4) by nra. nra.
  - assert (4 < z * z) by nra. nra.
  - destruct (Rlt_dec 2 z) as [| Hn]; [assumption |].
    assert (z * z <= 4) by nra. nra.
Qed.

Lemma finite_days_costs (daily : list (string * R)) :
  map snd (finite_days daily) = map Fin (map snd daily).
Proof.
  unfold finite_days. rewrite !map_map. apply map_ext. now intros [d r].
Qed.

Lemma dropna_Fin (rs : list R) : Pd.dropna (map Fin rs) = map Fin rs.
Proof.
  unfold Pd.dropna. induction rs as [| r rs IH]; simpl; [reflexivity |].
  now rewrite IH.
Qed.

Lemma pd_mean_Fin (rs : list R) :
  rs <> [] -> Pd.mean (map Fin rs) = Fin (mean_of rs).
Proof. intros H. unfold Pd.mean. rewrite dropna_Fin. now apply mean_Fin. Qed.

(** A positive sample variance takes at least two values. *)
Lemma variance_pos_length (rs : list R) :
  0 < sample_variance rs -> (2 <= List.length rs)%nat.
Proof.
  unfold sample_variance. intros H.
  destruct rs as [| a [| b rs]]; simpl in *; try lia.
  - unfold total_squares in H; simpl in H. unfold Rdiv in H. lra.
  - unfold total_squares in H; simpl in H.
    replace ((a - (a + 0) / 1) * (a - (a + 0) / 1) + 0) with 0 in H by field.
    unfold Rdiv in H. lra.
Qed.

Lemma pd_std_Fin (rs : list R) :
  0 < sample_variance rs ->
  Pd.std (map Fin rs) = Fin (sqrt (sample_variance rs)).
Proof.
  intros Hv. pose proof (variance_pos_length rs Hv) as Hlen.
  assert (Hrs : rs <> []) by (intros ->; simpl in Hlen; lia).
  unfold Pd.std. rewrite dropna_Fin, (total_squares_Fin rs Hrs), length_map.
  unfold of_nat. rewrite fdiv_Fin by (apply INR_pos_neq; lia).
  fold (sample_variance rs). simpl.
  now rewrite (proj2 (Rltb_false_iff (sample_variance rs) 0)) by lra.
Qed.

Lemma pd_std_constant (rs : list R) :
  (forall a b, In a rs -> In b rs -> a = b) ->
  Pd.std (map Fin rs) = NaN \/ Pd.std (map Fin rs) = Fin 0.
Proof.
  intros Hc. unfold Pd.std. rewrite dropna_Fin, length_map.
  destruct rs as [| a rs]; [left; simpl; now rewrite !Reqb_refl |].
  rewrite total_squares_Fin by discriminate.
  unfold total_squares. rewrite (squares_of_constant _ Hc). unfold of_nat.
  destruct (Req_dec_T (INR (List.length (a :: rs) - 1)) 0) as [Hz | Hnz].
  - left. rewrite Hz, fdiv_zero_zero. reflexivity.
  - right. rewrite fdiv_Fin by exact Hnz.
    replace (0 / INR (List.length (a :: rs) - 1)) with 0 by (unfold Rdiv; ring).
    apply fsqrt_zero.
Qed.


Lemma analyze_anomalies_finite (df : list cost_row) (daily : list (string * R)) :
  df <> [] ->
  daily_costs df = finite_days daily ->
  0 < sample_variance (map snd daily) ->
  analyze_anomalies df
  = match
      filter (fun r => fgtb (fabs (zscore r)) (Fin 2))
        (map (fun '(d, c) =>
                {| day := d; day_cost := Fin c;
                   zscore := Fin (zscore_of (map snd daily) c) |}) daily)
    with
    | [] => Done None
    | a :: l => Done (Some (a :: l))
    end.
Proof.
  intros Hne Hdaily Hv. set (rs := map snd daily) in *.
  pose proof (variance_pos_length rs Hv) as Hlen.
  assert (Hrs : rs <> []) by (intros E; rewrite E in Hlen; simpl in Hlen; lia).
  assert (Hs : sqrt (sample_variance rs) <> 0).
  { pose proof (sqrt_lt_R0 _ Hv). lra. }
  unfold analyze_anomalies. destruct df as [| r0 df0]; [now elim Hne |].
  rewrite Hdaily, finite_days_costs. fold rs.
  rewrite (pd_mean_Fin rs Hrs), (pd_std_Fin rs Hv).
  unfold finite_days. rewrite map_map.
  rewrite (map_ext
             (fun x : string * R =>
                let '(d, c) := let '(d, r) := x in (d, Fin r) in
                {| day := d; day_cost := c;
                   zscore := fdiv (fsub c (Fin (mean_of rs)))
                                  (Fin (sqrt (sample_variance rs))) |})
             (fun '(d, c) =>
                {| day := d; day_cost := Fin c;
                   zscore := Fin (zscore_of rs c) |})).
  - now destruct (filter _ _).
  - intros [d c]. f_equal. unfold fsub; simpl fneg; simpl fadd.
    rewrite fdiv_Fin by exact Hs. reflexivity.
Qed.

Lemma filter_all_false {A : Type} (f : A -> bool) (l : list A) :
  (forall x, In x l -> f x = false) -> filter f l = [].
Proof.
  induction l as [| a l IH]; intros H; simpl; [reflexivity |].
  rewrite (H a (or_introl eq_refl)). apply IH. intros x Hx. apply H. now right.
Qed.

Lemma mean_of_constant (rs : list R) (r : R) :
  (forall a b, In a rs -> In b rs -> a = b) -> In r rs -> mean_of rs = r.
Proof.
  intros Hc Hr. unfold mean_of.
  rewrite (Rsum_const r rs) by (intros a Ha; now apply Hc).
  field. apply INR_pos_neq. destruct rs; [destruct Hr | simpl; lia].
Qed.

Lemma analyze_anomalies_constant (df : list cost_row) (daily : list (string * R)) :
  df <> [] ->
  daily_costs df = finite_days daily ->
  (forall a b, In a (map snd daily) -> In b (map snd daily) -> a = b) ->
  analyze_anomalies df = Done None.
Proof.
  intros Hne Hdaily Hc. unfold analyze_anomalies.
  destruct df as [| r0 df0]; [now elim Hne |].
  rewrite Hdaily, finite_days_costs.
  rewrite filter_all_false; [reflexivity |].
  intros row Hrow. apply in_map_iff in Hrow.
  destruct Hrow as [[d c] [<- Hin]]. unfold finite_days in Hin.
  apply in_map_iff in Hin. destruct Hin as [[d' r] [Heq Hin]].
  inversion Heq; subst d' c. clear Heq.
  assert (Hr : In r (map snd daily)).
  { change r with (snd (d, r)). now apply in_map. }
  rewrite pd_mean_Fin by (intros E; rewrite E in Hr; destruct Hr).
  rewrite (mean_of_constant _ r Hc Hr). cbn [zscore].
  replace (fsub (Fin r) (Fin r)) with (Fin 0)
    by (simpl; f_equal; ring).
  destruct (pd_std_constant _ Hc) as [-> | ->].
  - reflexivity.
  - rewrite fdiv_zero_zero. reflexivity.
Qed.

Lemma flag_iff (rs : list R) (r : R) :
  0 < sample_variance rs ->
  fgtb (fabs (Fin (zscore_of rs r))) (Fin 2) = true
  <-> 4 * sample_variance rs < (r - mean_of rs) * (r - mean_of rs).
Proof.
  intros Hv. unfold fgtb; simpl. rewrite Rltb_true_iff.
  unfold zscore_of. now apply abs_z_gt_2.
Qed.

Lemma spike_stats :
  mean_of (map snd Samples.spike_days) = 2.8
  /\ total_squares (map snd Samples.spike_days) = 64.8.
Proof.
  unfold mean_of, total_squares; simpl. split; lra.
Qed.

Lemma spike_days_values (d : string) (r : R) :
  In (d, r) Samples.spike_days -> r = 1 \/ r = 10.
Proof.
  intros H. simpl in H.
  repeat (destruct H as [H | H]; [inversion H; auto |]). destruct H.
Qed.


Lemma spike_costs_quiet : analyze_anomalies Samples.spike_costs = Done None.
Proof.
  destruct spike_stats as [Hm Ht].
  assert (Hvar : sample_variance (map snd Samples.spike_days) = 16.2).
  { unfold sample_variance. rewrite Ht. simpl. lra. }
  rewrite (analyze_anomalies_finite _ Samples.spike_days);
    [| discriminate | reflexivity | rewrite Hvar; lra].
  rewrite filter_all_false; [reflexivity |].
  intros row Hrow. apply in_map_iff in Hrow.
  destruct Hrow as [[d r] [<- Hin]]. cbn [zscore].
  destruct (fgtb (fabs (Fin (zscore_of (map snd Samples.spike_days) r))) (Fin 2))
    eqn:E; [| reflexivity].
  apply flag_iff in E; [| rewrite Hvar; lra].
  rewrite Hvar, Hm in E.
  destruct (spike_days_values d r Hin) as [-> | ->]; lra.
Qed.






End Anomalies.


(* ================================================================= *)
(** ** The exposition files *)

Section Exposition.

Local Open Scope string_scope.

Variable fmt : float -> string.

Lemma get_In {V : Type} (k : string) (v : V) (d : dict V) :
  Py.get k d = Some v -> In (k, v) d.
Proof.
  induction d as [| [k' v'] d IH]; simpl; [discriminate |].
  destruct (String.eqb_spec k k') as [-> | Hk]; intros H.
  - inversion H. now left.
  - right. now apply IH.
Qed.

Lemma replace_chars (old new : ascii) (s : string) :
  list_ascii_of_string (Py.replace old new s)
  = map (fun c => if Ascii.eqb c old then new else c) (list_ascii_of_string s).
Proof. induction s as [| c s IH]; simpl; [reflexivity | now rewrite IH]. Qed.

Lemma replace_app (old new : ascii) (s t : string) :
  Py.replace old new (s ++ t) = Py.replace old new s ++ Py.replace old new t.
Proof. induction s as [| c s IH]; simpl; [reflexivity | now rewrite IH]. Qed.

Lemma export_lines_In (res : dict EvaluateModels.metrics) (l : exposition_line) :
  In l (EvaluateModels.export_lines res)
  <-> exists model_id result metric x,
        In (model_id, result) res /\ In (metric, VNum x) result
        /\ l = EvaluateModels.model_line model_id metric x.
Proof.
  unfold EvaluateModels.export_lines. rewrite in_flat_map. split.
  - intros [[model_id result] [Hres Hl]]. apply in_flat_map in Hl.
    destruct Hl as [[metric v] [Hin Hl]]. destruct v as [x | t]; [| destruct Hl].
    destruct Hl as [<- | []]. exists model_id, result, metric, x.
    repeat split; auto.
  - intros [model_id [result [metric [x [Hres [Hin ->]]]]]].
    exists (model_id, result). split; [exact Hres |].
    apply in_flat_map. exists (metric, VNum x). split; [exact Hin |].
    left. reflexivity.
Qed.

(** C4, as the code has it.  [export_metrics] writes a line for every
    entry of every model that is a number and for nothing else; [nan] is a
    number like any other, so an entry holding [nan] gets its line. *)
Theorem export_writes_every_number (res : dict EvaluateModels.metrics) :
  (forall l, In l (EvaluateModels.export_lines res)
             <-> exists model_id result metric x,
                   In (model_id, result) res /\ In (metric, VNum x) result
                   /\ l = EvaluateModels.model_line model_id metric x)
  /\ (forall model_id result metric,
        In (model_id, result) res -> In (metric, VNum NaN) result ->
        In (EvaluateModels.model_line model_id metric NaN)
           (EvaluateModels.export_lines res))
  /\ EvaluateModels.export_metrics fmt res
     = Py.join newline
         (map (EvaluateModels.render fmt) (EvaluateModels.export_lines res)).
Proof.
  split; [| split].
  - intros l. apply export_lines_In.
  - intros model_id result metric Hres Hin. apply export_lines_In.
    exists model_id, result, metric, NaN. auto.
  - reflexivity.
Qed.

(** C5, as the code has it.  The model exporter puts [model_] in front of
    the metric key and turns every hyphen of it into an underscore, every
    other character staying as it is, and writes the model id as it is;
    the key [performance-avg] of model [BTC-USD] gives
    [model_performance_avg{model_id="BTC-USD"} <value>].  The cost exporter
    writes fixed names and turns the hyphens and colons of the service
    label into underscores. *)
Theorem exporter_names (res : dict EvaluateModels.metrics)
    (daily_stats : dict float) (service_costs : list AnalyzeCosts.service_row) :
  (forall l, In l (EvaluateModels.export_lines res)
             <-> exists model_id result metric x,
                   In (model_id, result) res /\ In (metric, VNum x) result
                   /\ l = {| line_name := "model_" ++ Py.replace "-" "_" metric;
                             line_labels := [("model_id", model_id)];
                             line_value := x |})
  /\ (forall s, list_ascii_of_string (Py.replace "-" "_" s)
                = map (fun c => if Ascii.eqb c "-" then "_"%char else c)
                      (list_ascii_of_string s))
  /\ (forall x, EvaluateModels.export_metrics fmt
                  [("BTC-USD", [("performance-avg", VNum x)])]
                = "model_performance_avg{model_id=" ++ dquote ++ "BTC-USD"
                  ++ dquote ++ "} " ++ fmt x)
  /\ (forall r, In r service_costs ->
        In {| line_name := "aws_cost_service_total";
              line_labels :=
                [("service", Py.replace ":" "_" (Py.replace "-" "_"
                               (AnalyzeCosts.service_name r)))];
              line_value := AnalyzeCosts.total_cost r |}
           (AnalyzeCosts.export_lines daily_stats service_costs)).
Proof.
  split; [| split; [| split]].
  - intros l. apply export_lines_In.
  - intros s. apply replace_chars.
  - intros x. reflexivity.
  - intros r Hr. unfold AnalyzeCosts.export_lines. apply in_or_app. right.
    apply in_flat_map. exists r. split; [exact Hr |]. left. reflexivity.
Qed.

End Exposition.

(** C4 as stated fails: the run over two days at one price, predicted
    exactly, ends with an [r2] of [nan], and the exposition has a line for
    it. *)
Lemma nan_is_exported :
  exists self',
    EvaluateModels.evaluate_all_models Samples.perfect_service Samples.clock
      Samples.some_text Samples.evaluator
      (Some Samples.flat_prices) (Some ["BTC-USD"%string])
    = Return (true, self')
    /\ exists l, In l (EvaluateModels.export_lines (EvaluateModels.results self'))
                 /\ line_name l = "model_r2"%string
                 /\ is_nan (line_value l) = true.
Proof.
  destruct (perfect_prediction_metrics Samples.perfect_service Samples.clock
              "BTC-USD" Samples.flat_prices
              (map (fun r => {| EvaluateModels.predicted_high := EvaluateModels.actual_price r;
                                EvaluateModels.predicted_low := EvaluateModels.actual_price r;
                                EvaluateModels.confidence := Fin 0.9 |})
                   Samples.flat_prices)
              [5%R; 5%R])
    as [m [Hm [_ [_ [_ [Hr2 [Hda _]]]]]]];
    [simpl; lia | reflexivity | reflexivity | reflexivity |].
  assert (Hnan : Py.get "r2" m = Some (VNum NaN)).
  { rewrite Hr2. unfold total_squares.
    rewrite squares_of_constant, fdiv_zero_zero; [reflexivity |].
    intros a b [<- | [<- | []]] [<- | [<- | []]]; reflexivity. }
  unfold EvaluateModels.evaluate_all_models, EvaluateModels.evaluate_each.
  rewrite Hm. cbn [bind]. rewrite Hda.
  replace (fltb (Fin 1)
             (EvaluateModels.alert_threshold
                (EvaluateModels.store_result Samples.evaluator "BTC-USD" m)))
    with false by (simpl; now rewrite (proj2 (Rltb_false_iff 1 0.8)) by lra).
  cbn [bind]. eexists. split; [reflexivity |].
  exists (EvaluateModels.model_line "BTC-USD" "r2" NaN). split; [| split; reflexivity].
  apply export_lines_In. exists "BTC-USD"%string, m, "r2"%string, NaN.
  repeat split; [now left | now apply get_In].
Qed.

(** C5 as stated fails: a colon in a metric key is written as it is, and
    the cost exporter does rewrite the value of its label. *)
Lemma colon_is_kept :
  EvaluateModels.export_metrics Samples.some_text
    [("BTC-USD", [("performance:avg", VNum (Fin 1))])]%string
  = ("model_performance:avg{model_id=" ++ dquote ++ "BTC-USD" ++ dquote
     ++ "} <value>")%string
  /\ map line_labels (AnalyzeCosts.export_lines [] [Samples.ec2])
     = [ [("service", "Amazon_EC2_Compute")]; [("service", "Amazon_EC2_Compute")] ]%string.
Proof. split; reflexivity. Qed.

(* ================================================================= *)
(** ** The theorems at sample inputs *)

(** C1 at 100 rows of which the first 15 calls fail: the model is given
    up, and a run over it alone leaves the evaluator as it was. *)
Lemma error_budget_15_of_100 :
  EvaluateModels.failed_calls (Samples.flaky_service 15) "BTC-USD" 0
    Samples.hundred_rows = 15
  /\ EvaluateModels.evaluate_model (Samples.flaky_service 15) Samples.clock
       "BTC-USD" Samples.hundred_rows = Return None
  /\ EvaluateModels.evaluate_each (Samples.flaky_service 15) Samples.clock
       Samples.evaluator Samples.hundred_rows ["BTC-USD"%string]
     = Return Samples.evaluator.
Proof.
  assert (H : List.length Samples.hundred_rows
              < 10 * EvaluateModels.failed_calls (Samples.flaky_service 15)
                       "BTC-USD" 0 Samples.hundred_rows)
    by (simpl; lia).
  destruct (error_budget_abandons_entity (Samples.flaky_service 15)
              Samples.clock Samples.evaluator "BTC-USD" Samples.hundred_rows H)
    as [_ [Hmodel [Hskip _]]].
  split; [reflexivity |]. split; [exact Hmodel |].
  exact (Hskip [] [] Samples.evaluator).
Defined.

(** C7 at 100 rows of which the first 5 calls fail. *)
Lemma failures_5_of_100 :
  EvaluateModels.evaluate_model (Samples.flaky_service 5) Samples.clock
    "BTC-USD" Samples.hundred_rows = Raise TypeError.
Proof.
  apply (failures_within_budget_raise (Samples.flaky_service 5) Samples.clock
           "BTC-USD" Samples.hundred_rows); simpl; lia.
Defined.

(** C2 at the rule on [rmse] with threshold 0.02: the value 0.03 is
    reported as too high, the value 0.02 is not reported. *)
Lemma rmse_rule_boundary :
  In {| CheckModelPerformance.issue_metric := "rmse";
        CheckModelPerformance.issue_value := Fin 0.03;
        CheckModelPerformance.issue_threshold := Fin 0.02;
        CheckModelPerformance.issue_status := CheckModelPerformance.high |}
     (CheckModelPerformance.model_alerts_of Samples.checker
        [("rmse"%string, Fin 0.03)])
  /\ ~ In {| CheckModelPerformance.issue_metric := "rmse";
             CheckModelPerformance.issue_value := Fin 0.02;
             CheckModelPerformance.issue_threshold := Fin 0.02;
             CheckModelPerformance.issue_status := CheckModelPerformance.high |}
          (CheckModelPerformance.model_alerts_of Samples.checker
             [("rmse"%string, Fin 0.02)]).
Proof.
  assert (Hrule : In ("rmse"%string, Fin 0.02)
                     (CheckModelPerformance.thresholds Samples.checker))
    by (simpl; auto).
  split.
  - apply (threshold_rule_boundary Samples.checker [("rmse"%string, Fin 0.03)]
             "rmse" (Fin 0.02) (Fin 0.03) Hrule eq_refl).
    split; [reflexivity |]. constructor. lra.
  - apply (threshold_rule_boundary Samples.checker [("rmse"%string, Fin 0.02)]
             "rmse" (Fin 0.02) (Fin 0.02) Hrule eq_refl). reflexivity.
Defined.

(** C9 at one model with a directional accuracy of 0.79 and an rmse of
    0.02: it has its alert, which is the only one. *)
Lemma weak_model_alerted :
  fst (CheckModelPerformance.check_performance Samples.checker
         (Samples.weak_at "2024-01-01T00:00:00"))
  = CheckModelPerformance.expected_alerts
      (CheckModelPerformance.thresholds Samples.checker)
      (Samples.weak_at "2024-01-01T00:00:00")
  /\ exists a,
       In a (fst (CheckModelPerformance.check_performance Samples.checker
                    (Samples.weak_at "2024-01-01T00:00:00")))
       /\ CheckModelPerformance.alert_model_id a = "A"%string.
Proof.
  assert (Hnd : NoDup (map fst (Samples.weak_at "2024-01-01T00:00:00"))).
  { simpl. constructor; [intros [] | constructor]. }
  destruct (alert_iff_violation Samples.checker
              (Samples.weak_at "2024-01-01T00:00:00") "A"
              {| CheckModelPerformance.metrics :=
                   [("directional_accuracy"%string, Fin 0.79);
                    ("rmse"%string, Fin 0.02)];
                 CheckModelPerformance.evaluated_at :=
                   Some "2024-01-01T00:00:00"%string |}
              Hnd (or_introl eq_refl))
    as [Hall [_ [Hone _]]].
  split; [exact Hall |].
  destruct Hone as [Hin _].
  - exists ("directional_accuracy"%string, Fin 0.80). split; [simpl; auto |].
    unfold CheckModelPerformance.violated; simpl.
    apply Rltb_true_iff. lra.
  - eexists. split; [exact Hin | reflexivity].
Defined.

(** C10 at two checkers started in different environments, over results
    stamped at different times. *)
Lemma runs_agree_across_stamps :
  CheckModelPerformance.export_metrics Samples.some_text Samples.some_count
    (snd (CheckModelPerformance.check_performance Samples.checker
            (Samples.weak_at "2024-01-01T00:00:00")))
  = CheckModelPerformance.export_metrics Samples.some_text Samples.some_count
      (snd (CheckModelPerformance.check_performance Samples.other_checker
              (Samples.weak_at "2024-06-30T12:00:00")))
  /\ CheckModelPerformance.format_alert_message
       Samples.some_text Samples.some_text Samples.some_text Samples.some_count
       (fst (CheckModelPerformance.check_performance Samples.checker
               (Samples.weak_at "2024-01-01T00:00:00")))
       (snd (CheckModelPerformance.check_performance Samples.checker
               (Samples.weak_at "2024-01-01T00:00:00")))
     = CheckModelPerformance.format_alert_message
         Samples.some_text Samples.some_text Samples.some_text Samples.some_count
         (fst (CheckModelPerformance.check_performance Samples.other_checker
                 (Samples.weak_at "2024-06-30T12:00:00")))
         (snd (CheckModelPerformance.check_performance Samples.other_checker
                 (Samples.weak_at "2024-06-30T12:00:00"))).
Proof.
  destruct (runs_agree Samples.some_text Samples.some_text Samples.some_text
              Samples.some_text Samples.some_count
              Samples.checker Samples.other_checker
              (Samples.weak_at "2024-01-01T00:00:00")
              (Samples.weak_at "2024-06-30T12:00:00")
              eq_refl eq_refl)
    as [_ [_ [_ [Hmsg Hexp]]]].
  split; [exact Hexp | exact Hmsg].
Defined.


(* ================================================================= *)
(** * More of the scripts *)

(** ** Loading and grouping the cost data *)

Section CostData.

Import AnalyzeCosts.

Lemma read_groups_spec (d : string) (gs : list cost_group) :
  forall cost_data,
    read_groups d gs cost_data
    = if forallb readable gs
      then Some (cost_data ++ map (row_of_group d) gs)
      else None.
Proof.
  induction gs as [| g gs IH]; intros cost_data; simpl.
  - now rewrite app_nil_r.
  - unfold readable at 1, row_of_group at 1.
    destruct (keys g) as [| k ks]; [reflexivity |].
    destruct (amount g) as [a |]; [| reflexivity]. simpl.
    rewrite IH, <- app_assoc. reflexivity.
Qed.

Lemma read_results_spec (rs : list time_result) :
  forall cost_data,
    read_results rs cost_data
    = if forallb (fun r => forallb readable (groups r)) rs
      then Some (cost_data ++ rows_of_results rs)
      else None.
Proof.
  unfold rows_of_results.
  induction rs as [| r rs IH]; intros cost_data; simpl.
  - now rewrite app_nil_r.
  - rewrite read_groups_spec.
    destruct (forallb readable (groups r)); simpl; [| reflexivity].
    rewrite IH, <- app_assoc. reflexivity.
Qed.

(** X1.  [load_cost_data] is all or nothing: when every group of every
    period has a key and an amount that is a number, the frame has one row
    per group, in the order of the file, each with the period's start as
    its date; when a single group has not, nothing is loaded, whatever the
    other groups hold. *)
Theorem load_cost_data_all_or_nothing (rs : list time_result) :
  (forallb (fun r => forallb readable (groups r)) rs = true ->
   load_cost_data (Some rs) = Some (rows_of_results rs)
   /\ List.length (rows_of_results rs)
      = list_sum (map (fun r => List.length (groups r)) rs)
   /\ map date (rows_of_results rs)
      = flat_map (fun r => map (fun _ => start r) (groups r)) rs)
  /\ (forall r g, In r rs -> In g (groups r) -> readable g = false ->
      load_cost_data (Some rs) = None).
Proof.
  split.
  - intros Hall. unfold load_cost_data. rewrite read_results_spec, Hall.
    split; [reflexivity |]. unfold rows_of_results. split.
    + induction rs as [| r rs IH]; simpl; [reflexivity |].
      rewrite length_app, length_map. f_equal.
      apply IH. simpl in Hall. now apply andb_prop in Hall.
    + clear Hall. induction rs as [| r rs IH]; simpl; [reflexivity |].
      rewrite map_app, map_map, IH. reflexivity.
  - intros r g Hr Hg Hbad. unfold load_cost_data. rewrite read_results_spec.
    destruct (forallb (fun r0 => forallb readable (groups r0)) rs) eqn:E;
      [| reflexivity].
    rewrite forallb_forall in E. specialize (E r Hr).
    rewrite forallb_forall in E. rewrite (E g Hg) in Hbad. discriminate.
Qed.

(** The order of strings that [groupby] sorts by. *)
Lemma ascii_compare_lt_trans (a b c : ascii) :
  Ascii.compare a b = Lt -> Ascii.compare b c = Lt -> Ascii.compare a c = Lt.
Proof.
  unfold Ascii.compare. rewrite !N.compare_lt_iff. apply N.lt_trans.
Qed.

Lemma string_compare_lt_trans (s1 : string) :
  forall s2 s3,
    String.compare s1 s2 = Lt -> String.compare s2 s3 = Lt ->
    String.compare s1 s3 = Lt.
Proof.
  induction s1 as [| a s1 IH]; intros [| b s2] [| c s3]; simpl;
    try discriminate; try reflexivity.
  destruct (Ascii.compare a b) eqn:Eab; try discriminate;
    destruct (Ascii.compare b c) eqn:Ebc; try discriminate; intros H1 H2.
  - apply Ascii.compare_eq_iff in Eab, Ebc. subst.
    assert (Hcc : Ascii.compare c c = Eq).
    { unfold Ascii.compare. apply N.compare_refl. }
    rewrite Hcc. now apply (IH s2 s3).
  - apply Ascii.compare_eq_iff in Eab. subst. now rewrite Ebc.
  - apply Ascii.compare_eq_iff in Ebc. subst. now rewrite Eab.
  - now rewrite (ascii_compare_lt_trans a b c Eab Ebc).
Qed.

Lemma add_cost_dates (d : string) (c : float) (acc : list (string * float)) :
  forall x, In x (map fst (add_cost d c acc)) <-> x = d \/ In x (map fst acc).
Proof.
  induction acc as [| [d' t] rest IH]; intros x; simpl.
  - intuition.
  - destruct (String.compare d d') eqn:E; simpl.
    + apply String.compare_eq_iff in E. subst. intuition.
    + intuition.
    + rewrite IH. intuition.
Qed.

Lemma add_cost_sorted (d : string) (c : float) (acc : list (string * float)) :
  StronglySorted date_before acc ->
  StronglySorted date_before (add_cost d c acc).
Proof.
  induction acc as [| [d' t] rest IH]; intros Hs; simpl.
  - repeat constructor.
  - inversion Hs as [| ? ? Hs' Hall]; subst.
    destruct (String.compare d d') eqn:E.
    + constructor; [exact Hs' |]. exact Hall.
    + constructor; [exact Hs |]. constructor; [exact E |].
      eapply Forall_impl; [| exact Hall]. intros x Hx.
      unfold date_before in *. simpl in *.
      now apply (string_compare_lt_trans d d' (fst x)).
    + constructor; [now apply IH |].
      apply Forall_forall. intros x Hx.
      assert (Hd : In (fst x) (map fst (add_cost d c rest))) by now apply in_map.
      apply add_cost_dates in Hd. destruct Hd as [Hd | Hd].
      * unfold date_before. simpl. rewrite Hd.
        rewrite String.compare_antisym, E. reflexivity.
      * apply in_map_iff in Hd. destruct Hd as [y [Hy Hin]].
        rewrite Forall_forall in Hall. specialize (Hall y Hin).
        unfold date_before in *. simpl in *. now rewrite <- Hy.
Qed.

(** X2.  The daily costs have one row for each date of the frame and no
    other, in strictly ascending order of date: no date comes twice,
    however the rows of the frame are ordered. *)
Theorem daily_costs_by_date (df : list cost_row) :
  StronglySorted date_before (daily_costs df)
  /\ NoDup (map fst (daily_costs df))
  /\ forall d, In d (map fst (daily_costs df)) <-> In d (map date df).
Proof.
  assert (Hgen : forall acc,
            StronglySorted date_before acc ->
            StronglySorted date_before
              (fold_left (fun g r => add_cost (date r) (cost r) g) df acc)
            /\ forall d,
                 In d (map fst (fold_left
                                  (fun g r => add_cost (date r) (cost r) g) df acc))
                 <-> In d (map date df) \/ In d (map fst acc)).
  { induction df as [| r df IH]; intros acc Hs; simpl.
    - split; [exact Hs | intuition].
    - destruct (IH (add_cost (date r) (cost r) acc) (add_cost_sorted _ _ _ Hs))
        as [Hs' Hd].
      split; [exact Hs' |]. intros d. rewrite Hd, add_cost_dates. intuition. }
  destruct (Hgen [] (SSorted_nil _)) as [Hs Hd]. fold (daily_costs df) in Hs, Hd.
  split; [exact Hs |]. split.
  - clear Hd. induction (daily_costs df) as [| x l IH]; [constructor |].
    inversion Hs as [| ? ? Hs' Hall]; subst. simpl. constructor; [| now apply IH].
    intros Hin. apply in_map_iff in Hin. destruct Hin as [y [Hy Hin]].
    rewrite Forall_forall in Hall. specialize (Hall y Hin).
    unfold date_before in Hall. rewrite Hy in Hall.
    assert (Hrefl : String.compare (fst x) (fst x) = Eq).
    { destruct (String.compare (fst x) (fst x)) eqn:E; [reflexivity | |];
        pose proof (String.compare_antisym (fst x) (fst x)) as Ha;
        rewrite E in Ha; discriminate. }
    rewrite Hrefl in Hall. discriminate.
  - intros d. rewrite Hd. simpl. intuition.
Qed.

End CostData.

(** ** Daily and per-service statistics *)

Section CostStatistics.

Import AnalyzeCosts.

Local Open Scope R_scope.

Variable to_datetime : list string -> bool.

Lemma add_cost_finite (d : string) (c : R) (daily : list (string * R)) :
  exists daily',
    add_cost d (Fin c) (finite_days daily) = finite_days daily'
    /\ Rsum (map snd daily') = c + Rsum (map snd daily)
    /\ daily' <> [].
Proof.
  induction daily as [| [d' t] rest IH]; simpl.
  - exists [(d, c)]. repeat split; discriminate.
  - destruct (String.compare d d').
    + exists ((d', t + c) :: rest). simpl. repeat split; [lra | discriminate].
    + exists ((d, c) :: (d', t) :: rest). simpl. repeat split; discriminate.
    + destruct IH as [daily' [Heq [Hsum _]]].
      exists ((d', t) :: daily'). simpl. rewrite Heq, Hsum.
      repeat split; [lra | discriminate].
Qed.

Lemma daily_costs_finite (df : list cost_row) (cs : list R) :
  map cost df = map Fin cs ->
  forall acc,
    exists daily,
      fold_left (fun g r => add_cost (date r) (cost r) g) df (finite_days acc)
      = finite_days daily
      /\ Rsum (map snd daily) = Rsum cs + Rsum (map snd acc)
      /\ (df <> [] -> daily <> []).
Proof.
  revert cs. induction df as [| r df IH]; intros cs Hcs acc.
  - destruct cs; [| discriminate]. exists acc. simpl.
    repeat split; [lra | intros H; now elim H].
  - destruct cs as [| c cs]; [discriminate |]. simpl in Hcs.
    injection Hcs as Hc Hrest. simpl. rewrite Hc.
    destruct (add_cost_finite (date r) c acc) as [acc' [Heq [Hsum Hne]]].
    rewrite Heq.
    destruct (IH cs Hrest acc') as [daily [Hd [Hs Hn]]].
    exists daily. split; [exact Hd |]. split; [simpl; lra |].
    intros _. destruct df as [| r' df'].
    + simpl in Hd. intros E. subst daily. destruct acc'; [now elim Hne |].
      discriminate.
    + apply Hn. discriminate.
Qed.

Lemma pd_sum_Fin (rs : list R) : Pd.sum (map Fin rs) = Fin (Rsum rs).
Proof. unfold Pd.sum. now rewrite dropna_Fin, sum_Fin. Qed.

(** X3.  On a frame of finite costs whose dates parse, the daily
    statistics conserve the money: [total_cost] is the sum of every cost of
    the frame, [avg_daily_cost] is that total over the number of distinct
    dates, and [projected_monthly_cost] is thirty times the average. *)
Theorem daily_statistics (df : list cost_row) (cs : list R) :
  df <> [] ->
  map cost df = map Fin cs ->
  to_datetime (map fst (daily_costs df)) = true ->
  exists stats,
    analyze_daily_costs to_datetime df = Done stats
    /\ Py.get "total_cost" stats = Some (Fin (Rsum cs))
    /\ Py.get "avg_daily_cost" stats
       = Some (Fin (Rsum cs / INR (List.length (daily_costs df))))
    /\ Py.get "projected_monthly_cost" stats
       = Some (Fin (Rsum cs / INR (List.length (daily_costs df)) * 30)).
Proof.
  intros Hne Hcs Hparse.
  destruct (daily_costs_finite df cs Hcs []) as [daily [Hd [Hs Hn]]].
  change (fold_left _ df (finite_days [])) with (daily_costs df) in Hd.
  simpl in Hs. specialize (Hn Hne).
  assert (Hrs : map snd daily <> []) by (destruct daily; [now elim Hn | discriminate]).
  assert (Hlen : List.length (daily_costs df) = List.length (map snd daily)).
  { rewrite Hd. unfold finite_days. now rewrite !length_map. }
  assert (Hmean : Pd.mean (map snd (daily_costs df))
                  = Fin (Rsum cs / INR (List.length (daily_costs df)))).
  { rewrite Hlen, Hd, finite_days_costs, (pd_mean_Fin _ Hrs). unfold mean_of.
    rewrite Hs. do 2 f_equal. lra. }
  unfold analyze_daily_costs. destruct df as [| r df']; [now elim Hne |].
  rewrite Hparse. eexists. split; [reflexivity |].
  rewrite Hmean. repeat split.
  - simpl. rewrite Hd, finite_days_costs, pd_sum_Fin, Hs.
    do 2 f_equal. lra.
Qed.





End CostStatistics.

(** ** Cost thresholds and the run of [main] *)

Section CostRun.

Import AnalyzeCosts.

Local Open Scope R_scope.

Variable to_datetime : list string -> bool.
Variable f2 f1 fmt : float -> string.


(** X6.  With a threshold that is zero or negative no WARNING is ever
    issued: whatever the projection, every alert is CRITICAL. *)
Theorem no_warning_below_zero (y : R) (webhook : option string)
    (stats : dict float) (alerts : list cost_alert) :
  y <= 0 ->
  check_thresholds f2 (init (Fin y) webhook) stats = Done alerts ->
  forall a, In a alerts -> alert_level a = CRITICAL.
Proof.
  intros Hy. unfold check_thresholds.
  destruct (Py.get "projected_monthly_cost" stats) as [p |]; [| discriminate].
  destruct (fgeb p (cost_threshold (init (Fin y) webhook))) eqn:Ec.
  - intros H a Ha. inversion H; subst. destruct Ha as [<- | []]. reflexivity.
  - destruct (fgeb p (fmul (cost_threshold (init (Fin y) webhook))
                           (alert_threshold_percent (init (Fin y) webhook))))
      eqn:Ew.
    + exfalso. revert Ec Ew. unfold fgeb, fleb. simpl.
      destruct p as [| | | x]; simpl; try discriminate.
      destruct (Rlt_dec x y) as [Hxy | Hxy].
      * rewrite (proj2 (Rltb_true_iff x (y * 0.8))) by lra. discriminate.
      * rewrite (proj2 (Rltb_false_iff x y)) by lra. discriminate.
    + intros H a Ha. inversion H; subst. destruct Ha.
Qed.

Lemma analyze_anomalies_some (df : list cost_row) (l : list daily_row) :
  analyze_anomalies df = Done (Some l) -> exists a l', l = a :: l'.
Proof.
  unfold analyze_anomalies. destruct df as [| r0 df0]; [discriminate |].
  destruct (filter _ _) as [| a l']; [discriminate |].
  intros H. inversion H. eauto.
Qed.

Lemma daily_stats_keys (df : list cost_row) (stats : dict float) :
  analyze_daily_costs to_datetime df = Done stats ->
  df <> []
  /\ exists total avg mx trend projected,
       stats = [ ("total_cost"%string, total); ("avg_daily_cost"%string, avg);
                 ("max_daily_cost"%string, mx); ("cost_trend"%string, trend);
                 ("projected_monthly_cost"%string, projected) ].
Proof.
  unfold analyze_daily_costs. destruct df as [| r df]; [discriminate |].
  destruct (to_datetime _); [| discriminate].
  intros H. inversion H. split; [discriminate |]. repeat eexists.
Qed.

Lemma service_costs_done (df : list cost_row) :
  df <> [] -> exists services, analyze_service_costs df = Done services.
Proof.
  destruct df as [| r df]; [intros H; now elim H |]. intros _.
  unfold analyze_service_costs. eexists. reflexivity.
Qed.

(** X7.  When an alert fires on a day with an anomaly, [main] dies: the
    anomaly lines call [strftime] on dates that are strings, the
    [AttributeError] is raised outside the [try], the message is not
    posted and [cost_metrics.txt] is not written. *)
Theorem anomalies_break_the_run (self : CostAnalyzer)
    (file : option (list time_result)) (df : list cost_row)
    (stats : dict float) (a : cost_alert) (alerts : list cost_alert)
    (anomalies : list daily_row) :
  load_cost_data file = Some df ->
  analyze_daily_costs to_datetime df = Done stats ->
  check_thresholds f2 self stats = Done (a :: alerts) ->
  analyze_anomalies df = Done (Some anomalies) ->
  main to_datetime f2 f1 fmt self file = Failed AttributeError.
Proof.
  intros Hload Hstats Halerts Hanom.
  destruct (daily_stats_keys df stats Hstats)
    as [Hne [total [avg [mx [trend [projected ->]]]]]].
  destruct (service_costs_done df Hne) as [services Hserv].
  destruct (analyze_anomalies_some df anomalies Hanom) as [x [l' ->]].
  unfold main. rewrite Hload, Hstats. cbn [and_then].
  rewrite Hserv. cbn [and_then]. rewrite Hanom. cbn [and_then].
  rewrite Halerts. cbn [and_then].
  unfold send_alert. reflexivity.
Qed.

(** X8.  Without an anomaly [main] completes once the data is loaded and
    the statistics are computed: it hands a message over for posting
    exactly when an alert fired, whether or not a webhook is configured,
    and writes five lines of daily statistics and two lines for each
    service. *)
Theorem run_without_anomaly (self : CostAnalyzer)
    (file : option (list time_result)) (df : list cost_row)
    (stats : dict float) (alerts : list cost_alert) :
  load_cost_data file = Some df ->
  analyze_daily_costs to_datetime df = Done stats ->
  check_thresholds f2 self stats = Done alerts ->
  analyze_anomalies df = Done None ->
  exists services posted,
    analyze_service_costs df = Done services
    /\ main to_datetime f2 f1 fmt self file
       = Done (Some {| message := posted;
                       cost_metrics_txt := export_metrics fmt stats services |})
    /\ (posted = None <-> alerts = [])
    /\ List.length (export_lines stats services)
       = (5 + 2 * List.length services)%nat.
Proof.
  intros Hload Hstats Halerts Hanom.
  destruct (daily_stats_keys df stats Hstats)
    as [Hne [total [avg [mx [trend [projected ->]]]]]].
  destruct (service_costs_done df Hne) as [services Hserv].
  exists services.
  assert (Hlines : List.length
                     (export_lines
                        [ ("total_cost"%string, total); ("avg_daily_cost"%string, avg);
                          ("max_daily_cost"%string, mx); ("cost_trend"%string, trend);
                          ("projected_monthly_cost"%string, projected) ] services)
                   = (5 + 2 * List.length services)%nat).
  { unfold export_lines. rewrite length_app. simpl. do 5 f_equal.
    clear. induction services as [| r services IH]; simpl; [reflexivity |].
    rewrite IH. lia. }
  unfold main. rewrite Hload, Hstats. cbn [and_then].
  rewrite Hserv. cbn [and_then]. rewrite Hanom. cbn [and_then].
  rewrite Halerts. cbn [and_then].
  destruct alerts as [| a alerts].
  - exists None. cbn [and_then]. repeat split; auto.
  - unfold send_alert. cbn [Py.get String.eqb Ascii.eqb Bool.eqb].
    simpl Py.get. cbn [and_then]. eexists. split; [reflexivity |].
    split; [reflexivity |]. split; [split; discriminate | exact Hlines].
Qed.

(** X9.  A cost file whose periods hold no group loads as a frame without
    rows, and [main] raises [KeyError] at the first [groupby]: nothing is
    posted and nothing is written. *)
Theorem empty_cost_file (self : CostAnalyzer) (rs : list time_result) :
  (forall r, In r rs -> groups r = []) ->
  load_cost_data (Some rs) = Some []
  /\ main to_datetime f2 f1 fmt self (Some rs) = Failed (Builtin KeyError).
Proof.
  intros Hrs.
  assert (Hload : load_cost_data (Some rs) = Some []).
  { unfold load_cost_data. rewrite read_results_spec.
    assert (Hall : forallb (fun r => forallb readable (groups r)) rs = true).
    { apply forallb_forall. intros r Hr. now rewrite (Hrs r Hr). }
    rewrite Hall. f_equal. unfold rows_of_results.
    clear Hall. induction rs as [| r rs IH]; simpl; [reflexivity |].
    rewrite (Hrs r (or_introl eq_refl)). simpl. apply IH.
    intros r' Hr'. apply Hrs. now right. }
  split; [exact Hload |]. unfold main. now rewrite Hload.
Qed.

End CostRun.

(** *** The cost theorems at sample files *)

Lemma projection_finite (df : list AnalyzeCosts.cost_row) (days : list (string * R)) :
  AnalyzeCosts.daily_costs df = AnalyzeCosts.finite_days days ->
  days <> [] ->
  fmul (Pd.mean (map snd (AnalyzeCosts.daily_costs df))) (Fin 30)
  = Fin (mean_of (map snd days) * 30).
Proof.
  intros Hd Hne. rewrite Hd, finite_days_costs, pd_mean_Fin; [reflexivity |].
  destruct days; [now elim Hne | discriminate].
Qed.

Lemma analyze_daily_costs_any (df : list AnalyzeCosts.cost_row) :
  df <> [] ->
  AnalyzeCosts.analyze_daily_costs Samples.any_date df
  = AnalyzeCosts.Done
      [ ("total_cost"%string, Pd.sum (map snd (AnalyzeCosts.daily_costs df)));
        ("avg_daily_cost"%string, Pd.mean (map snd (AnalyzeCosts.daily_costs df)));
        ("max_daily_cost"%string, Pd.max (map snd (AnalyzeCosts.daily_costs df)));
        ("cost_trend"%string,
         Pd.mean (Pd.pct_change (map snd (AnalyzeCosts.daily_costs df))));
        ("projected_monthly_cost"%string,
         fmul (Pd.mean (map snd (AnalyzeCosts.daily_costs df))) (Fin 30)) ].
Proof. destruct df; [intros H; now elim H | reflexivity]. Qed.

Lemma outlier_anomalies :
  exists l, AnalyzeCosts.analyze_anomalies Samples.outlier_costs
            = AnalyzeCosts.Done (Some l).
Proof.
  assert (Hm : mean_of (map snd Samples.outlier_days) = 1.9%R)
    by (unfold mean_of; simpl; lra).
  assert (Ht : total_squares (map snd Samples.outlier_days) = 72.9%R)
    by (unfold total_squares; simpl; lra).
  assert (Hvar : sample_variance (map snd Samples.outlier_days) = 8.1%R)
    by (unfold sample_variance; rewrite Ht; simpl; lra).
  rewrite (analyze_anomalies_finite _ Samples.outlier_days);
    [| discriminate | reflexivity | rewrite Hvar; lra].
  destruct (filter _ _) as [| a l] eqn:E; [exfalso | eauto].
  assert (Hin : In {| AnalyzeCosts.day := "2024-01-10";
                      AnalyzeCosts.day_cost := Fin 10;
                      AnalyzeCosts.zscore :=
                        Fin (zscore_of (map snd Samples.outlier_days) 10) |}
                   []).
  { rewrite <- E. apply filter_In. split.
    - apply in_map_iff. exists ("2024-01-10"%string, 10%R). split; [reflexivity |].
      simpl. auto 12.
    - apply flag_iff; rewrite Hvar; [lra |]. rewrite Hm. lra. }
  destruct Hin.
Qed.

(** X3 at nine days at 1 and one at 10. *)
Lemma daily_statistics_outlier :
  exists stats,
    AnalyzeCosts.analyze_daily_costs Samples.any_date Samples.outlier_costs
    = AnalyzeCosts.Done stats
    /\ Py.get "total_cost" stats
       = Some (Fin (Rsum (map snd Samples.outlier_days))).
Proof.
  destruct (daily_statistics Samples.any_date Samples.outlier_costs
              (map snd Samples.outlier_days))
    as [stats [H1 [H2 _]]];
    [discriminate | reflexivity | reflexivity |].
  exists stats. split; [exact H1 | exact H2].
Defined.


(** X6 at a threshold of zero and a projection of 5. *)
Lemma zero_threshold_is_critical :
  Forall (fun a => AnalyzeCosts.alert_level a = AnalyzeCosts.CRITICAL)
    [ {| AnalyzeCosts.alert_level := AnalyzeCosts.CRITICAL;
         AnalyzeCosts.alert_message :=
           "Projected monthly cost ($<value>) exceeds threshold ($<value>)" |} ].
Proof.
  apply Forall_forall. intros a Ha.
  apply (no_warning_below_zero Samples.some_text 0 None
           [("projected_monthly_cost"%string, Fin 5)] _ (Rle_refl 0)
           ltac:(unfold AnalyzeCosts.check_thresholds, fgeb, fleb; simpl;
                 rewrite (proj2 (Rltb_false_iff 5 0)) by lra; reflexivity)
           a Ha).
Defined.

(** X7 at the file of nine days at 1 and one at 10, with a threshold of
    10. *)
Lemma outlier_run_dies :
  AnalyzeCosts.main Samples.any_date Samples.some_text Samples.some_text
    Samples.some_text (AnalyzeCosts.init (Fin 10) None)
    (Some Samples.outlier_file)
  = AnalyzeCosts.Failed AnalyzeCosts.AttributeError.
Proof.
  destruct outlier_anomalies as [l Hl].
  eapply (anomalies_break_the_run Samples.any_date Samples.some_text
            Samples.some_text Samples.some_text (AnalyzeCosts.init (Fin 10) None)
            (Some Samples.outlier_file) Samples.outlier_costs _ _ _ l).
  - reflexivity.
  - apply analyze_daily_costs_any. discriminate.
  - unfold AnalyzeCosts.check_thresholds.
    rewrite !get_next by reflexivity. rewrite get_here.
    rewrite (projection_finite _ Samples.outlier_days) by (reflexivity || discriminate).
    replace (mean_of (map snd Samples.outlier_days) * 30)%R with 57%R
      by (unfold mean_of; simpl; lra).
    unfold fgeb, fleb; simpl.
    rewrite (proj2 (Rltb_false_iff 57 10)) by lra. reflexivity.
  - exact Hl.
Defined.

(** X8 at the file of four days at 1 and one at 10, with a threshold of
    1000: no alert, no anomaly, nothing to post. *)
Lemma spike_run_completes :
  exists r,
    AnalyzeCosts.main Samples.any_date Samples.some_text Samples.some_text
      Samples.some_text (AnalyzeCosts.init (Fin 1000) None)
      (Some Samples.spike_file)
    = AnalyzeCosts.Done (Some r)
    /\ AnalyzeCosts.message r = None.
Proof.
  destruct (run_without_anomaly Samples.any_date Samples.some_text
              Samples.some_text Samples.some_text
              (AnalyzeCosts.init (Fin 1000) None)
              (Some Samples.spike_file) Samples.spike_costs _ []
              eq_refl
              (analyze_daily_costs_any Samples.spike_costs
                 ltac:(discriminate)))
    as [services [posted [_ [Hmain [Hposted _]]]]].
  - unfold AnalyzeCosts.check_thresholds.
    rewrite !get_next by reflexivity. rewrite get_here.
    rewrite (projection_finite _ Samples.spike_days) by (reflexivity || discriminate).
    replace (mean_of (map snd Samples.spike_days) * 30)%R with 84%R
      by (unfold mean_of; simpl; lra).
    unfold fgeb, fleb; simpl.
    rewrite (proj2 (Rltb_true_iff 84 1000)) by lra. simpl.
    rewrite (proj2 (Rltb_true_iff 84 (1000 * 0.8))) by lra. reflexivity.
  - apply spike_costs_quiet.
  - eexists. split; [exact Hmain |]. simpl. now apply Hposted.
Defined.

(** X9 at a file of two periods without groups. *)
Lemma idle_file_raises :
  AnalyzeCosts.main Samples.any_date Samples.some_text Samples.some_text
    Samples.some_text (AnalyzeCosts.init (Fin 1000) None)
    (Some Samples.idle_file)
  = AnalyzeCosts.Failed (AnalyzeCosts.Builtin KeyError).
Proof.
  apply (empty_cost_file Samples.any_date Samples.some_text Samples.some_text
           Samples.some_text (AnalyzeCosts.init (Fin 1000) None)
           Samples.idle_file).
  intros r [<- | [<- | []]]; reflexivity.
Defined.

(* ================================================================= *)
(** ** The summary and the run of the performance check *)

Section PerformanceRun.

Import CheckModelPerformance.

Variable pct2 f4 f2 str_float : float -> string.
Variable str_int : nat -> string.

Lemma summary_ids (rules : dict float) (results : dict sample) :
  map model_id
    (map (fun '(mid, s) =>
            summary_of mid s (expected_violations rules (metrics s))) results)
  = map fst results.
Proof.
  rewrite map_map. apply map_ext. now intros [mid s].
Qed.

(** X10.  The summary has one row for every model of the results, in
    their order, alerted or not; the alerts are, in the same order, for
    exactly the models whose row counts at least one violation, and the
    count of a row is the number of entries of the model's alert. *)
Theorem summary_covers_every_model (self : ModelPerformanceChecker)
    (results : dict sample) :
  let found := fst (check_performance self results) in
  let summary := snd (check_performance self results) in
  map model_id summary = map fst results
  /\ map (fun a => (alert_model_id a, List.length (alert_alerts a))) found
     = map (fun r => (model_id r, alerts r))
           (filter (fun r => negb (alerts r =? 0)) summary)
  /\ (List.length found <= List.length results)%nat.
Proof.
  intros found summary. unfold found, summary. clear found summary.
  rewrite check_performance_spec. simpl.
  split; [apply summary_ids |]. split.
  - induction results as [| [mid s] results IH]; simpl; [reflexivity |].
    unfold expected_alert.
    destruct (expected_violations (thresholds self) (metrics s)) as [| i vs];
      simpl; [exact IH |].
    f_equal. exact IH.
  - unfold expected_alerts.
    induction results as [| [mid s] results IH]; simpl; [lia |].
    rewrite length_app. destruct (expected_alert (thresholds self) mid s);
      simpl; lia.
Qed.

(** X11.  The total of the [alerts] column, which the report prints as
    "Models with Alerts" and the exposition as [alerts_total], is the
    number of violations over all models, not the number of alerted
    models; no model counts more violations than there are rules. *)
Theorem alerts_total_counts_violations (self : ModelPerformanceChecker)
    (results : dict sample) :
  let found := fst (check_performance self results) in
  let summary := snd (check_performance self results) in
  list_sum (map alerts summary)
  = list_sum (map (fun a => List.length (alert_alerts a)) found)
  /\ (List.length found <= list_sum (map alerts summary))%nat
  /\ Forall (fun r => (alerts r <= List.length (thresholds self))%nat) summary.
Proof.
  intros found summary. unfold found, summary. clear found summary.
  rewrite check_performance_spec. simpl. split; [| split].
  - induction results as [| [mid s] results IH]; simpl; [reflexivity |].
    rewrite map_app, list_sum_app, IH. clear IH. f_equal. unfold expected_alert.
    destruct (expected_violations (thresholds self) (metrics s)); simpl; lia.
  - unfold expected_alerts.
    induction results as [| [mid s] results IH]; simpl; [lia |].
    rewrite length_app.
    assert (Hone : (List.length
                      (match expected_alert (thresholds self) mid s with
                       | Some a => [a]
                       | None => []
                       end)
                    <= List.length
                         (expected_violations (thresholds self) (metrics s)))%nat).
    { unfold expected_alert.
      destruct (expected_violations (thresholds self) (metrics s)); simpl; lia. }
    lia.
  - apply Forall_forall. intros r Hr. apply in_map_iff in Hr.
    destruct Hr as [[mid s] [<- _]]. simpl.
    unfold expected_violations. rewrite length_map.
    apply filter_length_le.
Qed.

(** X12.  A value that is [nan] breaks no rule: no entry of any alert
    holds [nan], whatever the thresholds, so an undefined metric passes
    the check in silence. *)
Theorem nan_breaks_no_rule (self : ModelPerformanceChecker) (m : dict float) :
  Forall (fun i => is_nan (issue_value i) = false) (model_alerts_of self m).
Proof.
  apply Forall_forall. intros i Hi. apply In_model_alerts in Hi.
  destruct Hi as [[metric threshold] [_ [Hv ->]]].
  unfold violated in Hv. unfold violation_of, get_default. simpl in *.
  destruct (Py.get metric m) as [v |]; [| discriminate].
  destruct v; try reflexivity.
  destruct (direction_of metric); unfold fgtb in Hv;
    rewrite ?fltb_nan_l, ?fltb_nan_r in Hv; discriminate.
Qed.

(** X13.  The report always has its header, its ranking and its
    statistics, and one more block, the second, exactly when there is an
    alert. *)
Theorem message_blocks (found : list alert) (r : summary_row)
    (summary : list summary_row) :
  exists blocks,
    format_alert_message pct2 f4 f2 str_int found (r :: summary) = Return blocks
    /\ List.length blocks = match found with [] => 3 | _ :: _ => 4 end
    /\ map block_type blocks
       = ("header"
          :: repeat "section" match found with [] => 2 | _ :: _ => 3 end)%string.
Proof.
  unfold format_alert_message. eexists. split; [reflexivity |].
  destruct found; split; reflexivity.
Qed.

(** X14.  Over results without any model [main] raises [KeyError], with
    or without a webhook, and writes nothing; over results with at least
    one model it completes, and it has posted a message exactly when a
    webhook is configured, alerts or no alerts. *)
Theorem run_needs_a_model (self : ModelPerformanceChecker) :
  main pct2 f4 f2 str_float str_int self (Some []) = Raise KeyError
  /\ forall entry results,
       exists rep,
         main pct2 f4 f2 str_float str_int self (Some (entry :: results))
         = Return (Some rep)
         /\ (sent rep = None
             <-> slack_webhook_url self = None
                 \/ slack_webhook_url self = Some EmptyString).
Proof.
  split.
  - unfold main, check_performance, send_alert. simpl.
    destruct (slack_webhook_url self) as [[| c u] |]; reflexivity.
  - intros [mid s] results. unfold main.
    rewrite check_performance_spec. cbn [map].
    unfold send_alert, format_alert_message, export_metrics.
    destruct (slack_webhook_url self) as [[| c u] |]; cbn [bind];
      eexists; (split; [reflexivity |]); simpl; split; intros H;
      try discriminate; auto; destruct H; discriminate.
Qed.

End PerformanceRun.

(** X11 at two models of which one breaks two rules: one alert, and a
    total of 2. *)
Lemma alerts_total_mixed :
  List.length (fst (CheckModelPerformance.check_performance Samples.checker
                      Samples.mixed_results)) = 1
  /\ list_sum (map CheckModelPerformance.alerts
                 (snd (CheckModelPerformance.check_performance Samples.checker
                         Samples.mixed_results))) = 2.
Proof.
  rewrite check_performance_spec. unfold Samples.mixed_results.
  unfold CheckModelPerformance.expected_alerts,
    CheckModelPerformance.expected_alert,
    CheckModelPerformance.expected_violations,
    CheckModelPerformance.summary_of, CheckModelPerformance.violated,
    Samples.scored.
  Rcompute. split; reflexivity.
Qed.

(* ================================================================= *)
(** ** What [evaluate_model] returns, and what a run keeps of it *)

Section ModelRun.

Import EvaluateModels.

Variable request : string -> nat -> row -> option prediction.
Variable now : string -> string.
Variable fmt : float -> string.

Lemma subscript_all_inv (l : list (option prediction)) :
  forall ps, subscript_all l = Return ps -> l = map Some ps.
Proof.
  induction l as [| [p |] l IH]; intros ps H; simpl in H.
  - now inversion H.
  - destruct (subscript_all l) as [ps' | e]; simpl in H; [| discriminate].
    inversion H; subst. simpl. f_equal. now apply IH.
  - discriminate.
Qed.

Lemma finite_list (l : list float) :
  forallb is_finite l = true -> exists rs, l = map Fin rs.
Proof.
  induction l as [| x l IH]; simpl; intros H.
  - now exists [].
  - apply andb_prop in H. destruct H as [Hx Hl]. destruct (IH Hl) as [rs ->].
    destruct x; try discriminate. now exists (r :: rs).
Qed.

(** Returned metrics come from answers to every call and from arrays that
    passed the input check; they are the ten entries below. *)
Lemma evaluate_model_inv (model_id : string) (data : list row) (m : metrics) :
  evaluate_model request now model_id data = Return (Some m) ->
  exists ps,
    responses request model_id 0 data = map Some ps
    /\ check_reg_targets (map actual_price data) (map predicted_high ps) = true
    /\ let y_true := map actual_price data in
       let y_pred := map predicted_high ps in
       m = [ ("mse", VNum (mean_squared_error y_true y_pred));
             ("rmse", VNum (fsqrt (mean_squared_error y_true y_pred)));
             ("mae", VNum (mean_absolute_error y_true y_pred));
             ("r2", VNum
                (fsub (Fin 1)
                   (fdiv
                      (Np.sum (Np.map2 (fun a b => Np.square (fsub a b))
                                 y_true y_pred))
                      (Np.sum (map (fun a => Np.square (fsub a (Np.mean y_true)))
                                 y_true)))));
             ("avg_confidence", VNum (Np.mean (map confidence ps)));
             ("confidence_error_correlation", VNum
                (Np.corrcoef (map confidence ps)
                   (Np.map2 (fun a b => fabs (fsub a b)) y_true y_pred)));
             ("directional_accuracy", VNum
                (Np.mean_bool
                   (Np.map2 Bool.eqb
                      (map (fun d => fgtb d (Fin 0)) (Np.diff y_true))
                      (map (fun d => fgtb d (Fin 0)) (Np.diff y_pred)))));
             ("interval_accuracy", VNum
                (Np.mean_bool
                   (Np.map2 andb
                      (Np.map2 fgeb y_true (map predicted_low ps))
                      (Np.map2 fleb y_true (map predicted_high ps)))));
             ("profit_correlation", VNum
                (Np.corrcoef
                   (Np.map2 fdiv (Np.diff y_true) (removelast y_true))
                   (Np.map2 fdiv (Np.diff y_pred) (removelast y_pred))));
             ("evaluated_at", VStr (now model_id)) ]%string.
Proof.
  unfold evaluate_model. rewrite get_predictions_spec.
  destruct (List.length data <? 10 * failed_calls request model_id 0 data)%nat;
    [discriminate |].
  destruct (subscript_all (responses request model_id 0 data)) as [ps | e] eqn:Hps;
    [| discriminate].
  apply subscript_all_inv in Hps. cbn [bind]. unfold evaluate_regression_model.
  destruct (check_reg_targets (map actual_price data) (map predicted_high ps))
    eqn:Hcheck; [| discriminate].
  cbn [bind app]. intros H. exists ps. split; [exact Hps |].
  split; [exact Hcheck |]. cbv zeta. injection H as <-. reflexivity.
Qed.

Lemma fleb_Fin (a b : R) : fleb (Fin a) (Fin b) = true <-> (a <= b)%R.
Proof.
  unfold fleb. simpl. rewrite Bool.negb_true_iff. apply Rltb_false_iff.
Qed.

Lemma map2_Fin (f : float -> float -> float) (g : R -> R -> R) :
  (forall a b, f (Fin a) (Fin b) = Fin (g a b)) ->
  forall xs ys, Np.map2 f (map Fin xs) (map Fin ys) = map Fin (Np.map2 g xs ys).
Proof.
  intros H. induction xs as [| x xs IH]; intros [| y ys]; simpl; try reflexivity.
  now rewrite H, IH.
Qed.

Lemma map2_length {A B C : Type} (f : A -> B -> C) (xs : list A) :
  forall ys, List.length xs = List.length ys ->
             List.length (Np.map2 f xs ys) = List.length xs.
Proof.
  induction xs as [| x xs IH]; intros [| y ys] H; simpl in *; try lia.
  now rewrite IH by lia.
Qed.

Lemma map2_Forall {A B C : Type} (P : C -> Prop) (f : A -> B -> C) :
  (forall a b, P (f a b)) -> forall xs ys, Forall P (Np.map2 f xs ys).
Proof.
  intros H. induction xs as [| x xs IH]; intros [| y ys]; simpl; auto.
Qed.

Lemma Rsum_nonneg (l : list R) :
  Forall (fun r => (0 <= r)%R) l -> (0 <= Rsum l)%R.
Proof.
  induction 1 as [| r l Hr _ IH]; simpl; lra.
Qed.

Lemma mean_nonneg (rs : list R) :
  rs <> [] -> Forall (fun r => (0 <= r)%R) rs ->
  exists r, Np.mean (map Fin rs) = Fin r /\ (0 <= r)%R.
Proof.
  intros Hne Hall. rewrite (mean_Fin rs Hne). eexists. split; [reflexivity |].
  apply Rmult_le_pos; [now apply Rsum_nonneg |].
  left. apply Rinv_0_lt_compat. apply lt_0_INR.
  destruct rs; [contradiction | simpl; lia].
Qed.

Lemma check_reg_targets_inv (y_true y_pred : list float) :
  check_reg_targets y_true y_pred = true ->
  exists ts ps,
    y_true = map Fin ts /\ y_pred = map Fin ps
    /\ List.length ts = List.length ps /\ ts <> [].
Proof.
  unfold check_reg_targets. intros H.
  apply andb_prop in H. destruct H as [H Hp].
  apply andb_prop in H. destruct H as [H Ht].
  apply andb_prop in H. destruct H as [Hlen Hne].
  destruct (finite_list _ Ht) as [ts ->]. destruct (finite_list _ Hp) as [ps ->].
  exists ts, ps. rewrite !length_map in *.
  apply Nat.eqb_eq in Hlen. apply Bool.negb_true_iff, Nat.eqb_neq in Hne.
  repeat split; auto. intros ->. now apply Hne.
Qed.

(** The errors of finite arrays of one length: their squares and their
    absolute values are finite and not negative. *)
Lemma squared_errors (ts ps : list R) :
  Np.map2 (fun a b => Np.square (fsub a b)) (map Fin ts) (map Fin ps)
  = map Fin (Np.map2 (fun a b => (a + - b) * (a + - b))%R ts ps).
Proof. now apply map2_Fin. Qed.

Lemma absolute_errors (ts ps : list R) :
  Np.map2 (fun a b => fabs (fsub a b)) (map Fin ts) (map Fin ps)
  = map Fin (Np.map2 (fun a b => Rabs (a + - b))%R ts ps).
Proof. now apply map2_Fin. Qed.

Lemma map2_nonempty {A B C : Type} (f : A -> B -> C) (xs : list A) (ys : list B) :
  List.length xs = List.length ys -> xs <> [] -> Np.map2 f xs ys <> [].
Proof.
  intros Hlen Hne Hnil. apply (f_equal (@List.length C)) in Hnil.
  rewrite map2_length in Hnil by exact Hlen.
  destruct xs; [contradiction | discriminate].
Qed.

Lemma squares_nonneg (ts ps : list R) :
  Forall (fun r => (0 <= r)%R)
    (Np.map2 (fun a b => (a + - b) * (a + - b))%R ts ps).
Proof.
  apply map2_Forall. intros a b.
  pose proof (Rle_0_sqr (a + - b)) as H. exact H.
Qed.

Lemma mean_bool_range (l : list bool) :
  l <> [] -> within (Fin 0) (Fin 1) (Np.mean_bool l) = true.
Proof.
  intros Hne. unfold Np.mean_bool, of_nat.
  assert (Hn : (0 < INR (List.length l))%R).
  { apply lt_0_INR. destruct l; [contradiction | simpl; lia]. }
  assert (Hk : (INR (List.length (filter (fun b : bool => b) l))
                <= INR (List.length l))%R).
  { apply le_INR. apply filter_length_le. }
  pose proof (pos_INR (List.length (filter (fun b : bool => b) l))) as Hk0.
  rewrite fdiv_Fin by lra. unfold within.
  apply andb_true_intro. split; apply fleb_Fin.
  - apply Rmult_le_pos; [exact Hk0 |]. left. now apply Rinv_0_lt_compat.
  - apply (Rmult_le_reg_r (INR (List.length l))); [exact Hn |].
    unfold Rdiv. rewrite Rmult_assoc, Rinv_l by lra. lra.
Qed.

Lemma mean_bool_nil : Np.mean_bool [] = NaN.
Proof. unfold Np.mean_bool, of_nat. simpl. apply fdiv_zero_zero. Qed.

Lemma diff_length (x : list float) :
  List.length (Np.diff x) = (List.length x - 1)%nat.
Proof.
  induction x as [| a x IH]; [reflexivity |].
  destruct x as [| b x]; [reflexivity |].
  change (Np.diff (a :: b :: x)) with (fsub b a :: Np.diff (b :: x)).
  simpl List.length in *. rewrite IH. lia.
Qed.

Lemma clip_range (a : float) :
  is_nan (Np.clip (Fin (-1)) (Fin 1) a) = true
  \/ within (Fin (-1)) (Fin 1) (Np.clip (Fin (-1)) (Fin 1) a) = true.
Proof.
  destruct a as [| | | r]; [now left | right | right | right];
    unfold Np.clip, within.
  - cbn [is_nan fltb]. apply andb_true_intro. split; apply fleb_Fin; lra.
  - cbn [is_nan fltb]. apply andb_true_intro. split; apply fleb_Fin; lra.
  - cbn [is_nan fltb].
    destruct (Rltb r (-1)) eqn:E1;
      [apply andb_true_intro; split; apply fleb_Fin; lra |].
    destruct (Rltb 1 r) eqn:E2;
      [apply andb_true_intro; split; apply fleb_Fin; lra |].
    apply andb_true_intro. split; apply fleb_Fin.
    + now apply Rltb_false_iff.
    + now apply Rltb_false_iff.
Qed.

Lemma r2_at_most_one (a b : R) :
  (0 <= a)%R -> (0 <= b)%R ->
  is_nan (fsub (Fin 1) (fdiv (Fin a) (Fin b))) = true
  \/ fleb (fsub (Fin 1) (fdiv (Fin a) (Fin b))) (Fin 1) = true.
Proof.
  intros Ha Hb. destruct (Req_dec_T b 0) as [-> | Hb0].
  - destruct (Req_dec_T a 0) as [-> | Ha0].
    + left. now rewrite fdiv_zero_zero.
    + right. simpl. rewrite Reqb_refl, (proj2 (Reqb_false_iff a 0) Ha0).
      rewrite (proj2 (Rltb_false_iff a 0) Ha). reflexivity.
  - right. rewrite (fdiv_Fin a b Hb0).
    change (fsub (Fin 1) (Fin (a / b))) with (Fin (1 + - (a / b))).
    apply fleb_Fin.
    assert (0 <= a / b)%R; [| lra].
    apply Rmult_le_pos; [exact Ha |]. left. apply Rinv_0_lt_compat. lra.
Qed.

Ltac lookup :=
  repeat (rewrite get_next by reflexivity); rewrite get_here.

(** The directional accuracy of returned metrics: [nan] over a single
    row, where there is no direction to compare, and a fraction
    otherwise. *)
Lemma directional_accuracy_of (model_id : string) (data : list row) (m : metrics) :
  evaluate_model request now model_id data = Return (Some m) ->
  exists x,
    Py.get "directional_accuracy" m = Some (VNum x)
    /\ if (List.length data =? 1)%nat then is_nan x = true
       else within (Fin 0) (Fin 1) x = true.
Proof.
  intros H. destruct (evaluate_model_inv _ _ _ H) as [ps [Hresp [Hcheck Hm]]].
  cbv zeta in Hm. subst m. eexists. split; [lookup; reflexivity |].
  destruct (check_reg_targets_inv _ _ Hcheck) as [ts [hs [Ht [Hh [Hlen Hne]]]]].
  assert (Hdata : List.length data = List.length ts).
  { rewrite <- (length_map actual_price data), Ht. apply length_map. }
  assert (Hpred : List.length ps = List.length data).
  { rewrite <- (length_map predicted_high ps), Hh, length_map. lia. }
  set (l := Np.map2 Bool.eqb _ _).
  assert (Hl : List.length l = (List.length data - 1)%nat).
  { unfold l. rewrite map2_length.
    - now rewrite length_map, diff_length, length_map.
    - rewrite !length_map, !diff_length, !length_map. now rewrite Hpred. }
  destruct (Nat.eqb_spec (List.length data) 1) as [H1 | H1].
  - rewrite H1 in Hl. destruct l; [| discriminate].
    now rewrite mean_bool_nil.
  - apply mean_bool_range. intros Hnil. rewrite Hnil in Hl. simpl in Hl.
    destruct ts; [contradiction | simpl in Hdata; lia].
Qed.

(** X15.  [evaluate_model] returns metrics only if the dataset has a row,
    every actual price is a finite number and every call was answered
    with a finite predicted high.  The metrics then have the ten keys of
    [metric_keys] in that order, the stamp is their only entry that is not
    a number, and the exposition of the model has the nine other entries
    and no line for the stamp. *)
Theorem metrics_shape (model_id : string) (data : list row) (m : metrics) :
  evaluate_model request now model_id data = Return (Some m) ->
  data <> []
  /\ (forall i r, nth_error data i = Some r ->
        is_finite (actual_price r) = true
        /\ exists p, request model_id i r = Some p
                     /\ is_finite (predicted_high p) = true)
  /\ map fst m = metric_keys
  /\ Py.get "evaluated_at" m = Some (VStr (now model_id))
  /\ (forall k t, In (k, VStr t) m -> k = "evaluated_at"%string)
  /\ map line_name (export_lines [(model_id, m)])
     = map (fun k => ("model_" ++ k)%string) (removelast metric_keys).
Proof.
  intros H. destruct (evaluate_model_inv _ _ _ H) as [ps [Hresp [Hcheck Hm]]].
  cbv zeta in Hm.
  destruct (check_reg_targets_inv _ _ Hcheck) as [ts [hs [Ht [Hh [Hlen Hne]]]]].
  split; [| split].
  - intros ->. destruct ts; [contradiction | discriminate].
  - intros i r Hi. split.
    + assert (Hin : In (actual_price r) (map Fin ts)).
      { rewrite <- Ht. apply in_map. eapply nth_error_In. exact Hi. }
      apply in_map_iff in Hin. destruct Hin as [x [<- _]]. reflexivity.
    + pose proof (responses_nth request model_id data 0 i r Hi) as Hr.
      rewrite Hresp, nth_error_map in Hr. simpl in Hr.
      destruct (nth_error ps i) as [p |] eqn:Hp; [| discriminate].
      simpl in Hr. exists p. split; [now inversion Hr |].
      assert (Hin : In (predicted_high p) (map Fin hs)).
      { rewrite <- Hh. apply in_map. eapply nth_error_In. exact Hp. }
      apply in_map_iff in Hin. destruct Hin as [x [<- _]]. reflexivity.
  - subst m. split; [reflexivity |]. split; [lookup; reflexivity |].
    split; [| reflexivity].
    intros k t Hin. simpl in Hin.
    repeat (destruct Hin as [Hin | Hin]; [try discriminate |]);
      [now inversion Hin | destruct Hin].
Qed.

(** X16.  The numbers of returned metrics stay in their ranges: [mse],
    [rmse] and [mae] are not below zero, [r2] is not above one,
    [interval_accuracy] is between zero and one, both correlations are
    between minus one and one, and [directional_accuracy] is between zero
    and one except over a single row, where it is [nan]; [r2] and the
    correlations can be [nan] as well. *)
Theorem metric_ranges (model_id : string) (data : list row) (m : metrics) :
  evaluate_model request now model_id data = Return (Some m) ->
  (forall k, In k ["mse"; "rmse"; "mae"]%string ->
     exists x, Py.get k m = Some (VNum x) /\ fleb (Fin 0) x = true)
  /\ (exists x, Py.get "r2" m = Some (VNum x)
                /\ (is_nan x = true \/ fleb x (Fin 1) = true))
  /\ (exists x, Py.get "interval_accuracy" m = Some (VNum x)
                /\ within (Fin 0) (Fin 1) x = true)
  /\ (exists x, Py.get "directional_accuracy" m = Some (VNum x)
                /\ if (List.length data =? 1)%nat then is_nan x = true
                   else within (Fin 0) (Fin 1) x = true)
  /\ (forall k,
        In k ["confidence_error_correlation"; "profit_correlation"]%string ->
        exists x, Py.get k m = Some (VNum x)
                  /\ (is_nan x = true \/ within (Fin (-1)) (Fin 1) x = true)).
Proof.
  intros H. pose proof (directional_accuracy_of _ _ _ H) as Hda.
  destruct (evaluate_model_inv _ _ _ H) as [ps [Hresp [Hcheck Hm]]].
  cbv zeta in Hm.
  destruct (check_reg_targets_inv _ _ Hcheck) as [ts [hs [Ht [Hh [Hlen Hne]]]]].
  assert (Hps : List.length ps = List.length ts).
  { rewrite <- (length_map predicted_high ps), Hh, length_map. lia. }
  assert (Hmse : exists r, mean_squared_error (map actual_price data)
                             (map predicted_high ps) = Fin r /\ (0 <= r)%R).
  { unfold mean_squared_error. rewrite Ht, Hh, squared_errors.
    apply mean_nonneg; [now apply map2_nonempty | apply squares_nonneg]. }
  assert (Hmae : exists r, mean_absolute_error (map actual_price data)
                             (map predicted_high ps) = Fin r /\ (0 <= r)%R).
  { unfold mean_absolute_error. rewrite Ht, Hh, absolute_errors.
    apply mean_nonneg; [now apply map2_nonempty |].
    apply map2_Forall. intros a b. apply Rabs_pos. }
  destruct Hmse as [mse [Emse Hmse]]. destruct Hmae as [mae [Emae Hmae]].
  split; [| split; [| split; [| split]]].
  - subst m. intros k [<- | [<- | [<- | []]]]; eexists;
      (split; [lookup; reflexivity |]).
    + rewrite Emse. now apply fleb_Fin.
    + rewrite Emse. simpl fsqrt. rewrite (proj2 (Rltb_false_iff mse 0) Hmse).
      apply fleb_Fin. apply sqrt_pos.
    + rewrite Emae. now apply fleb_Fin.
  - subst m. eexists. split; [lookup; reflexivity |].
    rewrite Ht, Hh, squared_errors, sum_Fin, (total_squares_Fin ts Hne).
    apply r2_at_most_one.
    + apply Rsum_nonneg, squares_nonneg.
    + apply Rsum_squares_nonneg.
  - subst m. eexists. split; [lookup; reflexivity |].
    assert (Hdata : List.length data = List.length ts).
    { rewrite <- (length_map actual_price data), Ht. apply length_map. }
    set (l := Np.map2 andb _ _).
    assert (Hl : List.length l = List.length ts).
    { unfold l. rewrite map2_length.
      - rewrite map2_length; rewrite ?length_map; lia.
      - rewrite !map2_length; rewrite ?length_map; lia. }
    apply mean_bool_range. intros Hnil. rewrite Hnil in Hl.
    destruct ts; [contradiction | discriminate].
  - exact Hda.
  - subst m. intros k [<- | [<- | []]]; eexists;
      (split; [lookup; reflexivity |]); unfold Np.corrcoef; apply clip_range.
Qed.

Lemma results_send_alert (self : ModelEvaluator) (model_id : string) (m : metrics) :
  results (send_alert self model_id m) = results self
  /\ alert_threshold (send_alert self model_id m) = alert_threshold self
  /\ slack_webhook_url (send_alert self model_id m) = slack_webhook_url self
  /\ model_metrics_txt (send_alert self model_id m) = model_metrics_txt self.
Proof.
  unfold send_alert. destruct (slack_webhook_url self) as [[| c u] |] eqn:E;
    simpl; auto.
Qed.

Lemma evaluate_each_fields (data : list row) (models : list string) :
  forall self self',
    evaluate_each request now self data models = Return self' ->
    alert_threshold self' = alert_threshold self
    /\ slack_webhook_url self' = slack_webhook_url self
    /\ model_metrics_txt self' = model_metrics_txt self.
Proof.
  induction models as [| a models IH]; intros self self' Hrun; simpl in Hrun.
  - inversion Hrun. auto.
  - destruct (evaluate_model request now a data) as [[m |] | e];
      simpl in Hrun; try discriminate; [| now apply IH].
    destruct (Py.get "directional_accuracy" m) as [[da | t] |];
      try discriminate.
    destruct (fltb da _); apply IH in Hrun; destruct Hrun as [H1 [H2 H3]];
      rewrite H1, H2, H3.
    + destruct (results_send_alert (store_result self a m) a m)
        as [_ [E1 [E2 E3]]].
      rewrite E1, E2, E3. simpl. auto.
    + simpl. auto.
Qed.

Lemma evaluate_each_untouched (data : list row) (models : list string) :
  forall self self',
    evaluate_each request now self data models = Return self' ->
    forall id, ~ In id models ->
               Py.get id (results self') = Py.get id (results self).
Proof.
  induction models as [| a models IH]; intros self self' Hrun id Hid;
    simpl in Hrun.
  - now inversion Hrun.
  - assert (Hne : id <> a) by (intros ->; apply Hid; now left).
    assert (Hrest : ~ In id models) by (intros Hin; apply Hid; now right).
    destruct (evaluate_model request now a data) as [[m |] | e];
      simpl in Hrun; try discriminate; [| now apply IH].
    destruct (Py.get "directional_accuracy" m) as [[da | t] |];
      try discriminate.
    destruct (fltb da _); rewrite (IH _ _ Hrun id Hrest).
    + rewrite (proj1 (results_send_alert _ _ _)). simpl.
      now apply get_set_other.
    + simpl. now apply get_set_other.
Qed.

Lemma evaluate_each_stored (data : list row) (models : list string) :
  forall self self',
    evaluate_each request now self data models = Return self' ->
    forall id m, In id models ->
      evaluate_model request now id data = Return (Some m) ->
      Py.get id (results self') = Some m.
Proof.
  induction models as [| a models IH]; intros self self' Hrun id m Hin Hm;
    [destruct Hin |].
  simpl in Hrun.
  destruct (in_dec string_dec id models) as [Hrest | Hrest].
  - destruct (evaluate_model request now a data) as [[ma |] | e];
      simpl in Hrun; try discriminate; [| now apply (IH _ _ Hrun)].
    destruct (Py.get "directional_accuracy" ma) as [[da | t] |];
      try discriminate.
    destruct (fltb da _); now apply (IH _ _ Hrun).
  - destruct Hin as [-> | Hin]; [| contradiction].
    rewrite Hm in Hrun. simpl in Hrun.
    destruct (Py.get "directional_accuracy" m) as [[da | t] |];
      try discriminate.
    destruct (fltb da _);
      rewrite (evaluate_each_untouched _ _ _ _ Hrun id Hrest).
    + rewrite (proj1 (results_send_alert _ _ _)). simpl. apply get_set_same.
    + simpl. apply get_set_same.
Qed.

(** The alerts a completed loop has handed over, in closed form. *)
Lemma evaluate_each_alerts (data : list row) (models : list string) :
  forall self self',
    evaluate_each request now self data models = Return self' ->
    alerts_sent self'
    = (alerts_sent self
       ++ match slack_webhook_url self with
          | Some (String _ _) =>
              flat_map (fun id =>
                match evaluate_model request now id data with
                | Return (Some m) =>
                    match Py.get "directional_accuracy" m with
                    | Some (VNum da) =>
                        if fltb da (alert_threshold self) then [(id, m)] else []
                    | _ => []
                    end
                | _ => []
                end) models
          | _ => []
          end)%list.
Proof.
  induction models as [| a models IH]; intros self self' Hrun; simpl in Hrun.
  - inversion Hrun. destruct (slack_webhook_url self') as [[| c u] |];
      now rewrite app_nil_r.
  - cbn [flat_map].
    destruct (evaluate_model request now a data) as [[m |] | e];
      simpl in Hrun; try discriminate; [| now apply IH].
    destruct (Py.get "directional_accuracy" m) as [[da | t] |];
      try discriminate.
    destruct (fltb da (alert_threshold self)) eqn:Hda; rewrite (IH _ _ Hrun).
    + destruct (results_send_alert (store_result self a m) a m)
        as [_ [E1 [E2 _]]].
      rewrite E1, E2. unfold send_alert. simpl.
      destruct (slack_webhook_url self) as [[| c u] |]; simpl;
        try reflexivity.
      now rewrite <- app_assoc.
    + simpl. destruct (slack_webhook_url self) as [[| c u] |]; reflexivity.
Qed.

Lemma run_completed (self self' : ModelEvaluator) (data : list row)
    (models : list string) (ok : bool) :
  evaluate_all_models request now fmt self (Some data) (Some models)
  = Return (ok, self') ->
  exists done,
    evaluate_each request now self data models = Return done
    /\ ok = true /\ self' = save_results fmt done.
Proof.
  unfold evaluate_all_models.
  destruct (evaluate_each request now self data models) as [done | e];
    simpl; intros H; [| discriminate].
  exists done. inversion H. auto.
Qed.

(** X17.  After a run that completed over distinct models, the threshold
    and the webhook are as they were, every model of the list whose
    evaluation returned metrics has them stored under its id, the entries
    of every model outside the list are as they were, and the exposition
    file holds the lines of the results the run ends with. *)
Theorem completed_run_results (self self' : ModelEvaluator)
    (data : list row) (models : list string) (ok : bool) :
  NoDup models ->
  evaluate_all_models request now fmt self (Some data) (Some models)
  = Return (ok, self') ->
  ok = true
  /\ alert_threshold self' = alert_threshold self
  /\ slack_webhook_url self' = slack_webhook_url self
  /\ (forall id m, In id models ->
        evaluate_model request now id data = Return (Some m) ->
        Py.get id (results self') = Some m)
  /\ (forall id, ~ In id models ->
        Py.get id (results self') = Py.get id (results self))
  /\ model_metrics_txt self' = Some (export_metrics fmt (results self')).
Proof.
  intros _ Hrun. destruct (run_completed _ _ _ _ _ Hrun) as [done [Hdone [-> ->]]].
  destruct (evaluate_each_fields _ _ _ _ Hdone) as [Hthreshold [Hhook _]].
  split; [reflexivity |]. simpl.
  split; [exact Hthreshold |]. split; [exact Hhook |]. split; [| split].
  - intros id m. now apply (evaluate_each_stored _ _ _ _ Hdone).
  - intros id. now apply (evaluate_each_untouched _ _ _ _ Hdone).
  - reflexivity.
Qed.

(** X18.  The alerts of a run that completed over distinct models are
    added after those already sent.  Each is for a model of the list, with
    the metrics stored for it, whose directional accuracy is strictly
    below the threshold; with a webhook every such model has one, without
    a webhook there is none, and over a dataset of a single row there is
    none either, the directional accuracy being [nan]. *)
Theorem alerts_of_a_run (self self' : ModelEvaluator)
    (data : list row) (models : list string) (ok : bool) :
  NoDup models ->
  evaluate_all_models request now fmt self (Some data) (Some models)
  = Return (ok, self') ->
  exists new,
    alerts_sent self' = (alerts_sent self ++ new)%list
    /\ (forall id m, In (id, m) new ->
          In id models /\ Py.get id (results self') = Some m
          /\ exists da, Py.get "directional_accuracy" m = Some (VNum da)
                        /\ fltb da (alert_threshold self) = true)
    /\ (forall c u id m da,
          slack_webhook_url self = Some (String c u) ->
          In id models ->
          evaluate_model request now id data = Return (Some m) ->
          Py.get "directional_accuracy" m = Some (VNum da) ->
          fltb da (alert_threshold self) = true ->
          In (id, m) new)
    /\ (slack_webhook_url self = None
        \/ slack_webhook_url self = Some EmptyString -> new = [])
    /\ (List.length data = 1 -> new = []).
Proof.
  intros _ Hrun. destruct (run_completed _ _ _ _ _ Hrun) as [done [Hdone [-> ->]]].
  pose proof (evaluate_each_alerts _ _ _ _ Hdone) as Halerts.
  eexists. split; [exact Halerts |].
  split; [| split; [| split]].
  - intros id m Hin.
    destruct (slack_webhook_url self) as [[| c u] |]; try destruct Hin.
    apply in_flat_map in Hin. destruct Hin as [id' [Hid Hin]].
    destruct (evaluate_model request now id' data) as [[m' |] | e] eqn:Hm;
      try destruct Hin.
    destruct (Py.get "directional_accuracy" m') as [[da | t] |] eqn:Hda;
      try destruct Hin.
    destruct (fltb da (alert_threshold self)) eqn:Hlow; [| destruct Hin].
    destruct Hin as [Hin | []]. inversion Hin; subst id' m'.
    split; [exact Hid |]. split.
    + simpl. now apply (evaluate_each_stored _ _ _ _ Hdone).
    + now exists da.
  - intros c u id m da Hhook Hid Hm Hda Hlow. rewrite Hhook.
    apply in_flat_map. exists id. split; [exact Hid |].
    rewrite Hm, Hda, Hlow. now left.
  - intros [-> | ->]; reflexivity.
  - intros Hone. destruct (slack_webhook_url self) as [[| c u] |];
      try reflexivity.
    clear Halerts Hdone Hrun. induction models as [| a models IH];
      [reflexivity |]. cbn [flat_map]. rewrite IH, app_nil_r.
    destruct (evaluate_model request now a data) as [[m |] | e] eqn:Hm;
      try reflexivity.
    destruct (directional_accuracy_of _ _ _ Hm) as [x [Hx Hnan]].
    rewrite Hone in Hnan. simpl in Hnan. rewrite Hx.
    destruct x; try discriminate. reflexivity.
Qed.

(** X19.  Nothing in the loop over the models catches: when the
    evaluation of a model raises and the models before it were evaluated
    or given up without raising, the run raises the same exception.  The
    results collected so far are not saved and no exposition is
    written. *)
Theorem one_failure_ends_the_run (self : ModelEvaluator) (data : list row)
    (before after : list string) (model_id : string) (e : exn) :
  (forall b, In b before ->
     exists r, evaluate_model request now b data = Return r) ->
  evaluate_model request now model_id data = Raise e ->
  evaluate_all_models request now fmt self (Some data)
    (Some (before ++ model_id :: after)%list)
  = Raise e.
Proof.
  intros Hbefore Hraise. unfold evaluate_all_models.
  assert (Hloop : evaluate_each request now self data
                    (before ++ model_id :: after) = Raise e);
    [| now rewrite Hloop].
  revert self. induction before as [| b before IH]; intros self; simpl.
  - now rewrite Hraise.
  - destruct (Hbefore b (or_introl eq_refl)) as [[m |] Hb]; rewrite Hb; simpl.
    + destruct (directional_accuracy_of _ _ _ Hb) as [x [Hx _]]. rewrite Hx.
      destruct (fltb x _); apply IH; intros b' Hb'; apply Hbefore; now right.
    + apply IH. intros b' Hb'. apply Hbefore. now right.
Qed.

(** X20.  Over a dataset without rows no call is made, so the error
    budget is not exceeded; the input check of the first metric raises
    [ValueError], for every model, and a run over at least one model
    raises it in turn. *)
Theorem empty_dataset (self : ModelEvaluator) (model_id : string)
    (models : list string) :
  get_predictions request model_id [] = Some []
  /\ evaluate_model request now model_id [] = Raise ValueError
  /\ evaluate_all_models request now fmt self (Some [])
       (Some (model_id :: models))
     = Raise ValueError.
Proof.
  split; [reflexivity |]. split; reflexivity.
Qed.

End ModelRun.

(** The service that answers every call, over the two rising prices: the
    metrics it gives and the run over it. *)
Lemma rising_metrics :
  exists m,
    EvaluateModels.evaluate_model Samples.perfect_service Samples.clock
      "BTC-USD" Samples.rising_prices = Return (Some m)
    /\ Py.get "directional_accuracy" m = Some (VNum (Fin 1)).
Proof.
  destruct (perfect_prediction_metrics Samples.perfect_service Samples.clock
              "BTC-USD" Samples.rising_prices
              (map (fun r => {| EvaluateModels.predicted_high := EvaluateModels.actual_price r;
                                EvaluateModels.predicted_low := EvaluateModels.actual_price r;
                                EvaluateModels.confidence := Fin 0.9 |})
                   Samples.rising_prices)
              [1%R; 2%R])
    as [m [Hm [_ [_ [_ [_ [Hda _]]]]]]];
    [simpl; lia | reflexivity | reflexivity | reflexivity |].
  now exists m.
Qed.

Lemma rising_run :
  exists self',
    EvaluateModels.evaluate_all_models Samples.perfect_service Samples.clock
      Samples.some_text Samples.evaluator
      (Some Samples.rising_prices) (Some ["BTC-USD"%string])
    = Return (true, self').
Proof.
  destruct rising_metrics as [m [Hm Hda]].
  unfold EvaluateModels.evaluate_all_models, EvaluateModels.evaluate_each.
  rewrite Hm. cbn [bind]. rewrite Hda.
  replace (fltb (Fin 1)
             (EvaluateModels.alert_threshold
                (EvaluateModels.store_result Samples.evaluator "BTC-USD" m)))
    with false by (simpl; now rewrite (proj2 (Rltb_false_iff 1 0.8)) by lra).
  cbn [bind]. eexists. reflexivity.
Qed.

(** X15 at the two rising prices. *)
Lemma metrics_shape_rising :
  exists m,
    EvaluateModels.evaluate_model Samples.perfect_service Samples.clock
      "BTC-USD" Samples.rising_prices = Return (Some m)
    /\ map fst m = metric_keys
    /\ List.length (EvaluateModels.export_lines [("BTC-USD"%string, m)]) = 9.
Proof.
  destruct rising_metrics as [m [Hm _]]. exists m. split; [exact Hm |].
  destruct (metrics_shape Samples.perfect_service Samples.clock
              "BTC-USD" Samples.rising_prices m Hm)
    as [_ [_ [Hkeys [_ [_ Hlines]]]]].
  split; [exact Hkeys |].
  rewrite <- (length_map line_name), Hlines. reflexivity.
Defined.

(** X16 at the two rising prices. *)
Lemma metric_ranges_rising :
  exists m,
    EvaluateModels.evaluate_model Samples.perfect_service Samples.clock
      "BTC-USD" Samples.rising_prices = Return (Some m)
    /\ exists x, Py.get "r2" m = Some (VNum x)
                 /\ (is_nan x = true \/ fleb x (Fin 1) = true).
Proof.
  destruct rising_metrics as [m [Hm _]]. exists m. split; [exact Hm |].
  exact (proj1 (proj2 (metric_ranges Samples.perfect_service Samples.clock
                         "BTC-USD" Samples.rising_prices m Hm))).
Defined.

(** X17 at the run over the two rising prices. *)
Lemma completed_run_rising :
  exists self',
    EvaluateModels.evaluate_all_models Samples.perfect_service Samples.clock
      Samples.some_text Samples.evaluator
      (Some Samples.rising_prices) (Some ["BTC-USD"%string])
    = Return (true, self')
    /\ EvaluateModels.model_metrics_txt self'
       = Some (EvaluateModels.export_metrics Samples.some_text
                 (EvaluateModels.results self')).
Proof.
  destruct rising_run as [self' Hrun]. exists self'. split; [exact Hrun |].
  assert (Hdup : NoDup ["BTC-USD"%string]).
  { constructor; [intros [] | constructor]. }
  exact (proj2 (proj2 (proj2 (proj2 (proj2
           (completed_run_results Samples.perfect_service Samples.clock
              Samples.some_text Samples.evaluator self' Samples.rising_prices
              ["BTC-USD"%string] true Hdup Hrun)))))).
Defined.

(** X18 at the same run: it was started without a webhook and sends
    nothing. *)
Lemma alerts_of_rising_run :
  exists self',
    EvaluateModels.evaluate_all_models Samples.perfect_service Samples.clock
      Samples.some_text Samples.evaluator
      (Some Samples.rising_prices) (Some ["BTC-USD"%string])
    = Return (true, self')
    /\ EvaluateModels.alerts_sent self' = [].
Proof.
  destruct rising_run as [self' Hrun]. exists self'. split; [exact Hrun |].
  assert (Hdup : NoDup ["BTC-USD"%string]).
  { constructor; [intros [] | constructor]. }
  destruct (alerts_of_a_run Samples.perfect_service Samples.clock
              Samples.some_text Samples.evaluator self' Samples.rising_prices
              ["BTC-USD"%string] true Hdup Hrun)
    as [new [Hsent [_ [_ [Hnone _]]]]].
  rewrite Hsent, (Hnone (or_introl eq_refl)). reflexivity.
Defined.

(** X19 at a service whose first five calls of a hundred fail: the run
    over two models raises at the first. *)
Lemma flaky_run_raises :
  EvaluateModels.evaluate_all_models (Samples.flaky_service 5) Samples.clock
    Samples.some_text Samples.evaluator
    (Some Samples.hundred_rows) (Some ["A"; "B"]%string)
  = Raise TypeError.
Proof.
  apply (one_failure_ends_the_run (Samples.flaky_service 5) Samples.clock
           Samples.some_text Samples.evaluator Samples.hundred_rows
           [] ["B"%string] "A" TypeError).
  - intros b [].
  - reflexivity.
Defined.

(* ================================================================= *)
(** ** The peak and the trend of the daily costs *)

Section DailyTrend.

Import AnalyzeCosts.

Local Open Scope R_scope.

Variable to_datetime : list string -> bool.

Lemma fold_fmax_spec (rest : list float) :
  forall a,
    is_nan a = false -> Forall (fun x => is_nan x = false) rest ->
    In (fold_left Pd.fmax rest a) (a :: rest)
    /\ forall x, In x (a :: rest) -> fltb (fold_left Pd.fmax rest a) x = false.
Proof.
  induction rest as [| b rest IH]; intros a Ha Hrest.
  - simpl. split; [now left |]. intros x [<- | []]. apply fltb_irrefl.
  - inversion Hrest as [| b' rest' Hb Hrest']; subst.
    cbn [fold_left]. unfold Pd.fmax at 2 4.
    destruct (fltb a b) eqn:E.
    + destruct (IH b Hb Hrest') as [Hin Hmax]. split; [now right |].
      intros x [<- | Hx]; [| now apply Hmax].
      apply (not_below_trans _ b _ Hb); [apply Hmax; now left |].
      now apply fltb_asym.
    + destruct (IH a Ha Hrest') as [Hin Hmax]. split.
      * destruct Hin as [Hin | Hin]; [now left | right; now right].
      * intros x [<- | [<- | Hx]].
        -- apply Hmax. now left.
        -- apply (not_below_trans _ a _ Ha); [apply Hmax; now left | exact E].
        -- apply Hmax. now right.
Qed.

Lemma dropna_clean (x : list float) :
  Forall (fun t => is_nan t = false) x -> Pd.dropna x = x.
Proof.
  unfold Pd.dropna. induction 1 as [| t x Ht _ IH]; simpl; [reflexivity |].
  now rewrite Ht, IH.
Qed.

Lemma add_cost_nonempty (d : string) (c : float) (acc : list (string * float)) :
  add_cost d c acc <> [].
Proof.
  destruct acc as [| [d' t] rest]; simpl; [discriminate |].
  destruct (String.compare d d'); discriminate.
Qed.

Lemma daily_costs_nonempty (df : list cost_row) :
  df <> [] -> daily_costs df <> [].
Proof.
  assert (Hgen : forall rows acc,
            acc <> [] ->
            fold_left (fun g r => add_cost (date r) (cost r) g) rows acc <> []).
  { induction rows as [| r rows IH]; intros acc Hacc; [exact Hacc |].
    cbn [fold_left]. apply IH. apply add_cost_nonempty. }
  intros Hne. unfold daily_costs. destruct df as [| r df]; [now elim Hne |].
  cbn [fold_left]. apply Hgen. apply add_cost_nonempty.
Qed.

(** X21.  On a frame with rows whose dates parse and none of whose daily
    totals is [nan], [max_daily_cost] is the total of one of the days and
    no day has a higher total. *)
Theorem daily_peak (df : list cost_row) :
  df <> [] ->
  to_datetime (map fst (daily_costs df)) = true ->
  Forall (fun t => is_nan (snd t) = false) (daily_costs df) ->
  exists stats mx d,
    analyze_daily_costs to_datetime df = Done stats
    /\ Py.get "max_daily_cost" stats = Some mx
    /\ In (d, mx) (daily_costs df)
    /\ (forall d' c, In (d', c) (daily_costs df) -> fltb mx c = false).
Proof.
  intros Hne Hparse Hclean.
  pose proof (daily_costs_nonempty df Hne) as Hdays.
  assert (Htotals : Forall (fun t => is_nan t = false) (map snd (daily_costs df))).
  { apply Forall_map. exact Hclean. }
  unfold analyze_daily_costs. destruct df as [| r df']; [now elim Hne |].
  rewrite Hparse. set (daily := daily_costs (r :: df')) in *.
  eexists. exists (Pd.max (map snd daily)).
  assert (Hmax : In (Pd.max (map snd daily)) (map snd daily)
                 /\ forall x, In x (map snd daily) ->
                              fltb (Pd.max (map snd daily)) x = false).
  { unfold Pd.max. rewrite (dropna_clean _ Htotals).
    destruct (map snd daily) as [| a rest] eqn:E.
    - destruct daily; [now elim Hdays | discriminate].
    - inversion Htotals; subst. now apply fold_fmax_spec. }
  destruct Hmax as [Hin Hmax]. apply in_map_iff in Hin.
  destruct Hin as [[d c] [Hc Hin]]. simpl in Hc.
  exists d. split; [reflexivity |].
  split; [rewrite get_next by reflexivity; rewrite get_next by reflexivity;
          apply get_here |].
  split; [now rewrite <- Hc |].
  intros d' c' Hin'. apply Hmax. apply in_map_iff. now exists (d', c').
Qed.

Lemma changes_Fin (cs : list R) :
  forall prev,
    0 < prev -> Forall (fun c => 0 < c) cs ->
    exists l,
      Pd.changes (Fin prev) (map Fin cs) = map Fin l
      /\ List.length l = List.length cs
      /\ (Sorted Rle (prev :: cs) -> Forall (fun x => 0 <= x) l)
      /\ (Sorted Rge (prev :: cs) -> Forall (fun x => x <= 0) l).
Proof.
  induction cs as [| c cs IH]; intros prev Hprev Hpos.
  - exists []. simpl. repeat split; constructor.
  - inversion Hpos as [| c' cs' Hc Hcs]; subst.
    destruct (IH c Hc Hcs) as [l [Hl [Hlen [Hup Hdown]]]].
    exists ((c / prev + - 1) :: l). cbn [map Pd.changes].
    rewrite (fdiv_Fin c prev) by lra. rewrite Hl.
    split; [reflexivity |]. split; [simpl; now rewrite Hlen |].
    assert (Hinv : 0 < / prev) by now apply Rinv_0_lt_compat.
    assert (Heq : c / prev + - 1 = (c - prev) * / prev) by (field; lra).
    split; intros Hs; inversion Hs as [| x xs Hrest Hhd]; subst;
      inversion Hhd as [| y ys Hle]; subst; constructor; auto; rewrite Heq.
    + apply Rmult_le_pos; lra.
    + assert (0 <= (prev - c) * / prev) by (apply Rmult_le_pos; lra). lra.
Qed.

(** X22.  On a frame whose daily totals are finite and positive and whose
    dates parse, [cost_trend] is [nan] over a single day; over more days
    it is not below zero when no day costs less than the day before, and
    not above zero when no day costs more. *)
Theorem cost_trend_sign (df : list cost_row) (daily : list (string * R)) :
  df <> [] ->
  daily_costs df = finite_days daily ->
  to_datetime (map fst (daily_costs df)) = true ->
  Forall (fun c => 0 < c) (map snd daily) ->
  exists stats trend,
    analyze_daily_costs to_datetime df = Done stats
    /\ Py.get "cost_trend" stats = Some trend
    /\ (List.length daily = 1%nat -> is_nan trend = true)
    /\ ((2 <= List.length daily)%nat ->
        (Sorted Rle (map snd daily) -> fleb (Fin 0) trend = true)
        /\ (Sorted Rge (map snd daily) -> fleb trend (Fin 0) = true)).
Proof.
  intros Hne Hd Hparse Hpos.
  unfold analyze_daily_costs. destruct df as [| r df']; [now elim Hne |].
  rewrite Hparse. eexists. eexists. split; [reflexivity |].
  split; [do 3 (rewrite get_next by reflexivity); apply get_here |].
  rewrite Hd, finite_days_costs.
  destruct (map snd daily) as [| c cs] eqn:Hcs.
  { destruct daily; [| discriminate]. simpl. split; [discriminate | lia]. }
  assert (Hlen : List.length daily = S (List.length cs)).
  { rewrite <- (length_map snd daily), Hcs. reflexivity. }
  inversion Hpos as [| c' cs' Hc Hrest]; subst.
  destruct (changes_Fin cs c Hc Hrest) as [l [Hl [Hll [Hup Hdown]]]].
  unfold Pd.pct_change. cbn [map]. rewrite Hl.
  assert (Hmean : Pd.mean (NaN :: map Fin l) = Pd.mean (map Fin l))
    by reflexivity.
  rewrite Hmean. split.
  - intros H1. rewrite Hlen in H1. destruct cs; [| discriminate].
    destruct l; [| discriminate].
    change (Pd.mean (map Fin [])) with (fdiv (Fin 0) (Fin 0)).
    now rewrite fdiv_zero_zero.
  - intros H2. rewrite Hlen in H2.
    assert (Hl0 : l <> []).
    { intros ->. simpl in Hll. lia. }
    rewrite (pd_mean_Fin l Hl0).
    assert (Hn : 0 < / INR (List.length l)).
    { apply Rinv_0_lt_compat, lt_0_INR. destruct l; [contradiction | simpl; lia]. }
    unfold mean_of. split; intros Hs; apply fleb_Fin.
    + apply Rmult_le_pos; [| lra]. apply Rsum_nonneg. now apply Hup.
    + assert (Hneg : 0 <= Rsum (map Ropp l)).
      { apply Rsum_nonneg. apply Forall_map.
        eapply Forall_impl; [| exact (Hdown Hs)]. simpl. intros x Hx. lra. }
      assert (Hopp : Rsum (map Ropp l) = - Rsum l).
      { clear. induction l as [| x l IH]; simpl; [lra | rewrite IH; lra]. }
      rewrite Hopp in Hneg.
      assert (0 <= (- Rsum l) * / INR (List.length l))
        by (apply Rmult_le_pos; lra).
      unfold Rdiv. lra.
Qed.

End DailyTrend.

(** X21 and X22 at nine days at 1 followed by one at 10: the peak is not
    below 10, and the trend is not below zero. *)
Lemma daily_peak_outlier :
  exists stats mx,
    AnalyzeCosts.analyze_daily_costs Samples.any_date Samples.outlier_costs
    = AnalyzeCosts.Done stats
    /\ Py.get "max_daily_cost" stats = Some mx
    /\ fltb mx (Fin 10) = false.
Proof.
  destruct (daily_peak Samples.any_date Samples.outlier_costs)
    as [stats [mx [d [Hrun [Hmx [_ Hmax]]]]]];
    [discriminate | reflexivity | simpl; repeat constructor |].
  exists stats, mx. split; [exact Hrun |]. split; [exact Hmx |].
  apply (Hmax "2024-01-10"%string). simpl. do 9 right. now left.
Defined.

Lemma cost_trend_outlier :
  exists stats trend,
    AnalyzeCosts.analyze_daily_costs Samples.any_date Samples.outlier_costs
    = AnalyzeCosts.Done stats
    /\ Py.get "cost_trend" stats = Some trend
    /\ fleb (Fin 0) trend = true.
Proof.
  destruct (cost_trend_sign Samples.any_date Samples.outlier_costs
              Samples.outlier_days)
    as [stats [trend [Hrun [Htrend [_ Hmany]]]]];
    [discriminate | reflexivity | reflexivity
     | simpl; repeat constructor; lra |].
  destruct Hmany as [Hup _]; [simpl; lia |].
  exists stats, trend. split; [exact Hrun |]. split; [exact Htrend |].
  apply Hup. simpl. repeat constructor; lra.
Defined.

(* ================================================================= *)
(** ** Too few days for an anomaly *)

Section FewDays.

Import AnalyzeCosts.

Local Open Scope R_scope.

Lemma Rsum_app (l1 l2 : list R) : Rsum (l1 ++ l2) = Rsum l1 + Rsum l2.
Proof. induction l1 as [| a l1 IH]; simpl; [lra | rewrite IH; lra]. Qed.

Lemma squares_shifted (a : R) (l : list R) :
  Rsum (map (fun x => (x - a) * (x - a)) l)
  = Rsum (map (fun x => x * x) l) - 2 * a * Rsum l
    + INR (List.length l) * (a * a).
Proof.
  induction l as [| x l IH].
  - simpl. ring.
  - change (List.length (x :: l)) with (S (List.length l)). rewrite S_INR.
    cbn [map Rsum]. rewrite IH. ring.
Qed.

(** The square of a sum is at most the number of terms times the sum of
    the squares. *)
Lemma square_of_sum (l : list R) :
  Rsum l * Rsum l <= INR (List.length l) * Rsum (map (fun x => x * x) l).
Proof.
  induction l as [| a l IH].
  - simpl. lra.
  - change (List.length (a :: l)) with (S (List.length l)). rewrite S_INR.
    cbn [map Rsum].
    pose proof (Rsum_squares_nonneg a l) as Hnn. rewrite squares_shifted in Hnn.
    nra.
Qed.

Lemma deviations_sum (m : R) (l : list R) :
  Rsum (map (fun x => x - m) l) = Rsum l - INR (List.length l) * m.
Proof.
  induction l as [| x l IH].
  - simpl. ring.
  - change (List.length (x :: l)) with (S (List.length l)). rewrite S_INR.
    cbn [map Rsum]. rewrite IH. ring.
Qed.

(** No value lies far from the mean of its series: [n] times its squared
    deviation is at most [n - 1] times the sum of all squared
    deviations. *)
Lemma deviation_bound (rs : list R) (r : R) :
  In r rs ->
  INR (List.length rs) * ((r - mean_of rs) * (r - mean_of rs))
  <= INR (List.length rs - 1) * total_squares rs.
Proof.
  intros Hin.
  assert (Hn : INR (List.length rs) <> 0).
  { apply INR_pos_neq. destruct rs; [destruct Hin | simpl; lia]. }
  assert (H0 : Rsum (map (fun x => x - mean_of rs) rs) = 0).
  { rewrite deviations_sum. unfold mean_of. field. exact Hn. }
  assert (HS : total_squares rs
               = Rsum (map (fun a => (a - mean_of rs) * (a - mean_of rs)) rs))
    by reflexivity.
  rewrite HS. clear HS Hn. generalize dependent (mean_of rs). intros m H0.
  destruct (in_split r rs Hin) as [l1 [l2 ->]].
  rewrite !map_app, !Rsum_app in *. cbn [map Rsum] in *.
  rewrite length_app. cbn [List.length].
  replace (List.length l1 + S (List.length l2) - 1)%nat
    with (List.length l1 + List.length l2)%nat by lia.
  replace (List.length l1 + S (List.length l2))%nat
    with (S (List.length l1 + List.length l2)) by lia.
  rewrite S_INR, plus_INR.
  pose proof (square_of_sum (map (fun x => x - m) l1 ++ map (fun x => x - m) l2))
    as Hcs.
  rewrite length_app, !length_map, plus_INR, map_app, !map_map, !Rsum_app in Hcs.
  set (s1 := Rsum (map (fun x => x - m) l1)) in *.
  set (s2 := Rsum (map (fun x => x - m) l2)) in *.
  set (q1 := Rsum (map (fun x => (x - m) * (x - m)) l1)) in *.
  set (q2 := Rsum (map (fun x => (x - m) * (x - m)) l2)) in *.
  set (k1 := INR (List.length l1)) in *. set (k2 := INR (List.length l2)) in *.
  assert (Hd : r - m = - (s1 + s2)) by lra.
  rewrite Hd. nra.
Qed.

(** X23.  In exact arithmetic, five days or fewer never hold an anomaly:
    whatever the finite daily totals, no z-score taken with the sample
    deviation gets beyond 2 (it is at most 4 over the square root of 5),
    and [analyze_anomalies] returns [None].  The rounding of binary64 is
    not part of this statement: where the squared deviations underflow to
    zero, as for the totals 0, 0, 0, 0, 1e-200, the code divides by a
    deviation of zero and returns days. *)
Theorem few_days_no_anomaly (df : list cost_row) (daily : list (string * R)) :
  df <> [] ->
  daily_costs df = finite_days daily ->
  (List.length daily <= 5)%nat ->
  analyze_anomalies df = Done None.
Proof.
  intros Hne Hdaily Hfew. set (rs := map snd daily).
  assert (Hrs : List.length rs = List.length daily) by apply length_map.
  destruct (Req_dec_T (total_squares rs) 0) as [Hz | Hnz].
  - apply (analyze_anomalies_constant df daily Hne Hdaily).
    intros a b Ha Hb.
    now rewrite (Rsum_squares_zero _ _ Hz a Ha), (Rsum_squares_zero _ _ Hz b Hb).
  - assert (Hpos : 0 < total_squares rs).
    { pose proof (Rsum_squares_nonneg (Rsum rs / INR (List.length rs)) rs) as H.
      fold (total_squares rs) in H. lra. }
    assert (Hlen : (2 <= List.length rs)%nat).
    { destruct rs as [| a [| b rs']]; simpl; try lia; exfalso; apply Hnz;
        unfold total_squares; simpl; field. }
    assert (Hv : 0 < sample_variance rs).
    { unfold sample_variance. apply Rmult_lt_0_compat; [exact Hpos |].
      apply Rinv_0_lt_compat, lt_0_INR. lia. }
    rewrite (analyze_anomalies_finite df daily Hne Hdaily Hv).
    rewrite filter_all_false; [reflexivity |].
    intros row Hrow. apply in_map_iff in Hrow.
    destruct Hrow as [[d r] [<- Hin]]. cbn [zscore]. fold rs.
    destruct (fgtb (fabs (Fin (zscore_of rs r))) (Fin 2)) eqn:E;
      [| reflexivity].
    apply flag_iff in E; [| exact Hv]. exfalso.
    assert (Hr : In r rs).
    { change r with (snd (d, r)). now apply in_map. }
    pose proof (deviation_bound rs r Hr) as Hb.
    unfold sample_variance in E.
    assert (Hn : (List.length rs = 2 \/ List.length rs = 3
                  \/ List.length rs = 4 \/ List.length rs = 5)%nat) by lia.
    destruct Hn as [Hn | [Hn | [Hn | Hn]]]; rewrite Hn in *; simpl in Hb, E;
      lra.
Qed.

End FewDays.

(** X23 at four days at 1 followed by one at 10. *)
Lemma five_days_are_quiet :
  AnalyzeCosts.analyze_anomalies Samples.spike_costs = AnalyzeCosts.Done None.
Proof.
  apply (few_days_no_anomaly Samples.spike_costs Samples.spike_days).
  - discriminate.
  - reflexivity.
  - simpl. lia.
Defined.
